(** * SkillBridge: the roadmap route and its specification

    The development follows [backend/app/api/routes/roadmap.py]
    ([generate_roadmap]) together with the pieces it calls:
    [EmbeddingService.generate_embedding], [GeminiService.generate_content],
    the [LearningStep] schema, Python's [str] methods, [re.search],
    [json.loads] and the SQL [ILIKE] operator the title query renders to.

    Conventions of the embedding.
    - Text is [string]: a sequence of 8-bit characters.  The [str] methods
      ([lower], [split], [strip], [isdigit]) are exact on ASCII text;
      characters above 127 are carried through unchanged.
    - A Python [float] that is only stored or passed on is carried as a
      rational; the confidence score is the exact quotient of the two set
      sizes that Python's [/] rounds to the nearest double.
    - A raised exception is a value of [Exception]; code that may raise
      returns [Exception + A] and is sequenced with [x <- c ;; k].
    - The interpreter's limits.  [int] converts no string of more than 4300
      digits ([PyStr.to_int]).  The JSON decoder is modelled on the texts
      that can reach neither that limit nor the recursion limit
      ([Json.within_limits]); statements about a text that does not decode
      carry that bound.
    - A Python [set] is the duplicate-free list of its elements in iteration
      order; the order a hash table yields is the parameter [set_iter].
    - The database is the pair of tables the route reads and writes; its
      queries and its commit answer, and so does the loading of the
      sentence encoder.  Logging is left out, and so is the creation
      timestamp of a stored roadmap. *)

From Stdlib Require Import String Ascii List ZArith QArith Qabs Bool Lia.
From Stdlib Require Import Permutation Sorted DecimalString.
Import ListNotations.

Set Warnings "-register-all".

Open Scope string_scope.
Open Scope Z_scope.

(** ** Exceptions and the error monad *)

(** [ValueError] carries the text the source gives it; [TypeError],
    [IndexError] and [ValidationError] are raised by the interpreter and by
    the schema library; [ServiceError] is whatever an outside service raises;
    [json.JSONDecodeError] never leaves the decoder's caller and is the
    [None] of [Json.loads]. *)
Inductive Exception : Type :=
| ValueError (msg : string)
| TypeError
| IndexError
| ValidationError
| ServiceError (msg : string)
| HTTPException (status_code : Z) (detail : string).

Definition raise {A : Type} (e : Exception) : Exception + A := inl e.
Definition ret {A : Type} (a : A) : Exception + A := inr a.

Definition bind {A B : Type} (c : Exception + A) (k : A -> Exception + B)
  : Exception + B :=
  match c with
  | inl e => inl e
  | inr a => k a
  end.

Notation "x <- c ;; k" := (bind c (fun x => k))
  (at level 61, c at next level, right associativity).

Fixpoint mapM {A B : Type} (f : A -> Exception + B) (l : list A)
  : Exception + list B :=
  match l with
  | [] => ret []
  | a :: l' => b <- f a ;; bs <- mapM f l' ;; ret (b :: bs)
  end.

(** ** Python [str] methods *)

Module PyStr.

Definition is_upper (c : ascii) : bool :=
  let n := nat_of_ascii c in (65 <=? n)%nat && (n <=? 90)%nat.

Definition lower_char (c : ascii) : ascii :=
  if is_upper c then ascii_of_nat (nat_of_ascii c + 32) else c.

(** [s.lower()] *)
Fixpoint lower (s : string) : string :=
  match s with
  | EmptyString => EmptyString
  | String c s' => String (lower_char c) (lower s')
  end.

(** The characters [str.split()] and [str.strip()] treat as blank:
    TAB, LF, VT, FF, CR, FS, GS, RS, US and the space. *)
Definition isspace (c : ascii) : bool :=
  let n := nat_of_ascii c in
  ((9 <=? n)%nat && (n <=? 13)%nat)
  || ((28 <=? n)%nat && (n <=? 31)%nat)
  || (n =? 32)%nat.

Fixpoint all_space (s : string) : bool :=
  match s with
  | EmptyString => true
  | String c s' => isspace c && all_space s'
  end.

(** [s.split()]: the maximal runs of non-blank characters, in order. *)
Fixpoint split (s : string) : list string :=
  match s with
  | EmptyString => []
  | String c s' =>
      if isspace c then split s'
      else
        match s' with
        | EmptyString => [String c EmptyString]
        | String c' _ =>
            if isspace c' then String c EmptyString :: split s'
            else
              match split s' with
              | t :: ts => String c t :: ts
              | [] => [String c EmptyString]
              end
        end
  end.

Definition is_digit (c : ascii) : bool :=
  let n := nat_of_ascii c in (48 <=? n)%nat && (n <=? 57)%nat.

Fixpoint all_digits (s : string) : bool :=
  match s with
  | EmptyString => true
  | String c s' => is_digit c && all_digits s'
  end.

(** [s.isdigit()]: at least one character, and all of them digits. *)
Definition isdigit (s : string) : bool :=
  match s with
  | EmptyString => false
  | _ => all_digits s
  end.

Definition digit_value (c : ascii) : Z := Z.of_nat (nat_of_ascii c) - 48.

Fixpoint int_acc (acc : Z) (s : string) : Z :=
  match s with
  | EmptyString => acc
  | String c s' => int_acc (10 * acc + digit_value c) s'
  end.

(** [int(s)] on a string of digits. *)
Definition int (s : string) : Z := int_acc 0 s.

(** [str(n)], as an f-string renders an [int]. *)
Definition str (n : Z) : string := NilZero.string_of_int (Z.to_int n).

(** [sys.int_info.default_max_str_digits]: the interpreter converts no
    string of more decimal digits to an [int]; nothing in the repository
    changes the limit. *)
Definition int_max_str_digits : nat := 4300.

(** [int(s)] on a string of digits, with that limit. *)
Definition to_int (s : string) : Exception + Z :=
  if (int_max_str_digits <? String.length s)%nat then
    raise
      (ValueError
         ("Exceeds the limit (4300 digits) for integer string conversion: "
          ++ "value has " ++ str (Z.of_nat (String.length s))
          ++ " digits; use sys.set_int_max_str_digits() to increase the limit"))
  else ret (int s).

(** [sep.join(l)] *)
Definition join (sep : string) (l : list string) : string :=
  String.concat sep l.

(** [x in l] for a list or a set of strings. *)
Definition mem (x : string) (l : list string) : bool :=
  existsb (String.eqb x) l.

(** [needle in haystack] for two strings. *)
Fixpoint contains (needle haystack : string) : bool :=
  String.prefix needle haystack
  || match haystack with
     | EmptyString => false
     | String _ h' => contains needle h'
     end.

(** [s.strip()] *)
Fixpoint lstrip (s : string) : string :=
  match s with
  | EmptyString => EmptyString
  | String c s' => if isspace c then lstrip s' else s
  end.

Fixpoint rstrip (s : string) : string :=
  match s with
  | EmptyString => EmptyString
  | String c s' =>
      match rstrip s' with
      | EmptyString => if isspace c then EmptyString else String c EmptyString
      | t => String c t
      end
  end.

Definition strip (s : string) : string := rstrip (lstrip s).

(** [not text or not text.strip()] *)
Definition blank (s : string) : bool := all_space s.

End PyStr.

(** ** SQL pattern matching: [title ILIKE pattern]

    [JobPosting.title.ilike(p)] renders to PostgreSQL's [ILIKE] with the
    default escape character: in the pattern [%] stands for any run of
    characters, [_] for any one character, and a backslash takes the next
    character literally; letters are compared without regard to case. *)

Module Sql.

Inductive pat_item : Type :=
| PAny                      (* % *)
| POne                      (* _ *)
| PLit (c : ascii).

(** Reading the pattern text.  A pattern that ends in a lone escape
    character is refused by the server. *)
Fixpoint parse_pattern (p : string) : option (list pat_item) :=
  match p with
  | EmptyString => Some []
  | String "\" EmptyString => None
  | String "\" (String c p') => option_map (cons (PLit c)) (parse_pattern p')
  | String "%" p' => option_map (cons PAny) (parse_pattern p')
  | String "_" p' => option_map (cons POne) (parse_pattern p')
  | String c p' => option_map (cons (PLit c)) (parse_pattern p')
  end.

Fixpoint like (p : list pat_item) (s : string) {struct p} : bool :=
  match p with
  | [] => match s with EmptyString => true | _ => false end
  | PLit c :: p' =>
      match s with
      | String d s' =>
          Ascii.eqb (PyStr.lower_char c) (PyStr.lower_char d) && like p' s'
      | EmptyString => false
      end
  | POne :: p' =>
      match s with
      | String _ s' => like p' s'
      | EmptyString => false
      end
  | PAny :: p' =>
      (fix skip (t : string) : bool :=
         like p' t
         || match t with
            | String _ t' => skip t'
            | EmptyString => false
            end) s
  end.

(** [s ILIKE p]; [None] when the server rejects the pattern. *)
Definition ilike (s p : string) : option bool :=
  option_map (fun items => like items s) (parse_pattern p).

(** The characters with a special meaning in a pattern. *)
Definition is_meta (c : ascii) : bool :=
  Ascii.eqb c "%" || Ascii.eqb c "_" || Ascii.eqb c "\".

Fixpoint no_meta (s : string) : bool :=
  match s with
  | EmptyString => true
  | String c s' => negb (is_meta c) && no_meta s'
  end.

(** The pattern items of a text without special characters. *)
Fixpoint literals (s : string) : list pat_item :=
  match s with
  | EmptyString => []
  | String c s' => PLit c :: literals s'
  end.

End Sql.

(** ** [re.search(r'\[.*\]', text, re.DOTALL)] *)

Module Re.

(** The longest prefix of [s] that ends in a closing bracket: what the
    greedy [.*\]] consumes, [.] matching every character under DOTALL. *)
Fixpoint upto_last_close (s : string) : option string :=
  match s with
  | EmptyString => None
  | String c s' =>
      match upto_last_close s' with
      | Some m => Some (String c m)
      | None => if Ascii.eqb c "]" then Some (String c EmptyString) else None
      end
  end.

(** The pattern anchored at the first character of [s]. *)
Definition match_here (s : string) : option string :=
  match s with
  | String "[" s' => option_map (String "[") (upto_last_close s')
  | _ => None
  end.

(** [re.search]: the match at the leftmost position that has one;
    the result is [m.group()]. *)
Fixpoint search (s : string) : option string :=
  match match_here s with
  | Some m => Some m
  | None =>
      match s with
      | EmptyString => None
      | String _ s' => search s'
      end
  end.

(** [c in s] for a character. *)
Fixpoint occurs (c : ascii) (s : string) : bool :=
  match s with
  | EmptyString => false
  | String d s' => Ascii.eqb d c || occurs c s'
  end.

End Re.

(** ** [json.loads]

    The decoder of CPython's [json] package: the JSON grammar, plus the
    constants [NaN], [Infinity] and [-Infinity]; [strict] strings (no raw
    control character); blanks are space, TAB, LF and CR.  A number with a
    fraction or an exponent is a float and is kept as its lexeme.  The input
    is cut into tokens by a one-character-at-a-time automaton and the tokens
    are assembled by a pushdown automaton, so that decoding is total: every
    rejected text is [None], the [JSONDecodeError] of the source.

    The interpreter has two limits that the grammar does not have: it
    raises [RecursionError] on a text nested deeper than its recursion limit
    leaves room for, and [ValueError] on an integer of more digits than
    [int] converts; neither is a [JSONDecodeError].  [loads] is the decoder
    on the texts that cannot reach these limits, which [within_limits]
    recognizes; on the others it says what the grammar says. *)

Module Json.

Inductive json : Type :=
| JNull
| JBool (b : bool)
| JInt (n : Z)
| JFloat (lexeme : string)
| JStr (s : string)
| JArr (items : list json)
| JObj (members : list (string * json)).

Inductive token : Type :=
| TLBracket | TRBracket | TLBrace | TRBrace | TComma | TColon
| TValue (v : json).

Inductive num_phase : Type :=
| NZero | NInt | NDot | NFrac | NE | NESign | NExp.

(** Accumulators hold their characters latest first. *)
Inductive lex_state : Type :=
| LStart
| LKeyword (rest : string) (v : json)
| LMinus
| LNumber (ph : num_phase) (acc : string)
| LString (acc : string) (hi : option Z)
| LEscape (acc : string) (hi : option Z)
| LUnicode (acc : string) (hi : option Z) (count : nat) (value : Z).

Fixpoint rev_onto (acc s : string) : string :=
  match acc with
  | EmptyString => s
  | String c acc' => rev_onto acc' (String c s)
  end.

Definition rev_string (acc : string) : string := rev_onto acc EmptyString.

(** The double quote. *)
Definition dquote : ascii := "034"%char.

Definition is_blank (c : ascii) : bool :=
  Ascii.eqb c " " || Ascii.eqb c "009" || Ascii.eqb c "010"
  || Ascii.eqb c "013".

Definition byte (n : Z) : ascii := ascii_of_N (Z.to_N (n mod 256)).

(** The UTF-8 bytes of a code point pushed on an accumulator. *)
Definition push_code_point (cp : Z) (acc : string) : string :=
  if cp <? 128 then String (byte cp) acc
  else if cp <? 2048 then
    String (byte (128 + cp mod 64)) (String (byte (192 + cp / 64)) acc)
  else if cp <? 65536 then
    String (byte (128 + cp mod 64))
      (String (byte (128 + (cp / 64) mod 64))
         (String (byte (224 + cp / 4096)) acc))
  else
    String (byte (128 + cp mod 64))
      (String (byte (128 + (cp / 64) mod 64))
         (String (byte (128 + (cp / 4096) mod 64))
            (String (byte (240 + cp / 262144)) acc))).

(** A high surrogate waiting for its partner is written out alone as soon
    as something else follows. *)
Definition flush (hi : option Z) (acc : string) : string :=
  match hi with
  | Some h => push_code_point h acc
  | None => acc
  end.

Definition hex_value (c : ascii) : option Z :=
  let n := Z.of_nat (nat_of_ascii c) in
  if (48 <=? n) && (n <=? 57) then Some (n - 48)
  else if (65 <=? n) && (n <=? 70) then Some (n - 55)
  else if (97 <=? n) && (n <=? 102) then Some (n - 87)
  else None.

Definition number_value (ph : num_phase) (acc : string) : option json :=
  match ph with
  | NZero | NInt =>
      match rev_string acc with
      | String "-" ds => Some (JInt (- PyStr.int ds))
      | ds => Some (JInt (PyStr.int ds))
      end
  | NFrac | NExp => Some (JFloat (rev_string acc))
  | NDot | NE | NESign => None
  end.

(** A character met where a token may begin. *)
Definition lex_start (c : ascii) : option (list token * lex_state) :=
  if is_blank c then Some ([], LStart)
  else if Ascii.eqb c "[" then Some ([TLBracket], LStart)
  else if Ascii.eqb c "]" then Some ([TRBracket], LStart)
  else if Ascii.eqb c "{" then Some ([TLBrace], LStart)
  else if Ascii.eqb c "}" then Some ([TRBrace], LStart)
  else if Ascii.eqb c "," then Some ([TComma], LStart)
  else if Ascii.eqb c ":" then Some ([TColon], LStart)
  else if Ascii.eqb c dquote then Some ([], LString EmptyString None)
  else if Ascii.eqb c "n" then Some ([], LKeyword "ull" JNull)
  else if Ascii.eqb c "t" then Some ([], LKeyword "rue" (JBool true))
  else if Ascii.eqb c "f" then Some ([], LKeyword "alse" (JBool false))
  else if Ascii.eqb c "N" then Some ([], LKeyword "aN" (JFloat "NaN"))
  else if Ascii.eqb c "I" then
    Some ([], LKeyword "nfinity" (JFloat "Infinity"))
  else if Ascii.eqb c "-" then Some ([], LMinus)
  else if Ascii.eqb c "0" then Some ([], LNumber NZero (String c EmptyString))
  else if PyStr.is_digit c then
    Some ([], LNumber NInt (String c EmptyString))
  else None.

(** The number just read is complete; [c] starts what follows. *)
Definition lex_number_done (ph : num_phase) (acc : string) (c : ascii)
  : option (list token * lex_state) :=
  match number_value ph acc, lex_start c with
  | Some v, Some (ts, st) => Some (TValue v :: ts, st)
  | _, _ => None
  end.

Definition is_exp_mark (c : ascii) : bool :=
  Ascii.eqb c "e" || Ascii.eqb c "E".

Definition lex_number (ph : num_phase) (acc : string) (c : ascii)
  : option (list token * lex_state) :=
  let continue ph' := Some ([], LNumber ph' (String c acc)) in
  match ph with
  | NZero =>
      if Ascii.eqb c "." then continue NDot
      else if is_exp_mark c then continue NE
      else lex_number_done ph acc c
  | NInt =>
      if PyStr.is_digit c then continue NInt
      else if Ascii.eqb c "." then continue NDot
      else if is_exp_mark c then continue NE
      else lex_number_done ph acc c
  | NDot => if PyStr.is_digit c then continue NFrac else None
  | NFrac =>
      if PyStr.is_digit c then continue NFrac
      else if is_exp_mark c then continue NE
      else lex_number_done ph acc c
  | NE =>
      if Ascii.eqb c "+" || Ascii.eqb c "-" then continue NESign
      else if PyStr.is_digit c then continue NExp
      else None
  | NESign => if PyStr.is_digit c then continue NExp else None
  | NExp =>
      if PyStr.is_digit c then continue NExp
      else lex_number_done ph acc c
  end.

Definition escape_char (c : ascii) : option ascii :=
  if Ascii.eqb c dquote || Ascii.eqb c "\" || Ascii.eqb c "/" then Some c
  else if Ascii.eqb c "b" then Some "008"%char
  else if Ascii.eqb c "f" then Some "012"%char
  else if Ascii.eqb c "n" then Some "010"%char
  else if Ascii.eqb c "r" then Some "013"%char
  else if Ascii.eqb c "t" then Some "009"%char
  else None.

(** The fourth hexadecimal digit of a [\u] escape has been read. *)
Definition end_unicode (acc : string) (hi : option Z) (cp : Z) : lex_state :=
  let is_low := (56320 <=? cp) && (cp <=? 57343) in
  let is_high := (55296 <=? cp) && (cp <=? 56319) in
  match hi with
  | Some h =>
      if is_low then
        LString
          (push_code_point (65536 + (h - 55296) * 1024 + (cp - 56320)) acc)
          None
      else if is_high then LString (push_code_point h acc) (Some cp)
      else LString (push_code_point cp (push_code_point h acc)) None
  | None =>
      if is_high then LString acc (Some cp)
      else LString (push_code_point cp acc) None
  end.

Definition lex_step (st : lex_state) (c : ascii)
  : option (list token * lex_state) :=
  match st with
  | LStart => lex_start c
  | LKeyword rest v =>
      match rest with
      | String r EmptyString =>
          if Ascii.eqb c r then Some ([TValue v], LStart) else None
      | String r rest' =>
          if Ascii.eqb c r then Some ([], LKeyword rest' v) else None
      | EmptyString => None
      end
  | LMinus =>
      if Ascii.eqb c "0" then Some ([], LNumber NZero "0-")
      else if PyStr.is_digit c then
        Some ([], LNumber NInt (String c "-"))
      else if Ascii.eqb c "I" then
        Some ([], LKeyword "nfinity" (JFloat "-Infinity"))
      else None
  | LNumber ph acc => lex_number ph acc c
  | LString acc hi =>
      if Ascii.eqb c dquote then
        Some ([TValue (JStr (rev_string (flush hi acc)))], LStart)
      else if Ascii.eqb c "\" then Some ([], LEscape acc hi)
      else if (nat_of_ascii c <? 32)%nat then None
      else Some ([], LString (String c (flush hi acc)) None)
  | LEscape acc hi =>
      if Ascii.eqb c "u" then Some ([], LUnicode acc hi 0 0)
      else
        match escape_char c with
        | Some e => Some ([], LString (String e (flush hi acc)) None)
        | None => None
        end
  | LUnicode acc hi count value =>
      match hex_value c with
      | Some h =>
          let value' := 16 * value + h in
          if (count =? 3)%nat then Some ([], end_unicode acc hi value')
          else Some ([], LUnicode acc hi (S count) value')
      | None => None
      end
  end.

Definition lex_end (st : lex_state) : option (list token) :=
  match st with
  | LStart => Some []
  | LNumber ph acc => option_map (fun v => [TValue v]) (number_value ph acc)
  | _ => None
  end.

Fixpoint lex (st : lex_state) (s : string) : option (list token) :=
  match s with
  | EmptyString => lex_end st
  | String c s' =>
      match lex_step st c with
      | Some (ts, st') => option_map (app ts) (lex st' s')
      | None => None
      end
  end.

(** Assembling the tokens.  A frame is a container under construction:
    its members so far, latest first, and for an object the key whose
    value is being read. *)
Inductive frame : Type :=
| FArr (items : list json)
| FObj (members : list (string * json)) (key : option string).

Inductive mode : Type :=
| MValue (may_close : bool)     (* a value; [[]] may close just after [[] *)
| MKey (may_close : bool)       (* a member name *)
| MColon
| MAfter                        (* a comma or the closing bracket *)
| MDone (v : json).

Definition deliver (v : json) (stack : list frame)
  : option (list frame * mode) :=
  match stack with
  | [] => Some ([], MDone v)
  | FArr items :: stack' => Some (FArr (v :: items) :: stack', MAfter)
  | FObj members (Some k) :: stack' =>
      Some (FObj ((k, v) :: members) None :: stack', MAfter)
  | FObj _ None :: _ => None
  end.

Definition parse_step (stack : list frame) (m : mode) (t : token)
  : option (list frame * mode) :=
  match m, t with
  | MValue _, TValue v => deliver v stack
  | MValue _, TLBracket => Some (FArr [] :: stack, MValue true)
  | MValue _, TLBrace => Some (FObj [] None :: stack, MKey true)
  | MValue true, TRBracket =>
      match stack with
      | FArr [] :: stack' => deliver (JArr []) stack'
      | _ => None
      end
  | MKey _, TValue (JStr k) =>
      match stack with
      | FObj members None :: stack' =>
          Some (FObj members (Some k) :: stack', MColon)
      | _ => None
      end
  | MKey true, TRBrace =>
      match stack with
      | FObj [] None :: stack' => deliver (JObj []) stack'
      | _ => None
      end
  | MColon, TColon => Some (stack, MValue false)
  | MAfter, TComma =>
      match stack with
      | FArr _ :: _ => Some (stack, MValue false)
      | FObj _ _ :: _ => Some (stack, MKey false)
      | [] => None
      end
  | MAfter, TRBracket =>
      match stack with
      | FArr items :: stack' => deliver (JArr (rev items)) stack'
      | _ => None
      end
  | MAfter, TRBrace =>
      match stack with
      | FObj members None :: stack' => deliver (JObj (rev members)) stack'
      | _ => None
      end
  | _, _ => None
  end.

Fixpoint parse (stack : list frame) (m : mode) (ts : list token)
  : option json :=
  match ts with
  | [] => match m with MDone v => Some v | _ => None end
  | t :: ts' =>
      match parse_step stack m t with
      | Some (stack', m') => parse stack' m' ts'
      | None => None
      end
  end.

(** [json.loads(s)]; [None] is [JSONDecodeError]. *)
Definition loads (s : string) : option json :=
  match lex LStart s with
  | Some ts => parse [] (MValue false) ts
  | None => None
  end.

(** The longest run of decimal digits in [s]; [run] is the length of the
    run being read and [longest] that of the longest one read. *)
Fixpoint digit_run (run longest : nat) (s : string) : nat :=
  match s with
  | EmptyString => Nat.max run longest
  | String c s' =>
      if PyStr.is_digit c then digit_run (S run) longest s'
      else digit_run 0 (Nat.max run longest) s'
  end.

Definition longest_digit_run (s : string) : nat := digit_run 0 0 s.

(** The opening brackets and braces of [s]: no value of [s] is nested
    deeper. *)
Fixpoint openings (s : string) : nat :=
  match s with
  | EmptyString => 0
  | String c s' =>
      if Ascii.eqb c "[" || Ascii.eqb c "{" then S (openings s')
      else openings s'
  end.

(** A text that cannot reach the interpreter's limits, whatever its
    syntax: no integer of [s] has more digits than [int] converts, and [s]
    is nested no deeper than [room], the depth the recursion limit leaves
    to the decoder. *)
Definition within_limits (room : nat) (s : string) : bool :=
  (longest_digit_run s <=? PyStr.int_max_str_digits)%nat
  && (openings s <=? room)%nat.

(** [d.get(k)] on the [dict] built from an object: of two members with
    one name the later one stays. *)
Fixpoint get (k : string) (members : list (string * json)) : option json :=
  match members with
  | [] => None
  | (k', v) :: rest =>
      match get k rest with
      | Some v' => Some v'
      | None => if String.eqb k k' then Some v else None
      end
  end.

End Json.

(** ** The data model: [app/db/models.py] and [app/api/schemas.py] *)

(** A stored embedding, [Vector(384)]; its coordinates are never inspected
    by the route. *)
Definition Vector : Type := list Q.

Module JobPosting.
Record t : Type := mk {
  id : Z;
  title : string;
  required_skills : option (list string);    (* ARRAY(String), nullable *)
  preferred_skills : option (list string);
  skills_embedding : Vector
}.
End JobPosting.

Module RoadmapRequest.
Record t : Type := mk {
  current_skills : list string;               (* min_items=1 *)
  target_role : string;
  target_salary : option Q;
  experience_years : option Q
}.
End RoadmapRequest.

Module LearningStep.
Record t : Type := mk {
  step : Z;
  title : string;
  description : string;
  estimated_duration : string;
  resources : list string;
  skills_gained : list string
}.
End LearningStep.

Module CareerRoadmap.
Record t : Type := mk {
  id : Z;
  current_skills : list string;
  target_role : string;
  target_salary : option Q;
  skill_gaps : list string;
  recommended_skills : list string;
  learning_path : list LearningStep.t;
  estimated_timeline : string;
  confidence_score : Q
}.
End CareerRoadmap.

Module RoadmapResponse.
Record t : Type := mk {
  id : Z;
  target_role : string;
  current_skills : list string;
  skill_gaps : list string;
  recommended_skills : list string;
  learning_path : list LearningStep.t;
  estimated_timeline : string;
  confidence_score : Q
}.
End RoadmapResponse.

(** The two tables the route touches. *)
Record Database : Type := {
  job_postings : list JobPosting.t;
  career_roadmaps : list CareerRoadmap.t
}.

(** The values interpolated into the generation prompt, in the order of the
    f-string. *)
Module Prompt.
Record t : Type := mk {
  target_role : string;
  current_skills : string;       (* ', '.join(request.current_skills) *)
  target_salary : Q;             (* rendered with [:,.0f] *)
  experience_years : option Q;
  skill_gaps : string;           (* ', '.join(skill_gaps[:10]) *)
  recommended_skills : string    (* ', '.join(recommended_skills[:5]) *)
}.
End Prompt.

(** What the caller of the route receives when it fails: the
    [HTTPException] raised inside and passed on as it is, or the status 500
    the last handler builds from an exception [e]; the detail text of the
    latter is a function of [str(e)]. *)
Inductive HTTPError : Type :=
| Reraised (status_code : Z) (detail : string)
| InternalError (e : Exception).

Definition status_code (err : HTTPError) : Z :=
  match err with
  | Reraised code _ => code
  | InternalError _ => 500
  end.

(** One call of the generative model, [self.model.generate_content(...)]
    followed by [response.text]: the text of the answer, possibly empty, or
    the exception of the client library, kept as its message. *)
Inductive Generation : Type :=
| Generated (text : string)
| Failed (message : string).

(** ** The collaborators

    What the route relies on and the repository does not contain: the
    sentence encoder, the distance operator of the vector store, the order
    in which a hash set hands out its elements, the generative model (what
    it answers to a prompt at the n-th call), the field validators of the
    schema library for [int] and [str], and the nesting depth that the
    interpreter's recursion limit leaves to [json.loads] where the routes
    and the services call it. *)
Record Environment : Type := {
  encode : string -> Vector;
  cosine_distance : Vector -> Vector -> Q;
  set_iter : list string -> list string;
  model_generate : Prompt.t -> nat -> Generation;
  validate_int : Json.json -> option Z;
  validate_str : Json.json -> option string;
  recursion_room : nat
}.

(** ** The route: [generate_roadmap] *)

Section Route.

Variable env : Environment.

(** [EmbeddingService.generate_embedding] *)
Definition generate_embedding (text : string) : Exception + Vector :=
  if PyStr.blank text then raise (ValueError "Text cannot be empty")
  else ret (encode env text).

(** [.order_by("distance")]: ascending; rows at the same distance keep the
    order of the table. *)
Fixpoint insert_row (r : JobPosting.t * Q) (rows : list (JobPosting.t * Q))
  : list (JobPosting.t * Q) :=
  match rows with
  | [] => [r]
  | r' :: rows' =>
      if Qle_bool (snd r) (snd r') then r :: rows
      else r' :: insert_row r rows'
  end.

Definition order_by_distance (rows : list (JobPosting.t * Q))
  : list (JobPosting.t * Q) :=
  fold_right insert_row [] rows.

(** [db.query(JobPosting, distance)...order_by("distance").limit(n).all()]
    over the rows that passed the filter. *)
Definition ranked (query : Vector) (rows : list JobPosting.t) (limit : nat)
  : list (JobPosting.t * Q) :=
  firstn limit
    (order_by_distance
       (map (fun j =>
               (j, cosine_distance env (JobPosting.skills_embedding j) query))
          rows)).

(** First query: [.filter(JobPosting.title.ilike(f"%{target_role}%"))],
    limit 10. *)
Definition title_tier (db : Database) (target_role : string) (query : Vector)
  : Exception + list (JobPosting.t * Q) :=
  match Sql.parse_pattern ("%" ++ target_role ++ "%") with
  | None =>
      raise (ServiceError "LIKE pattern must not end with escape character")
  | Some pattern =>
      ret (ranked query
             (filter (fun j => Sql.like pattern (JobPosting.title j))
                (job_postings db))
             10)
  end.

(** Second query: no filter, limit 5. *)
Definition similarity_tier (db : Database) (query : Vector)
  : list (JobPosting.t * Q) :=
  ranked query (job_postings db) 5.

(** The two queries of step 2 and the check that follows them. *)
Definition find_similar_jobs (db : Database) (target_role : string)
    (query : Vector) : Exception + list (JobPosting.t * Q) :=
  similar_jobs <- title_tier db target_role query ;;
  let similar_jobs :=
    match similar_jobs with
    | [] => similarity_tier db query
    | _ => similar_jobs
    end in
  match similar_jobs with
  | [] => raise (HTTPException 404 "No job postings found in database")
  | _ => ret similar_jobs
  end.

(** Steps 1 and 2. *)
Definition retrieve (request : RoadmapRequest.t) (db : Database)
  : Exception + list (JobPosting.t * Q) :=
  let target_role := RoadmapRequest.target_role request in
  target_role_embedding <- generate_embedding target_role ;;
  find_similar_jobs db target_role target_role_embedding.

(** A [set] built from the elements of [l]. *)
Definition set_of (l : list string) : list string :=
  set_iter env (nodup string_dec l).

(** Step 3: [s = set()], then [s.update(job.<column>)] for every job whose
    column is neither NULL nor empty. *)
Definition collect (column : JobPosting.t -> option (list string))
    (similar_jobs : list (JobPosting.t * Q)) : list string :=
  set_of
    (flat_map
       (fun r => match column (fst r) with Some l => l | None => [] end)
       similar_jobs).

(** Step 4. *)
Definition current_skills_set (current_skills : list string) : list string :=
  set_of (map PyStr.lower current_skills).

Definition skill_gaps (all_required_skills known : list string)
  : list string :=
  filter (fun skill => negb (PyStr.mem (PyStr.lower skill) known))
    all_required_skills.

(** [list(all_preferred_skills - current_skills_set)] *)
Definition recommended_skills (all_preferred_skills known : list string)
  : list string :=
  set_iter env
    (filter (fun skill => negb (PyStr.mem skill known)) all_preferred_skills).

(** Step 5: the f-string.  Formatting [None] with [:,.0f] raises. *)
Definition build_prompt (request : RoadmapRequest.t)
    (gaps recommended : list string) : Exception + Prompt.t :=
  match RoadmapRequest.target_salary request with
  | None => raise TypeError
  | Some salary =>
      ret (Prompt.mk
             (RoadmapRequest.target_role request)
             (PyStr.join ", " (RoadmapRequest.current_skills request))
             salary
             (RoadmapRequest.experience_years request)
             (PyStr.join ", " (firstn 10 gaps))
             (PyStr.join ", " (firstn 5 recommended)))
  end.

(** The body of [GeminiService.generate_content], at its [n]-th call for
    this prompt: an empty answer is an error of its own. *)
Definition generate_once (prompt : Prompt.t) (n : nat) : Exception + string :=
  match model_generate env prompt n with
  | Generated EmptyString => raise (ValueError "Empty response from Gemini API")
  | Generated text => ret text
  | Failed message => raise (ServiceError message)
  end.

(** [@retry(stop=stop_after_attempt(3), ..., reraise=True)]: a call that
    raises is made again, and the exception of the last one goes on. *)
Fixpoint retrying (prompt : Prompt.t) (n remaining : nat)
  : Exception + string :=
  match generate_once prompt n with
  | inr text => inr text
  | inl e =>
      match remaining with
      | O => inl e
      | S remaining' => retrying prompt (S n) remaining'
      end
  end.

(** [await gemini_service.generate_content(prompt)] *)
Definition generate_content (prompt : Prompt.t) : Exception + string :=
  retrying prompt 0 2.

(** The text handed to [json.loads]: the match of the bracket pattern
    when there is one, the whole response otherwise. *)
Definition json_text (response : string) : string :=
  match Re.search response with
  | Some span => span
  | None => response
  end.

(** [List[str]] field: a JSON array whose items all pass the [str]
    validator. *)
Fixpoint validate_strs (items : list Json.json) : option (list string) :=
  match items with
  | [] => Some []
  | j :: items' =>
      match validate_str env j, validate_strs items' with
      | Some s, Some l => Some (s :: l)
      | _, _ => None
      end
  end.

Definition validate_list (field : option Json.json) : option (list string) :=
  match field with
  | None => Some []                                  (* default [] *)
  | Some (Json.JArr items) => validate_strs items
  | Some _ => None
  end.

Definition required_field {A : Type} (validate : Json.json -> option A)
    (field : option Json.json) : option A :=
  match field with
  | Some j => validate j
  | None => None
  end.

(** The schema [LearningStep] applied to the keyword arguments [kwargs]:
    four required fields, two defaulted lists;
    names the schema does not know are ignored. *)
Definition validate_step (kwargs : list (string * Json.json))
  : option LearningStep.t :=
  match required_field (validate_int env) (Json.get "step" kwargs),
        required_field (validate_str env) (Json.get "title" kwargs),
        required_field (validate_str env) (Json.get "description" kwargs),
        required_field (validate_str env)
          (Json.get "estimated_duration" kwargs),
        validate_list (Json.get "resources" kwargs),
        validate_list (Json.get "skills_gained" kwargs) with
  | Some n, Some t, Some d, Some e, Some r, Some g =>
      Some (LearningStep.mk n t d e r g)
  | _, _, _, _, _, _ => None
  end.

(** [LearningStep] applied to [step] unpacked as keyword arguments, which
    wants a mapping. *)
Definition make_step (step : Json.json) : Exception + LearningStep.t :=
  match step with
  | Json.JObj kwargs =>
      match validate_step kwargs with
      | Some ls => ret ls
      | None => raise ValidationError
      end
  | _ => raise TypeError
  end.

(** The names of a [dict], each once, in order of first insertion. *)
Fixpoint dict_keys (members : list (string * Json.json)) (seen : list string)
  : list string :=
  match members with
  | [] => []
  | (k, _) :: rest =>
      if PyStr.mem k seen then dict_keys rest seen
      else k :: dict_keys rest (k :: seen)
  end.

Fixpoint characters (s : string) : list string :=
  match s with
  | EmptyString => []
  | String c s' => String c EmptyString :: characters s'
  end.

(** [for step in learning_path_data]: a list yields its items, a dict its
    names, a string its characters; nothing else can be iterated. *)
Definition iterate (data : Json.json) : Exception + list Json.json :=
  match data with
  | Json.JArr items => ret items
  | Json.JObj members => ret (map Json.JStr (dict_keys members []))
  | Json.JStr s => ret (map Json.JStr (characters s))
  | _ => raise TypeError
  end.

(** The step of the handler of [json.JSONDecodeError]. *)
Definition fallback_step (gaps : list string) : LearningStep.t :=
  LearningStep.mk
    1
    "Foundation Building"
    ("Start by learning the core skills: "
       ++ PyStr.join ", " (firstn 3 gaps))
    "1-2 months"
    ["Online courses"; "Documentation"; "Practice projects"]
    (firstn 3 gaps).

(** The inner [try ... except json.JSONDecodeError]. *)
Definition parse_learning_path (response : string) (gaps : list string)
  : Exception + list LearningStep.t :=
  match Json.loads (json_text response) with
  | Some learning_path_data =>
      steps <- iterate learning_path_data ;;
      mapM make_step steps
  | None => ret [fallback_step gaps]
  end.

(** The timeline.  [step.estimated_duration.split()[0]] *)
Definition first_token (duration : string) : Exception + string :=
  match PyStr.split duration with
  | token :: _ => ret token
  | [] => raise IndexError
  end.

(** The list under [sum]: for every step, in order, the condition
    [split()[0].isdigit()] and, where it holds, [int(split()[0])], before
    the next step is looked at. *)
Fixpoint week_counts (learning_path : list LearningStep.t)
  : Exception + list Z :=
  match learning_path with
  | [] => ret []
  | s :: rest =>
      token <- first_token (LearningStep.estimated_duration s) ;;
      if PyStr.isdigit token then
        weeks <- PyStr.to_int token ;;
        counts <- week_counts rest ;; ret (weeks :: counts)
      else week_counts rest
  end.

Definition sum_list (l : list Z) : Z := fold_left Z.add l 0.

Definition total_duration (learning_path : list LearningStep.t)
  : Exception + Z :=
  counts <- week_counts learning_path ;; ret (sum_list counts).

Definition render_timeline (total : Z) : string :=
  if total <? 52 then PyStr.str total ++ " weeks"
  else PyStr.str (total / 4) ++ " months".

Definition estimated_timeline (learning_path : list LearningStep.t)
  : Exception + string :=
  total <- total_duration learning_path ;; ret (render_timeline total).

(** [current_skills_set & all_required_skills] *)
Definition intersection (a b : list string) : list string :=
  filter (fun x => PyStr.mem x b) a.

Definition confidence_score (known all_required_skills : list string) : Q :=
  match all_required_skills with
  | [] => 0
  | _ =>
      Z.of_nat (List.length (intersection known all_required_skills))
      # Pos.of_nat (List.length all_required_skills)
  end.

(** Step 6: [db.add], [db.commit], [db.refresh]; the key is the next of
    the sequence. *)
Definition next_id (db : Database) : Z :=
  Z.of_nat (List.length (career_roadmaps db)) + 1.

Definition save (db : Database) (roadmap : CareerRoadmap.t) : Database :=
  {| job_postings := job_postings db;
     career_roadmaps := career_roadmaps db ++ [roadmap] |}.

(** The body of the outer [try], from step 3 on. *)
Definition synthesize (request : RoadmapRequest.t) (db : Database)
    (similar_jobs : list (JobPosting.t * Q))
  : Exception + (RoadmapResponse.t * Database) :=
  let all_required_skills :=
    collect JobPosting.required_skills similar_jobs in
  let all_preferred_skills :=
    collect JobPosting.preferred_skills similar_jobs in
  let known := current_skills_set (RoadmapRequest.current_skills request) in
  let gaps := skill_gaps all_required_skills known in
  let recommended := recommended_skills all_preferred_skills known in
  prompt <- build_prompt request gaps recommended ;;
  learning_path_json <- generate_content prompt ;;
  learning_path <- parse_learning_path learning_path_json gaps ;;
  timeline <- estimated_timeline learning_path ;;
  let score := confidence_score known all_required_skills in
  let roadmap :=
    CareerRoadmap.mk (next_id db)
      (RoadmapRequest.current_skills request)
      (RoadmapRequest.target_role request)
      (RoadmapRequest.target_salary request)
      gaps recommended learning_path timeline score in
  ret (RoadmapResponse.mk
         (CareerRoadmap.id roadmap)
         (CareerRoadmap.target_role roadmap)
         (CareerRoadmap.current_skills roadmap)
         (CareerRoadmap.skill_gaps roadmap)
         (CareerRoadmap.recommended_skills roadmap)
         learning_path
         (CareerRoadmap.estimated_timeline roadmap)
         (CareerRoadmap.confidence_score roadmap),
       save db roadmap).

Definition roadmap_body (request : RoadmapRequest.t) (db : Database)
  : Exception + (RoadmapResponse.t * Database) :=
  similar_jobs <- retrieve request db ;;
  synthesize request db similar_jobs.

(** The two handlers of the outer [try]: an [HTTPException] goes on as it
    is, anything else becomes a status 500. *)
Definition handle (e : Exception) : HTTPError :=
  match e with
  | HTTPException code detail => Reraised code detail
  | _ => InternalError e
  end.

Definition generate_roadmap (request : RoadmapRequest.t) (db : Database)
  : (HTTPError + RoadmapResponse.t) * Database :=
  match roadmap_body request db with
  | inr (response, db') => (inr response, db')
  | inl e => (inl (handle e), db)
  end.

(** Names for the values of steps 3 to 5, as functions of the request
    and of the retrieved jobs. *)
Definition required_of (similar_jobs : list (JobPosting.t * Q))
  : list string :=
  collect JobPosting.required_skills similar_jobs.

Definition preferred_of (similar_jobs : list (JobPosting.t * Q))
  : list string :=
  collect JobPosting.preferred_skills similar_jobs.

Definition known_of (request : RoadmapRequest.t) : list string :=
  current_skills_set (RoadmapRequest.current_skills request).

Definition gaps_of (request : RoadmapRequest.t)
    (similar_jobs : list (JobPosting.t * Q)) : list string :=
  skill_gaps (required_of similar_jobs) (known_of request).

Definition recommended_of (request : RoadmapRequest.t)
    (similar_jobs : list (JobPosting.t * Q)) : list string :=
  recommended_skills (preferred_of similar_jobs) (known_of request).

Definition prompt_of (request : RoadmapRequest.t)
    (similar_jobs : list (JobPosting.t * Q)) : Exception + Prompt.t :=
  build_prompt request (gaps_of request similar_jobs)
    (recommended_of request similar_jobs).

(** The response, given the learning path and its timeline. *)
Definition response_with (request : RoadmapRequest.t) (db : Database)
    (similar_jobs : list (JobPosting.t * Q))
    (learning_path : list LearningStep.t) (timeline : string)
  : RoadmapResponse.t :=
  RoadmapResponse.mk (next_id db)
    (RoadmapRequest.target_role request)
    (RoadmapRequest.current_skills request)
    (gaps_of request similar_jobs)
    (recommended_of request similar_jobs)
    learning_path timeline
    (confidence_score (known_of request) (required_of similar_jobs)).

End Route.

(** ** A concrete environment and sample data *)

Module Sample.

Import Json.

(** Validators that accept a value of the exact JSON type and nothing
    else. *)
Definition exact_int (j : json) : option Z :=
  match j with
  | JInt n => Some n
  | _ => None
  end.

Definition exact_str (j : json) : option string :=
  match j with
  | JStr s => Some s
  | _ => None
  end.

(** A distance on one coordinate. *)
Definition gap_distance (a b : Vector) : Q :=
  match a, b with
  | x :: _, y :: _ => Qabs (x - y)
  | _, _ => 1
  end.

(** Sets iterate in insertion order; the model answers [reply] to every
    prompt, every time. *)
Definition environment (reply : Generation) : Environment :=
  {| encode := fun _ => [0%Q];
     cosine_distance := gap_distance;
     set_iter := fun l => l;
     model_generate := fun _ _ => reply;
     validate_int := exact_int;
     validate_str := exact_str;
     recursion_room := 900 |}.

Definition backend : JobPosting.t :=
  JobPosting.mk 1 "Backend Engineer"
    (Some ["Python"; "Docker"]) (Some ["Go"]) [(1 # 2)%Q].

Definition ai : JobPosting.t :=
  JobPosting.mk 2 "AI Engineer"
    (Some ["Python"; "PyTorch"]) (Some ["Docker"]) [(1 # 4)%Q].

Definition platform : JobPosting.t :=
  JobPosting.mk 3 "Platform Engineer"
    (Some ["Kubernetes"; "Terraform"; "Go"; "Bash"]) None [(1 # 3)%Q].

Definition devops : JobPosting.t :=
  JobPosting.mk 4 "DevOps Engineer"
    (Some ["Kubernetes"; "Terraform"; "Go"]) (Some []) [(1 # 5)%Q].

Definition python_only : JobPosting.t :=
  JobPosting.mk 5 "Python Developer" (Some ["Python"]) None [(1 # 6)%Q].

Definition catalog : Database :=
  {| job_postings := [backend; ai]; career_roadmaps := [] |}.

Definition platform_catalog : Database :=
  {| job_postings := [platform]; career_roadmaps := [] |}.

Definition devops_catalog : Database :=
  {| job_postings := [devops]; career_roadmaps := [] |}.

Definition python_catalog : Database :=
  {| job_postings := [python_only]; career_roadmaps := [] |}.

(** Six postings, none with an underscore in its title. *)
Definition wide_catalog : Database :=
  {| job_postings :=
       [backend; ai; platform; devops; python_only;
        JobPosting.mk 6 "Data Analyst" (Some ["SQL"]) None [(1 # 7)%Q]];
     career_roadmaps := [] |}.

Definition request (skills : list string) (role : string)
  : RoadmapRequest.t :=
  RoadmapRequest.mk skills role (Some 120000%Q) (Some 3%Q).

(** Writing JSON text: a string literal, a member, an object. *)
Definition quoted (s : string) : string :=
  String dquote (s ++ String dquote EmptyString).

Definition member (name value : string) : string :=
  quoted name ++ ": " ++ value.

Definition object (members : list string) : string :=
  "{" ++ String.concat ", " members ++ "}".

Definition two_steps : string :=
  "Here is the plan: ["
  ++ object [member "step" "5";
             member "title" (quoted "Containers");
             member "description" (quoted "Learn Docker");
             member "estimated_duration" (quoted "3 weeks");
             member "resources" ("[" ++ quoted "Docs" ++ "]");
             member "skills_gained" ("[" ++ quoted "Docker" ++ "]")]
  ++ ", "
  ++ object [member "step" "2";
             member "title" (quoted "Models");
             member "description" (quoted "Learn PyTorch");
             member "estimated_duration" (quoted "1 month")]
  ++ "]".

Definition missing_title : string :=
  "["
  ++ object [member "step" "1";
             member "description" (quoted "d");
             member "estimated_duration" (quoted "2 weeks")]
  ++ "]".

(** One step object with the given duration. *)
Definition one_step (duration : string) : string :=
  "["
  ++ object [member "step" "1";
             member "title" (quoted "t");
             member "description" (quoted "d");
             member "estimated_duration" (quoted duration)]
  ++ "]".

Definition empty_duration : string := one_step EmptyString.

Definition blank_duration : string := one_step "  ".

Definition step_lasting (duration : string) : LearningStep.t :=
  LearningStep.mk 1 "t" "d" duration [] [].



End Sample.

(** ** The specification's own notions

    Definitions that follow the wording of the specification, to be set
    against what the route computes. *)

Module Spec.

(** "Extract the leading integer token of its duration estimate; steps
    whose duration does not start with an integer token contribute 0." *)
Definition contribution (s : LearningStep.t) : Z :=
  match PyStr.split (LearningStep.estimated_duration s) with
  | token :: _ => if PyStr.isdigit token then PyStr.int token else 0
  | [] => 0
  end.

(** "Every step's estimated_duration contains at least one
    whitespace-separated token": it is neither empty nor all blank. *)
Definition has_token (s : LearningStep.t) : Prop :=
  PyStr.all_space (LearningStep.estimated_duration s) = false.

Definition total (learning_path : list LearningStep.t) : Z :=
  fold_right Z.add 0 (map contribution learning_path).

(** "The first balanced [...] span": from the first opening bracket that
    has a closing partner up to that partner, counting nesting depth. *)
Fixpoint close_at_depth (depth : nat) (s : string) : option string :=
  match s with
  | EmptyString => None
  | String c s' =>
      if Ascii.eqb c "[" then
        option_map (String c) (close_at_depth (S depth) s')
      else if Ascii.eqb c "]" then
        match depth with
        | O => Some (String c EmptyString)
        | S d => option_map (String c) (close_at_depth d s')
        end
      else option_map (String c) (close_at_depth depth s')
  end.

Fixpoint first_balanced_span (s : string) : option string :=
  match s with
  | EmptyString => None
  | String c s' =>
      if Ascii.eqb c "[" then
        match close_at_depth 0 s' with
        | Some m => Some (String c m)
        | None => first_balanced_span s'
        end
      else first_balanced_span s'
  end.

(** "Sorted lexicographically by normalized form." *)
Definition by_normalized_form (a b : string) : Prop :=
  String.leb (PyStr.lower a) (PyStr.lower b) = true.


(** "Normalization: trim whitespace, lower-case, treat the empty string as
    absent."  The result stands for a set. *)
Definition normalize (names : list string) : list string :=
  filter (fun name => negb (String.eqb name EmptyString))
    (map (fun name => PyStr.lower (PyStr.strip name)) names).

End Spec.

(** ** The rest of [roadmap.py]: the detail of a status 500 and [get_roadmap] *)

(** [s[:n]] *)
Fixpoint take (n : nat) (s : string) : string :=
  match n, s with
  | S n', String c s' => String c (take n' s')
  | _, _ => EmptyString
  end.

(** The [detail] the last handler of [generate_roadmap] gives its status
    500, from [error_message = str(e)]. *)
Definition error_detail (error_message : string) : string :=
  if PyStr.contains "API key" (PyStr.lower error_message) then
    "AI service configuration error. Please check API key settings."
  else if PyStr.contains "database" (PyStr.lower error_message)
          || PyStr.contains "connection" (PyStr.lower error_message) then
    "Database connection error. Please try again later."
  else if PyStr.contains "timeout" (PyStr.lower error_message) then
    "Request timed out. Please try again with fewer skills or a simpler role."
  else
    "Unable to generate roadmap. Please try again or contact support. Error: "
    ++ take 100 error_message.

(** [step.dict()] *)
Definition step_dict (s : LearningStep.t) : list (string * Json.json) :=
  [("step", Json.JInt (LearningStep.step s));
   ("title", Json.JStr (LearningStep.title s));
   ("description", Json.JStr (LearningStep.description s));
   ("estimated_duration", Json.JStr (LearningStep.estimated_duration s));
   ("resources", Json.JArr (map Json.JStr (LearningStep.resources s)));
   ("skills_gained", Json.JArr (map Json.JStr (LearningStep.skills_gained s)))].

(** [db.query(CareerRoadmap).filter(CareerRoadmap.id == roadmap_id).first()] *)
Definition find_roadmap (roadmap_id : Z) (db : Database)
  : option CareerRoadmap.t :=
  find (fun r => Z.eqb (CareerRoadmap.id r) roadmap_id) (career_roadmaps db).

(** [get_roadmap].  The [learning_path] column holds the dicts that
    [generate_roadmap] stored, and each goes through the schema again.  The
    route has no handler of its own: what it raises is what leaves it. *)
Definition get_roadmap (env : Environment) (roadmap_id : Z) (db : Database)
  : Exception + RoadmapResponse.t :=
  match find_roadmap roadmap_id db with
  | None => raise (HTTPException 404 "Roadmap not found")
  | Some roadmap =>
      learning_path <-
        mapM (make_step env)
          (map (fun s => Json.JObj (step_dict s))
             (CareerRoadmap.learning_path roadmap)) ;;
      ret (RoadmapResponse.mk
             (CareerRoadmap.id roadmap)
             (CareerRoadmap.target_role roadmap)
             (CareerRoadmap.current_skills roadmap)
             (CareerRoadmap.skill_gaps roadmap)
             (CareerRoadmap.recommended_skills roadmap)
             learning_path
             (CareerRoadmap.estimated_timeline roadmap)
             (CareerRoadmap.confidence_score roadmap))
  end.

(** The row that [generate_roadmap] stores for a response. *)
Definition stored_row (request : RoadmapRequest.t)
    (response : RoadmapResponse.t) : CareerRoadmap.t :=
  CareerRoadmap.mk
    (RoadmapResponse.id response)
    (RoadmapRequest.current_skills request)
    (RoadmapRequest.target_role request)
    (RoadmapRequest.target_salary request)
    (RoadmapResponse.skill_gaps response)
    (RoadmapResponse.recommended_skills response)
    (RoadmapResponse.learning_path response)
    (RoadmapResponse.estimated_timeline response)
    (RoadmapResponse.confidence_score response).

(** The primary key: no stored roadmap has the id the sequence gives
    next. *)
Definition fresh_key (db : Database) : Prop :=
  forall r, In r (career_roadmaps db) -> CareerRoadmap.id r <> next_id db.


(** ** [load_kaggle_data.py]: the skills of a posting's [skills_desc] *)

(** [s.split(sep)] for a separator of one character: the pieces between
    the separators, empty ones included. *)
Fixpoint split_on (sep : ascii) (s : string) : list string :=
  match s with
  | EmptyString => [EmptyString]
  | String c s' =>
      if Ascii.eqb c sep then EmptyString :: split_on sep s'
      else
        match split_on sep s' with
        | piece :: pieces => String c piece :: pieces
        | [] => [String c EmptyString]
        end
  end.

(** The loop over the delimiters, which stops at the first one the text
    contains. *)
Fixpoint split_at_first_delimiter (delimiters : list ascii) (text : string)
  : list string :=
  match delimiters with
  | [] => []
  | delimiter :: rest =>
      if Re.occurs delimiter text then
        map PyStr.strip (split_on delimiter text)
      else split_at_first_delimiter rest text
  end.

(** Comma, semicolon, bar, line feed. *)
Definition delimiters : list ascii :=
  [","%char; ";"%char; "|"%char; "010"%char].

(** The last filter: [s and len(s) < 50]. *)
Definition plausible_skill (s : string) : bool :=
  negb (String.eqb s EmptyString) && (String.length s <? 50)%nat.

(** [extract_skills_from_desc]; [None] is the missing value of the data
    frame. *)
Definition extract_skills_from_desc (skills_desc : option string)
  : list string :=
  match skills_desc with
  | None => []
  | Some EmptyString => []
  | Some text =>
      let skills := split_at_first_delimiter delimiters text in
      let skills :=
        match skills with
        | [] => [PyStr.strip text]
        | _ => skills
        end in
      firstn 10 (filter plausible_skill skills)
  end.

(** ** [jobs.py]: [match_jobs] *)

(** A row of [job_postings] with the columns [match_jobs] reads beside
    those the roadmap route reads. *)
Module JobRow.
Record t : Type := mk {
  posting : JobPosting.t;
  company : option string;
  location : option string;
  salary_min : option Q;
  salary_max : option Q;
  experience_level : option string;
  remote_type : option string
}.
End JobRow.

Module JobMatchRequest.
Record t : Type := mk {
  skills : list string;                 (* min_items=1 *)
  limit : nat;                          (* ge=1, le=50 *)
  min_salary : option Q;
  experience_level : option string;
  remote_type : option string
}.
End JobMatchRequest.

Module JobMatchResult.
Record t : Type := mk {
  job_id : Z;
  title : string;
  company : option string;
  location : option string;
  salary_min : option Q;
  salary_max : option Q;
  required_skills : list string;
  match_score : Q;
  missing_skills : list string
}.
End JobMatchResult.

(** [if request.min_salary:] and the filter it adds; a row without a
    salary does not pass the comparison. *)
Definition salary_filter (min_salary : option Q) (row : JobRow.t) : bool :=
  match min_salary with
  | None => true
  | Some floor =>
      if Qeq_bool floor 0%Q then true
      else
        match JobRow.salary_min row with
        | Some salary => Qle_bool floor salary
        | None => false
        end
  end.

(** [if request.<column>:] and the equality filter it adds. *)
Definition equality_filter (wanted column : option string) : bool :=
  match wanted with
  | None => true
  | Some EmptyString => true
  | Some value =>
      match column with
      | Some actual => String.eqb actual value
      | None => false
      end
  end.

Definition passes_filters (request : JobMatchRequest.t) (row : JobRow.t)
  : bool :=
  salary_filter (JobMatchRequest.min_salary request) row
  && equality_filter (JobMatchRequest.experience_level request)
       (JobRow.experience_level row)
  && equality_filter (JobMatchRequest.remote_type request)
       (JobRow.remote_type row).

(** [.order_by("distance")] over rows of any kind. *)
Fixpoint insert_nearest {A : Type} (r : A * Q) (rows : list (A * Q))
  : list (A * Q) :=
  match rows with
  | [] => [r]
  | r' :: rows' =>
      if Qle_bool (snd r) (snd r') then r :: rows
      else r' :: insert_nearest r rows'
  end.

Definition nearest_first {A : Type} (rows : list (A * Q)) : list (A * Q) :=
  fold_right insert_nearest [] rows.

(** The query of [match_jobs]: filters, order, limit.  Every posting has
    an embedding, as [create_job_posting] and the loader give it one. *)
Definition matching_rows (env : Environment) (request : JobMatchRequest.t)
    (table : list JobRow.t) (user_skills_embedding : Vector)
  : list (JobRow.t * Q) :=
  firstn (JobMatchRequest.limit request)
    (nearest_first
       (map (fun row =>
               (row,
                cosine_distance env
                  (JobPosting.skills_embedding (JobRow.posting row))
                  user_skills_embedding))
          (filter (passes_filters request) table))).

(** [list(required_skills_set - user_skills_set)] *)
Definition missing_skills (env : Environment)
    (required_skills_set user_skills_set : list string) : list string :=
  set_iter env
    (filter (fun skill => negb (PyStr.mem skill user_skills_set))
       required_skills_set).

(** The body of the loop over the results; [round3] is [round(x, 3)]. *)
Definition match_result (env : Environment) (round3 : Q -> Q)
    (user_skills_set : list string) (result : JobRow.t * Q)
  : JobMatchResult.t :=
  let job := fst result in
  let required :=
    match JobPosting.required_skills (JobRow.posting job) with
    | Some l => l
    | None => []
    end in
  JobMatchResult.mk
    (JobPosting.id (JobRow.posting job))
    (JobPosting.title (JobRow.posting job))
    (JobRow.company job)
    (JobRow.location job)
    (JobRow.salary_min job)
    (JobRow.salary_max job)
    required
    (round3 (1 - snd result)%Q)
    (missing_skills env (set_of env (map PyStr.lower required))
       user_skills_set).

(** [match_jobs]: whatever is raised inside becomes a status 500. *)
Definition match_jobs (env : Environment) (round3 : Q -> Q)
    (request : JobMatchRequest.t) (table : list JobRow.t)
  : HTTPError + list JobMatchResult.t :=
  let skills_text := PyStr.join ", " (JobMatchRequest.skills request) in
  match generate_embedding env skills_text with
  | inl e => inl (InternalError e)
  | inr user_skills_embedding =>
      let results := matching_rows env request table user_skills_embedding in
      let user_skills_set :=
        current_skills_set env (JobMatchRequest.skills request) in
      inr (map (match_result env round3 user_skills_set) results)
  end.

(** Rows and a request for [match_jobs]. *)
Module MatchSample.

Definition backend : JobRow.t :=
  JobRow.mk Sample.backend (Some "Acme") (Some "Nairobi")
    (Some 90000%Q) (Some 120000%Q) (Some "Senior") (Some "Remote").

Definition ai : JobRow.t :=
  JobRow.mk Sample.ai (Some "Initech") None
    (Some 110000%Q) None (Some "Senior") (Some "Remote").

Definition unpaid : JobRow.t :=
  JobRow.mk Sample.python_only None None None None None (Some "Remote").

Definition table : list JobRow.t := [backend; ai; unpaid].

Definition environment : Environment :=
  Sample.environment (Failed EmptyString).

Definition request : JobMatchRequest.t :=
  JobMatchRequest.mk ["PYTHON"; "Go"] 5 (Some 100000%Q) None (Some "Remote").

Definition exact (q : Q) : Q := q.

Definition results : list JobMatchResult.t :=
  Eval vm_compute in
    match match_jobs environment exact request table with
    | inr found => found
    | inl _ => []
    end.

Definition first_result : JobMatchResult.t :=
  Eval vm_compute in
    hd (JobMatchResult.mk 0 EmptyString None None None None [] 0%Q [])
      results.

End MatchSample.


(** ** What a decoded container is *)

(** [true] for an object, [false] for an array. *)
Definition frame_is_object (f : Json.frame) : bool :=
  match f with
  | Json.FObj _ _ => true
  | Json.FArr _ => false
  end.

Definition container (v : Json.json) : option bool :=
  match v with
  | Json.JObj _ => Some true
  | Json.JArr _ => Some false
  | _ => None
  end.

(** The container the tokens read so far are inside of, outermost: with an
    empty stack the decoder must be done with a container of that kind. *)
Definition outermost (is_object : bool) (stack : list Json.frame)
    (m : Json.mode) : Prop :=
  match stack with
  | [] => exists v, m = Json.MDone v /\ container v = Some is_object
  | _ :: _ =>
      last (map frame_is_object stack) (negb is_object) = is_object
      /\ forall v, m <> Json.MDone v
  end.

(** ** [gemini_service.py]: [analyze_skill_gap] *)

(** A greedy pattern [<open>.*<close>] under DOTALL, for any two
    characters; [Re] is the instance of the two brackets. *)
Module Span.

Fixpoint upto_last (close : ascii) (s : string) : option string :=
  match s with
  | EmptyString => None
  | String c s' =>
      match upto_last close s' with
      | Some m => Some (String c m)
      | None => if Ascii.eqb c close then Some (String c EmptyString) else None
      end
  end.

Definition match_here (open close : ascii) (s : string) : option string :=
  match s with
  | EmptyString => None
  | String c s' =>
      if Ascii.eqb c open then option_map (String c) (upto_last close s')
      else None
  end.

Fixpoint search (open close : ascii) (s : string) : option string :=
  match match_here open close s with
  | Some m => Some m
  | None =>
      match s with
      | EmptyString => None
      | String _ s' => search open close s'
      end
  end.

End Span.

(** What [analyze_skill_gap] returns when the answer does not decode. *)
Definition empty_analysis : Json.json :=
  Json.JObj
    [("priority_skills", Json.JArr []); ("learning_sequence", Json.JArr [])].

(** The [try] block of [analyze_skill_gap], on the text of the answer,
    for a text the decoder takes within the interpreter's limits. *)
Definition decode_analysis (response : string) : Json.json :=
  let decoded :=
    match Span.search "{" "}" response with
    | Some span => Json.loads span
    | None => Json.loads response
    end in
  match decoded with
  | Some analysis => analysis
  | None => empty_analysis
  end.

(** [analyze_skill_gap], given what [generate_content] made of its prompt:
    the call is outside the [try], so its exception goes on. *)
Definition analyze_skill_gap (generated : Exception + string)
  : Exception + Json.json :=
  response <- generated ;;
  ret (decode_analysis response).

(** ** [skills.py] *)

Module Skill.
Record t : Type := mk {
  id : Z;
  name : string;
  category : option string;
  description : option string;
  demand_score : option Q;
  avg_salary_impact : option Q;
  embedding : option Vector
}.
End Skill.

Module SkillCreate.
Record t : Type := mk {
  name : string;
  category : option string;
  description : option string
}.
End SkillCreate.

Module SkillSearchRequest.
Record t : Type := mk {
  query : string;
  limit : nat                           (* ge=1, le=50 *)
}.
End SkillSearchRequest.

Module SkillSearchResult.
Record t : Type := mk {
  skill_name : string;
  category : string;
  similarity_score : Q;
  demand_score : option Q;
  job_count : Z
}.
End SkillSearchResult.

(** [db.query(Skill).filter(Skill.name == name).first()] *)
Definition find_skill_named (name : string) (table : list Skill.t)
  : option Skill.t :=
  find (fun s => String.eqb (Skill.name s) name) table.

(** [create_skill]; [new_id] is the key the database gives the row.  The
    result is the row and the table after the commit.  The route has no
    handler: what is raised leaves it. *)
Definition create_skill (env : Environment) (skill : SkillCreate.t)
    (new_id : Z) (table : list Skill.t)
  : Exception + (Skill.t * list Skill.t) :=
  match find_skill_named (SkillCreate.name skill) table with
  | Some _ => raise (HTTPException 400 "Skill already exists")
  | None =>
      embedding <- generate_embedding env (SkillCreate.name skill) ;;
      let db_skill :=
        Skill.mk new_id (SkillCreate.name skill) (SkillCreate.category skill)
          (SkillCreate.description skill) None None (Some embedding) in
      ret (db_skill, (table ++ [db_skill])%list)
  end.

(** [get_skill] *)
Definition get_skill (skill_id : Z) (table : list Skill.t)
  : Exception + Skill.t :=
  match find (fun s => Z.eqb (Skill.id s) skill_id) table with
  | None => raise (HTTPException 404 "Skill not found")
  | Some skill => ret skill
  end.

(** [.order_by(...)] by insertion: rows that compare equal keep the order
    of the table. *)
Fixpoint insert_by {A : Type} (le : A -> A -> bool) (r : A) (rows : list A)
  : list A :=
  match rows with
  | [] => [r]
  | r' :: rows' =>
      if le r r' then r :: rows else r' :: insert_by le r rows'
  end.

Definition sort_by {A : Type} (le : A -> A -> bool) (rows : list A)
  : list A :=
  fold_right (insert_by le) [] rows.

(** Ascending distances, the rows without one last, as PostgreSQL orders
    NULL. *)
Definition nearer (a b : Skill.t * option Q) : bool :=
  match snd a, snd b with
  | Some x, Some y => Qle_bool x y
  | Some _, None => true
  | None, Some _ => false
  | None, None => true
  end.

(** [Skill.embedding.cosine_distance(query_embedding)]: NULL for a skill
    without an embedding. *)
Definition skill_distance (env : Environment) (query_embedding : Vector)
    (skill : Skill.t) : option Q :=
  option_map (fun e => cosine_distance env e query_embedding)
    (Skill.embedding skill).

(** The body of the loop of [search_skills]: [1 - None] is a
    [TypeError]. *)
Definition search_result (result : Skill.t * option Q)
  : Exception + SkillSearchResult.t :=
  match snd result with
  | None => raise TypeError
  | Some distance =>
      ret (SkillSearchResult.mk
             (Skill.name (fst result))
             match Skill.category (fst result) with
             | Some (String c rest) => String c rest
             | _ => "Uncategorized"
             end
             (1 - distance)%Q
             (Skill.demand_score (fst result))
             0)
  end.

Definition skill_rows (env : Environment) (request : SkillSearchRequest.t)
    (table : list Skill.t) (query_embedding : Vector)
  : list (Skill.t * option Q) :=
  firstn (SkillSearchRequest.limit request)
    (sort_by nearer
       (map (fun s => (s, skill_distance env query_embedding s)) table)).

(** [search_skills] *)
Definition search_skills (env : Environment) (request : SkillSearchRequest.t)
    (table : list Skill.t) : Exception + list SkillSearchResult.t :=
  query_embedding <-
    generate_embedding env (SkillSearchRequest.query request) ;;
  mapM search_result (skill_rows env request table query_embedding).

(** [.order_by(Skill.demand_score.desc())]: descending scores, a row
    without one first, as PostgreSQL orders NULL. *)
Definition more_demanded (a b : Skill.t) : bool :=
  match Skill.demand_score a, Skill.demand_score b with
  | Some x, Some y => Qle_bool y x
  | Some _, None => false
  | None, _ => true
  end.

Definition scored (skill : Skill.t) : bool :=
  match Skill.demand_score skill with
  | Some _ => true
  | None => false
  end.

(** [get_trending_skills] *)
Definition get_trending_skills (limit : nat) (table : list Skill.t)
  : list Skill.t :=
  firstn limit (sort_by more_demanded (filter scored table)).

Module SkillSample.

Definition python : Skill.t :=
  Skill.mk 1 "Python" (Some "Programming") None (Some (9 # 10)%Q) None
    (Some [(1 # 4)%Q]).

Definition docker : Skill.t :=
  Skill.mk 2 "Docker" None None (Some (7 # 10)%Q) None (Some [(1 # 2)%Q]).

Definition cobol : Skill.t :=
  Skill.mk 3 "COBOL" (Some EmptyString) None None None (Some [(3 # 4)%Q]).

Definition table : list Skill.t := [docker; python; cobol].

Definition rust : SkillCreate.t :=
  SkillCreate.mk "Rust" (Some "Programming") None.

Definition request : SkillSearchRequest.t :=
  SkillSearchRequest.mk "containers" 2.

Definition found : list SkillSearchResult.t :=
  Eval vm_compute in
    match search_skills MatchSample.environment request table with
    | inr results => results
    | inl _ => []
    end.

End SkillSample.


(** ** [load_kaggle_data.py]: the level and the remote type of a posting

    The two columns as [load_kaggle_jobs] fills them; the argument is
    [str(...)] of the cell of the row, when the cell is not missing. *)
Definition loaded_experience_level (formatted_experience_level : option string)
  : string :=
  match formatted_experience_level with
  | None => "Mid"
  | Some cell =>
      let exp := PyStr.lower cell in
      if PyStr.contains "entry" exp || PyStr.contains "junior" exp then
        "Entry"
      else if PyStr.contains "senior" exp || PyStr.contains "lead" exp
              || PyStr.contains "principal" exp then
        "Senior"
      else if PyStr.contains "director" exp
              || PyStr.contains "executive" exp then
        "Executive"
      else "Mid"
  end.

Definition loaded_remote_type (remote_allowed : option string) : string :=
  match remote_allowed with
  | None => "On-site"
  | Some cell =>
      if String.eqb cell "1" || String.eqb (PyStr.lower cell) "true" then
        "Remote"
      else "On-site"
  end.

Module LoadedSample.

Definition associate : JobRow.t :=
  JobRow.mk Sample.backend (Some "Acme") None None None
    (Some (loaded_experience_level (Some "Associate")))
    (Some (loaded_remote_type (Some "1.0"))).

Definition senior : JobRow.t :=
  JobRow.mk Sample.ai (Some "Initech") None None None
    (Some (loaded_experience_level (Some "Mid-Senior level")))
    (Some (loaded_remote_type None)).

Definition table : list JobRow.t := [associate; senior].

Definition junior_request : JobMatchRequest.t :=
  JobMatchRequest.mk ["Python"] 10 None (Some "Junior") None.

End LoadedSample.


(** * Properties *)

(** ** Strings *)

Lemma mem_In (x : string) (l : list string) :
  PyStr.mem x l = true <-> In x l.
Proof.
  unfold PyStr.mem. rewrite existsb_exists. split.
  - intros [y [Hy Heq]]. apply String.eqb_eq in Heq. now subst.
  - intros H. exists x. split; [assumption | apply String.eqb_refl].
Qed.

Lemma mem_false (x : string) (l : list string) :
  PyStr.mem x l = false <-> ~ In x l.
Proof.
  rewrite <- mem_In. destruct (PyStr.mem x l); split; intros; congruence.
Qed.

Lemma lower_char_idem (c : ascii) :
  PyStr.lower_char (PyStr.lower_char c) = PyStr.lower_char c.
Proof.
  destruct c as [[] [] [] [] [] [] [] []]; reflexivity.
Qed.

Lemma lower_idem (s : string) : PyStr.lower (PyStr.lower s) = PyStr.lower s.
Proof.
  induction s as [| c s IH]; simpl; [reflexivity |].
  now rewrite lower_char_idem, IH.
Qed.

(** [split] gives no token exactly on the empty and the all-blank strings. *)
Lemma split_nil (s : string) :
  PyStr.split s = [] <-> PyStr.all_space s = true.
Proof.
  induction s as [| c s IH]; simpl.
  - tauto.
  - destruct (PyStr.isspace c); simpl.
    + exact IH.
    + split; [| discriminate].
      destruct s as [| c' s']; [discriminate |].
      destruct (PyStr.isspace c'); [discriminate |].
      destruct (PyStr.split (String c' s')); discriminate.
Qed.

(** ** The title filter *)

Lemma parse_pattern_no_meta (s rest : string) (items : list Sql.pat_item) :
  Sql.no_meta s = true ->
  Sql.parse_pattern rest = Some items ->
  Sql.parse_pattern (s ++ rest) = Some (Sql.literals s ++ items)%list.
Proof.
  intros Hs Hrest. induction s as [| c s IH]; simpl in *; [assumption |].
  apply andb_prop in Hs. destruct Hs as [Hc Hs].
  specialize (IH Hs).
  destruct c as [[] [] [] [] [] [] [] []];
    try discriminate Hc; simpl; rewrite IH; reflexivity.
Qed.

Lemma like_any (s : string) : Sql.like [Sql.PAny] s = true.
Proof.
  induction s as [| c s IH]; [reflexivity |].
  simpl in *. exact IH.
Qed.

Lemma like_literals_any (r s : string) :
  Sql.like (Sql.literals r ++ [Sql.PAny])%list s
  = String.prefix (PyStr.lower r) (PyStr.lower s).
Proof.
  revert s. induction r as [| c r IH]; intros s.
  - change (Sql.literals "" ++ [Sql.PAny])%list with [Sql.PAny].
    rewrite like_any. destruct s; reflexivity.
  - destruct s as [| d s]; simpl; [reflexivity |].
    rewrite IH.
    destruct (Ascii.eqb_spec (PyStr.lower_char c) (PyStr.lower_char d))
      as [Heq | Hne].
    + rewrite Heq. destruct (ascii_dec _ _); [reflexivity | contradiction].
    + destruct (ascii_dec _ _); [contradiction | reflexivity].
Qed.

(** For a role without pattern characters, [ILIKE '%role%'] is containment
    of the lower-cased role in the lower-cased title. *)
Lemma like_contains (r s : string) :
  Sql.like (Sql.PAny :: Sql.literals r ++ [Sql.PAny])%list s
  = PyStr.contains (PyStr.lower r) (PyStr.lower s).
Proof.
  induction s as [| d s IH].
  - simpl. rewrite like_literals_any. simpl.
    now rewrite orb_false_r.
  - change (Sql.like (Sql.PAny :: Sql.literals r ++ [Sql.PAny])%list
              (String d s))
      with (Sql.like (Sql.literals r ++ [Sql.PAny])%list (String d s)
            || Sql.like (Sql.PAny :: Sql.literals r ++ [Sql.PAny])%list s).
    rewrite IH, like_literals_any. reflexivity.
Qed.

Lemma role_pattern (role : string) :
  Sql.no_meta role = true ->
  Sql.parse_pattern ("%" ++ role ++ "%")
  = Some (Sql.PAny :: Sql.literals role ++ [Sql.PAny])%list.
Proof.
  intros H. simpl.
  rewrite (parse_pattern_no_meta role "%" [Sql.PAny] H eq_refl).
  reflexivity.
Qed.

(** ** Retrieval *)

Lemma parse_pattern_cons (c : ascii) (p : string) :
  Sql.parse_pattern (String c p)
  = if Ascii.eqb c "\" then
      match p with
      | EmptyString => None
      | String d p' => option_map (cons (Sql.PLit d)) (Sql.parse_pattern p')
      end
    else if Ascii.eqb c "%" then
      option_map (cons Sql.PAny) (Sql.parse_pattern p)
    else if Ascii.eqb c "_" then
      option_map (cons Sql.POne) (Sql.parse_pattern p)
    else option_map (cons (Sql.PLit c)) (Sql.parse_pattern p).
Proof.
  destruct c as [[] [] [] [] [] [] [] []]; reflexivity.
Qed.

(** The pattern built from a role is never rejected. *)
Lemma role_pattern_accepted (role : string) :
  Sql.parse_pattern (role ++ "%") <> None
  /\ (forall c, Sql.parse_pattern (String c (role ++ "%")) <> None).
Proof.
  induction role as [| d role [IH1 IH2]].
  - split; [discriminate |].
    intros c. destruct c as [[] [] [] [] [] [] [] []]; discriminate.
  - split; [exact (IH2 d) |].
    intros c. specialize (IH2 d).
    change (String d role ++ "%") with (String d (role ++ "%")).
    destruct (Sql.parse_pattern (String d (role ++ "%"))) as [items |] eqn:Hd;
      [| contradiction].
    destruct (Sql.parse_pattern (role ++ "%")) as [items' |] eqn:Hr;
      [| contradiction].
    rewrite parse_pattern_cons, Hd, Hr.
    destruct (Ascii.eqb c "\"); [discriminate |].
    destruct (Ascii.eqb c "%"); [discriminate |].
    destruct (Ascii.eqb c "_"); discriminate.
Qed.

Lemma title_tier_total (env : Environment) (db : Database) (role : string)
    (query : Vector) :
  exists rows, title_tier env db role query = inr rows.
Proof.
  unfold title_tier.
  destruct (role_pattern_accepted role) as [_ H]. specialize (H "%"%char).
  change ("%" ++ role ++ "%") with (String "%" (role ++ "%")).
  destruct (Sql.parse_pattern (String "%" (role ++ "%"))); [| contradiction].
  eexists. reflexivity.
Qed.

(** For a role without pattern characters the first query keeps the
    postings whose title contains the role, case set aside. *)
Lemma title_tier_contains (env : Environment) (db : Database) (role : string)
    (query : Vector) :
  Sql.no_meta role = true ->
  title_tier env db role query
  = inr (ranked env query
           (filter
              (fun j =>
                 PyStr.contains (PyStr.lower role)
                   (PyStr.lower (JobPosting.title j)))
              (job_postings db))
           10).
Proof.
  intros H. unfold title_tier. rewrite (role_pattern role H).
  unfold ret. do 2 f_equal. apply filter_ext. intros j. apply like_contains.
Qed.

(** The second query runs exactly when the first returns nothing, its rows
    are never mixed with those of the first, and two empty results are the
    404. *)
Lemma two_tier_policy (env : Environment) (db : Database) (role : string)
    (query : Vector) (first : list (JobPosting.t * Q)) :
  title_tier env db role query = inr first ->
  find_similar_jobs env db role query
  = match first with
    | _ :: _ => inr first
    | [] =>
        match similarity_tier env db query with
        | _ :: _ => inr (similarity_tier env db query)
        | [] => inl (HTTPException 404 "No job postings found in database")
        end
    end.
Proof.
  intros H. unfold find_similar_jobs. rewrite H. cbn [bind].
  destruct first; [| reflexivity].
  destruct (similarity_tier env db query); reflexivity.
Qed.

Lemma not_found_reaches_the_caller (env : Environment)
    (request : RoadmapRequest.t) (db : Database) (code : Z) (detail : string) :
  retrieve env request db = inl (HTTPException code detail) ->
  generate_roadmap env request db = (inl (Reraised code detail), db).
Proof.
  intros H. unfold generate_roadmap, roadmap_body. now rewrite H.
Qed.

(** C5, at the failing input.  For the role "_" the first query returns all
    six postings of a catalog in which no title contains an underscore: the
    underscore is read as "any one character".  A filter on containment
    would have returned nothing and left the answer to the second query,
    which returns five. *)
Theorem underscore_role_matches_every_title :
  (exists rows,
      retrieve (Sample.environment (Generated "[]"))
        (Sample.request ["python"] "_") Sample.wide_catalog
      = inr rows
      /\ title_tier (Sample.environment (Generated "[]")) Sample.wide_catalog
           "_" [0%Q]
         = inr rows
      /\ List.length rows = 6%nat)
  /\ filter
       (fun j =>
          PyStr.contains (PyStr.lower "_") (PyStr.lower (JobPosting.title j)))
       (job_postings Sample.wide_catalog)
     = []
  /\ List.length
       (similarity_tier (Sample.environment (Generated "[]"))
          Sample.wide_catalog [0%Q])
     = 5%nat.
Proof.
  split; [| split; reflexivity].
  eexists. split; [vm_compute; reflexivity |]. split; reflexivity.
Qed.

(** ** Sets *)

Section Sets.

Variable env : Environment.
Hypothesis set_iter_perm : forall l, Permutation (set_iter env l) l.

Lemma set_of_In (x : string) (l : list string) :
  In x (set_of env l) <-> In x l.
Proof.
  unfold set_of. rewrite <- (nodup_In string_dec l x). split; intros H.
  - exact (Permutation_in x (set_iter_perm _) H).
  - exact (Permutation_in x (Permutation_sym (set_iter_perm _)) H).
Qed.

Lemma set_of_NoDup (l : list string) : NoDup (set_of env l).
Proof.
  unfold set_of.
  apply (Permutation_NoDup (Permutation_sym (set_iter_perm _))).
  apply NoDup_nodup.
Qed.

Lemma known_In (x : string) (known : list string) :
  In x (current_skills_set env known)
  <-> exists k, In k known /\ x = PyStr.lower k.
Proof.
  unfold current_skills_set. rewrite set_of_In, in_map_iff.
  split; intros [k [H1 H2]]; exists k; auto.
Qed.

(** A member of the known set is its own lower-case form. *)
Lemma known_lower (x : string) (known : list string) :
  In x (current_skills_set env known) -> PyStr.lower x = x.
Proof.
  intros H. apply known_In in H. destruct H as [k [_ ->]].
  apply lower_idem.
Qed.

Lemma skill_gaps_In (s : string) (required known : list string) :
  In s (skill_gaps required known)
  <-> In s required /\ ~ In (PyStr.lower s) known.
Proof.
  unfold skill_gaps. rewrite filter_In, negb_true_iff, mem_false.
  reflexivity.
Qed.

Lemma recommended_skills_In (s : string) (preferred known : list string) :
  In s (recommended_skills env preferred known)
  <-> In s preferred /\ ~ In s known.
Proof.
  unfold recommended_skills. split; intros H.
  - apply (Permutation_in s (set_iter_perm _)) in H.
    now rewrite filter_In, negb_true_iff, mem_false in H.
  - apply (Permutation_in s (Permutation_sym (set_iter_perm _))).
    now rewrite filter_In, negb_true_iff, mem_false.
Qed.

End Sets.

Lemma StronglySorted_filter_keeps (A : Type) (R : A -> A -> Prop)
    (p : A -> bool) (l : list A) :
  StronglySorted R l -> StronglySorted R (filter p l).
Proof.
  induction 1 as [| a l Hl IH Ha]; simpl; [constructor |].
  destruct (p a); [| assumption].
  constructor; [assumption |].
  rewrite Forall_forall in *. intros x Hx.
  apply filter_In in Hx. now apply Ha.
Qed.

(** C9 (as amended).  With lower-casing alone as the normal form: every
    gap skill is a required skill, spelled as the posting spells it, whose
    lower-cased form is not among the lower-cased known skills; and the
    lower-cased gap skills, together with the lower-cased required skills
    that are among the lower-cased known skills, are exactly the lower-cased
    required skills. *)
Theorem gap_splits_required (env : Environment)
    (required known : list string) :
  (forall l, Permutation (set_iter env l) l) ->
  (forall s,
      In s (skill_gaps (set_of env required) (current_skills_set env known)) ->
      In s required
      /\ ~ In (PyStr.lower s) (map PyStr.lower known))
  /\ (forall x,
         In x (map PyStr.lower
                 (skill_gaps (set_of env required)
                    (current_skills_set env known)))
         \/ (In x (map PyStr.lower required)
             /\ In x (map PyStr.lower known))
         <-> In x (map PyStr.lower required)).
Proof.
  intros Hperm.
  assert (Hknown : forall x,
             In x (current_skills_set env known)
             <-> In x (map PyStr.lower known)).
  { intros x. unfold current_skills_set. apply (set_of_In env Hperm). }
  split.
  - intros s Hs. apply skill_gaps_In in Hs. destruct Hs as [Hreq Hs].
    split.
    + now apply (proj1 (set_of_In env Hperm s required)).
    + intros Hin. apply Hs. now apply Hknown.
  - intros x. split.
    + intros [H | [H _]]; [| assumption].
      apply in_map_iff in H. destruct H as [s [<- Hs]].
      apply skill_gaps_In in Hs. destruct Hs as [Hs _].
      apply (proj1 (set_of_In env Hperm s required)) in Hs.
      now apply in_map.
    + intros H. apply in_map_iff in H. destruct H as [r [<- Hr]].
      destruct (PyStr.mem (PyStr.lower r) (current_skills_set env known))
        eqn:Hmem.
      * right. split; [now apply in_map |].
        apply Hknown. now apply mem_In.
      * left. apply in_map. apply skill_gaps_In. split.
        -- now apply (proj2 (set_of_In env Hperm r required)).
        -- now apply mem_false.
Qed.

Lemma gap_splits_required_witness :
  (forall s,
      In s (skill_gaps
              (set_of (Sample.environment (Generated "[]"))
                 ["Docker"; "Python"])
              (current_skills_set (Sample.environment (Generated "[]"))
                 ["PYTHON"])) ->
      In s ["Docker"; "Python"]
      /\ ~ In (PyStr.lower s) (map PyStr.lower ["PYTHON"]))
  /\ (forall x,
         In x (map PyStr.lower
                 (skill_gaps
                    (set_of (Sample.environment (Generated "[]"))
                       ["Docker"; "Python"])
                    (current_skills_set (Sample.environment (Generated "[]"))
                       ["PYTHON"])))
         \/ (In x (map PyStr.lower ["Docker"; "Python"])
             /\ In x (map PyStr.lower ["PYTHON"]))
         <-> In x (map PyStr.lower ["Docker"; "Python"])).
Proof.
  exact (gap_splits_required (Sample.environment (Generated "[]"))
           ["Docker"; "Python"] ["PYTHON"]
           (fun l => Permutation_refl l)).
Defined.

(** C9, as stated, fails: the route lower-cases the known skills without
    trimming them.  The gap of required ["python"] against known
    [" python"] is ["python"], and "python" is a member of the normalized
    known set, so the gap is not disjoint from it. *)
Lemma gap_is_not_disjoint_from_normalized_known :
  skill_gaps (set_of (Sample.environment (Generated "[]")) ["python"])
    (current_skills_set (Sample.environment (Generated "[]")) [" python"])
  = ["python"]
  /\ In "python"
       (Spec.normalize
          (skill_gaps (set_of (Sample.environment (Generated "[]")) ["python"])
             (current_skills_set (Sample.environment (Generated "[]"))
                [" python"])))
  /\ In "python" (Spec.normalize [" python"]).
Proof.
  split; [reflexivity | split; simpl; now left].
Qed.

(** C8 (as amended).  The gap and the recommended skills come in the
    iteration order of the sets they are drawn from; nothing sorts them.
    Each lists its elements once; the gap skills are the required skills
    whose lower-case form is not known, in the order in which the set of
    required skills iterates (whatever order that set has, the gap list
    inherits); the recommended skills are the preferred skills that are not
    in the known set. *)
Theorem skill_lists_follow_set_iteration (env : Environment)
    (request : RoadmapRequest.t) (jobs : list (JobPosting.t * Q)) :
  (forall l, Permutation (set_iter env l) l) ->
  NoDup (gaps_of env request jobs)
  /\ (forall s,
         In s (gaps_of env request jobs)
         <-> In s (required_of env jobs)
             /\ ~ In (PyStr.lower s) (known_of env request))
  /\ (forall R : string -> string -> Prop,
         StronglySorted R (required_of env jobs) ->
         StronglySorted R (gaps_of env request jobs))
  /\ NoDup (recommended_of env request jobs)
  /\ (forall s,
         In s (recommended_of env request jobs)
         <-> In s (preferred_of env jobs) /\ ~ In s (known_of env request)).
Proof.
  intros Hperm. unfold gaps_of, recommended_of, required_of, preferred_of,
    collect.
  split; [| split; [| split; [| split]]].
  - unfold skill_gaps. apply NoDup_filter. now apply set_of_NoDup.
  - intros s. apply skill_gaps_In.
  - intros R HR. now apply StronglySorted_filter_keeps.
  - unfold recommended_skills.
    apply (Permutation_NoDup (Permutation_sym (Hperm _))).
    apply NoDup_filter. now apply set_of_NoDup.
  - intros s. now apply recommended_skills_In.
Qed.

Lemma skill_lists_follow_set_iteration_witness :
  NoDup
    (gaps_of (Sample.environment (Generated "[]"))
       (Sample.request ["python"] "engineer")
       [(Sample.platform, (1 # 3)%Q)]).
Proof.
  exact (proj1
           (skill_lists_follow_set_iteration
              (Sample.environment (Generated "[]"))
              (Sample.request ["python"] "engineer")
              [(Sample.platform, (1 # 3)%Q)]
              (fun l => Permutation_refl l))).
Defined.

(** C8, as stated, fails: where sets iterate in insertion order, the gap
    list of a posting that requires Kubernetes, Terraform, Go and Bash is
    returned in that order, which is not sorted. *)
Lemma skill_gaps_are_not_sorted :
  exists response,
    fst (generate_roadmap (Sample.environment (Generated "[]"))
           (Sample.request ["python"] "engineer") Sample.platform_catalog)
    = inr response
    /\ RoadmapResponse.skill_gaps response
       = ["Kubernetes"; "Terraform"; "Go"; "Bash"]
    /\ ~ Sorted Spec.by_normalized_form (RoadmapResponse.skill_gaps response).
Proof.
  eexists. split; [vm_compute; reflexivity |]. split; [reflexivity |].
  cbn [RoadmapResponse.skill_gaps]. intros H.
  apply Sorted_inv in H. destruct H as [H _].
  apply Sorted_inv in H. destruct H as [_ H].
  apply HdRel_inv in H. discriminate H.
Qed.

(** ** The confidence score *)

(** C3, at the failing input.  The only required skill is "Python" and the
    person knows "python" and "docker": the gap is empty, the normalized
    required set is contained in the normalized known set, and yet the
    score is 0, because the known skills are lower-cased before the
    intersection and the required ones are not. *)
Theorem confidence_misses_known_skill :
  exists response,
    fst (generate_roadmap (Sample.environment (Generated "[]"))
           (Sample.request ["python"; "docker"] "Python Developer")
           Sample.python_catalog)
    = inr response
    /\ required_of (Sample.environment (Generated "[]"))
         [(Sample.python_only, (1 # 6)%Q)]
       = ["Python"]
    /\ incl (Spec.normalize ["Python"]) (Spec.normalize ["python"; "docker"])
    /\ RoadmapResponse.skill_gaps response = []
    /\ (RoadmapResponse.confidence_score response == 0)%Q.
Proof.
  eexists. split; [vm_compute; reflexivity |].
  split; [reflexivity |]. split; [| split; reflexivity].
  intros x [<- | []]. simpl. now left.
Qed.

Lemma intersection_length (known required : list string) :
  NoDup known ->
  (List.length (intersection known required) <= List.length required)%nat.
Proof.
  intros Hknown. apply NoDup_incl_length.
  - unfold intersection. now apply NoDup_filter.
  - intros x Hx. unfold intersection in Hx. apply filter_In in Hx.
    now apply mem_In.
Qed.

(** The score is a fraction between 0 and 1, and 0 for an empty required
    set. *)
Lemma confidence_score_bounds (known required : list string) :
  NoDup known ->
  (0 <= confidence_score known required <= 1)%Q.
Proof.
  intros Hknown. unfold confidence_score.
  pose proof (intersection_length known required Hknown) as Hle.
  destruct required as [| r required]; [split; discriminate |].
  remember (intersection known (r :: required)) as common.
  remember (r :: required) as all eqn:Hall.
  assert (Hpos : (0 < List.length all)%nat) by (subst all; simpl; lia).
  unfold Qle. cbn [Qnum Qden]. split; [lia |].
  rewrite Z.mul_1_l, Z.mul_1_r.
  rewrite <- positive_nat_Z, Nat2Pos.id by lia. lia.
Qed.

(** Where the required set is contained in the known set as it stands,
    spelling included, the score is 1. *)
Lemma confidence_score_full (known required : list string) :
  NoDup known ->
  NoDup required ->
  required <> [] ->
  incl required known ->
  (confidence_score known required == 1)%Q.
Proof.
  intros Hknown Hrequired Hne Hincl.
  assert (Hlen : List.length (intersection known required)
                 = List.length required).
  { apply Permutation_length. apply NoDup_Permutation.
    - unfold intersection. now apply NoDup_filter.
    - assumption.
    - intros x. unfold intersection. rewrite filter_In, mem_In.
      split; [tauto | intros H; split; [now apply Hincl | assumption]]. }
  unfold confidence_score. destruct required as [| r required]; [congruence |].
  rewrite Hlen. remember (r :: required) as all.
  assert (Hpos : (0 < List.length all)%nat) by (subst all; simpl; lia).
  unfold Qeq. cbn [Qnum Qden].
  rewrite Z.mul_1_l, Z.mul_1_r.
  rewrite <- positive_nat_Z, Nat2Pos.id by lia. reflexivity.
Qed.

Lemma confidence_score_empty (known : list string) :
  confidence_score known [] = 0%Q.
Proof. reflexivity. Qed.

(** ** The bracket pattern *)

Lemma match_here_cons (c : ascii) (s : string) :
  Re.match_here (String c s)
  = if Ascii.eqb c "[" then option_map (String "[") (Re.upto_last_close s)
    else None.
Proof.
  destruct c as [[] [] [] [] [] [] [] []]; reflexivity.
Qed.

Lemma upto_last_close_none (s : string) :
  Re.occurs "]" s = false -> Re.upto_last_close s = None.
Proof.
  induction s as [| c s IH]; simpl; [reflexivity |].
  intros H. apply orb_false_elim in H. destruct H as [Hc Hs].
  now rewrite (IH Hs), Hc.
Qed.

Lemma upto_last_close_some (s : string) :
  Re.occurs "]" s = true -> Re.upto_last_close s <> None.
Proof.
  induction s as [| c s IH]; simpl; [discriminate |].
  intros H. destruct (Re.upto_last_close s); [discriminate |].
  destruct (Ascii.eqb c "]"); [discriminate |].
  simpl in H. now apply IH in H.
Qed.

Lemma upto_last_close_app (mid post : string) :
  Re.occurs "]" post = false ->
  Re.upto_last_close (mid ++ "]" ++ post) = Some (mid ++ "]").
Proof.
  intros Hpost. induction mid as [| c mid IH]; simpl.
  - now rewrite (upto_last_close_none post Hpost).
  - simpl in IH. now rewrite IH.
Qed.

Lemma occurs_app (c : ascii) (a b : string) :
  Re.occurs c (a ++ b) = Re.occurs c a || Re.occurs c b.
Proof.
  induction a as [| d a IH]; simpl; [reflexivity |].
  now rewrite IH, orb_assoc.
Qed.

Lemma search_skip (pre s : string) :
  Re.occurs "[" pre = false -> Re.search (pre ++ s) = Re.search s.
Proof.
  induction pre as [| c pre IH]; [reflexivity |].
  intros H. simpl in H. apply orb_false_elim in H. destruct H as [Hc Hpre].
  change (String c pre ++ s) with (String c (pre ++ s)).
  cbn [Re.search]. rewrite match_here_cons, Hc. now apply IH.
Qed.

(** The match runs from the first opening bracket to the last closing one. *)
Lemma search_span (pre mid post : string) :
  Re.occurs "[" pre = false ->
  Re.occurs "]" post = false ->
  Re.search (pre ++ "[" ++ mid ++ "]" ++ post) = Some ("[" ++ mid ++ "]").
Proof.
  intros Hpre Hpost. rewrite (search_skip pre _ Hpre).
  change ("[" ++ mid ++ "]" ++ post) with (String "[" (mid ++ "]" ++ post)).
  cbn [Re.search]. rewrite match_here_cons. simpl Ascii.eqb. cbv iota.
  now rewrite (upto_last_close_app mid post Hpost).
Qed.

Lemma search_none_tail (c : ascii) (s : string) :
  Re.search (String c s) = None ->
  Re.match_here (String c s) = None /\ Re.search s = None.
Proof.
  cbn [Re.search]. destruct (Re.match_here (String c s)); [discriminate |].
  now split.
Qed.

(** No match exactly when no opening bracket has a closing one after it. *)
Lemma search_none (s : string) :
  Re.search s = None <->
  (forall pre mid post, s <> pre ++ "[" ++ mid ++ "]" ++ post).
Proof.
  split.
  - intros H pre. revert s H.
    induction pre as [| c pre IH]; intros s H mid post Heq; subst s.
    + change ("" ++ "[" ++ mid ++ "]" ++ post)
        with (String "[" (mid ++ "]" ++ post)) in H.
      apply search_none_tail in H. destruct H as [H _].
      rewrite match_here_cons in H. simpl Ascii.eqb in H. cbv iota in H.
      assert (Hocc : Re.occurs "]" (mid ++ "]" ++ post) = true).
      { rewrite occurs_app. simpl. apply orb_true_r. }
      apply upto_last_close_some in Hocc.
      destruct (Re.upto_last_close (mid ++ "]" ++ post));
        [discriminate | congruence].
    + change (String c pre ++ "[" ++ mid ++ "]" ++ post)
        with (String c (pre ++ "[" ++ mid ++ "]" ++ post)) in H.
      apply search_none_tail in H. destruct H as [_ H].
      exact (IH _ H mid post eq_refl).
  - induction s as [| c s IH]; intros H; [reflexivity |].
    cbn [Re.search]. rewrite match_here_cons.
    destruct (Ascii.eqb_spec c "[") as [-> | Hc].
    + destruct (Re.upto_last_close s) as [m |] eqn:Hm.
      * exfalso.
        assert (Hsplit : exists mid post, s = mid ++ "]" ++ post).
        { clear H IH. revert m Hm.
          induction s as [| d s IHs]; intros m Hm; [discriminate |].
          simpl in Hm. destruct (Re.upto_last_close s) as [m' |] eqn:Hm'.
          - destruct (IHs m' eq_refl) as [mid [post Hs]].
            exists (String d mid), post. simpl. now rewrite Hs.
          - destruct (Ascii.eqb_spec d "]") as [-> | _]; [| discriminate].
            exists "", s. reflexivity. }
        destruct Hsplit as [mid [post Hs]].
        apply (H "" mid post). simpl. now rewrite Hs.
      * simpl. apply IH. intros pre mid post Heq.
        apply (H (String "[" pre) mid post). simpl. now rewrite Heq.
    + apply IH. intros pre mid post Heq.
      apply (H (String c pre) mid post). simpl. now rewrite Heq.
Qed.

(** ** The text that is decoded *)

(** C7 (as amended).  The decoded text runs from the first opening bracket
    of the response to its last closing bracket, whatever comes before the
    one and after the other; it is the whole response exactly when no
    opening bracket is followed by a closing one. *)
Theorem json_text_is_first_open_to_last_close (response : string) :
  (forall pre mid post,
      response = pre ++ "[" ++ mid ++ "]" ++ post ->
      Re.occurs "[" pre = false ->
      Re.occurs "]" post = false ->
      json_text response = "[" ++ mid ++ "]")
  /\ ((forall pre mid post, response <> pre ++ "[" ++ mid ++ "]" ++ post) ->
      json_text response = response)
  /\ (Re.search response = None <->
      (forall pre mid post, response <> pre ++ "[" ++ mid ++ "]" ++ post)).
Proof.
  split; [| split].
  - intros pre mid post -> Hpre Hpost. unfold json_text.
    now rewrite (search_span pre mid post Hpre Hpost).
  - intros H. apply search_none in H. unfold json_text. now rewrite H.
  - apply search_none.
Qed.

(** C7, as stated, fails: in "[1] and [2]" the first balanced span is "[1]",
    but the text decoded is the whole "[1] and [2]"; the later bracket pair
    has changed what is parsed, and with it the outcome. *)
Lemma later_brackets_extend_the_span :
  Spec.first_balanced_span "[1] and [2]" = Some "[1]"
  /\ json_text "[1] and [2]" = "[1] and [2]"
  /\ json_text "[1] and so on" = "[1]"
  /\ Json.loads "[1]" = Some (Json.JArr [Json.JInt 1])
  /\ Json.loads (json_text "[1] and [2]") = None.
Proof. repeat split. Qed.

(** ** The timeline *)

Lemma first_token_ok (duration : string) :
  PyStr.all_space duration = false ->
  exists token rest,
    PyStr.split duration = token :: rest /\ first_token duration = inr token.
Proof.
  intros H. unfold first_token.
  destruct (PyStr.split duration) as [| token rest] eqn:Hsplit.
  - apply split_nil in Hsplit. congruence.
  - now exists token, rest.
Qed.

Lemma first_token_blank (duration : string) :
  PyStr.all_space duration = true -> first_token duration = inl IndexError.
Proof.
  intros H. apply split_nil in H. unfold first_token. now rewrite H.
Qed.

Lemma sum_list_shift (l : list Z) (a : Z) :
  fold_left Z.add l a = a + fold_left Z.add l 0.
Proof.
  revert a. induction l as [| x l IH]; intros a; simpl; [lia |].
  rewrite (IH (a + x)), (IH x). lia.
Qed.

Lemma sum_list_cons (x : Z) (l : list Z) : sum_list (x :: l) = x + sum_list l.
Proof.
  unfold sum_list. simpl. apply sum_list_shift.
Qed.


Lemma to_int_value (token : string) (weeks : Z) :
  PyStr.to_int token = inr weeks -> weeks = PyStr.int token.
Proof.
  unfold PyStr.to_int.
  destruct (PyStr.int_max_str_digits <? String.length token)%nat;
    [discriminate |].
  intros H. now injection H as <-.
Qed.

Lemma to_int_error (token : string) (e : Exception) :
  PyStr.to_int token = inl e -> exists msg, e = ValueError msg.
Proof.
  unfold PyStr.to_int.
  destruct (PyStr.int_max_str_digits <? String.length token)%nat;
    [| discriminate].
  intros H. injection H as <-. now eexists.
Qed.




(** A timeline is computed only where every duration has a token. *)
Lemma week_counts_tokens (learning_path : list LearningStep.t)
    (counts : list Z) :
  week_counts learning_path = inr counts ->
  Forall Spec.has_token learning_path.
Proof.
  revert counts. induction learning_path as [| s rest IH]; intros counts;
    [constructor |].
  cbn [week_counts]. unfold Spec.has_token at 1.
  destruct (PyStr.all_space (LearningStep.estimated_duration s)) eqn:Hs.
  - now rewrite (first_token_blank _ Hs).
  - destruct (first_token_ok _ Hs) as [token [more [_ Htoken]]].
    rewrite Htoken. cbn [bind]. intros H. constructor; [exact Hs |].
    destruct (PyStr.isdigit token); [| now apply (IH counts)].
    destruct (PyStr.to_int token) as [e | weeks]; cbn [bind] in H;
      [discriminate |].
    destruct (week_counts rest) as [e | counts']; cbn [bind ret] in H;
      [discriminate |].
    now apply (IH counts').
Qed.

Lemma estimated_timeline_tokens (learning_path : list LearningStep.t)
    (timeline : string) :
  estimated_timeline learning_path = inr timeline ->
  Forall Spec.has_token learning_path.
Proof.
  unfold estimated_timeline, total_duration.
  destruct (week_counts learning_path) as [e | counts] eqn:Hcounts;
    cbn [bind ret]; [discriminate |].
  intros _. exact (week_counts_tokens _ _ Hcounts).
Qed.

Example timeline_fifteen_weeks :
  estimated_timeline
    (map Sample.step_lasting ["2 weeks"; "3 weeks"; "10 weeks"])
  = inr "15 weeks".
Proof. reflexivity. Qed.

Example timeline_fifteen_months :
  estimated_timeline (map Sample.step_lasting ["30 weeks"; "30 weeks"])
  = inr "15 months".
Proof. reflexivity. Qed.

(** C6, at the failing input.  A step whose duration is empty does not
    start with an integer token, so it should add 0 and the two steps should
    give "2 weeks"; the route raises [IndexError] instead. *)
Theorem empty_duration_is_not_counted_as_zero :
  estimated_timeline [Sample.step_lasting "2 weeks"; Sample.step_lasting ""]
  = inl IndexError
  /\ Spec.contribution (Sample.step_lasting "") = 0
  /\ render_timeline
       (Spec.total [Sample.step_lasting "2 weeks"; Sample.step_lasting ""])
     = "2 weeks".
Proof. repeat split. Qed.

(** C10.  A timeline is computed only for a learning path in which every
    duration has a token: with an empty or an all-blank duration the first
    token does not exist, the index raises [IndexError] and the whole route
    fails with status 500, where a contribution of 0 would have given
    "0 weeks". *)
Theorem timeline_needs_a_token_in_every_duration :
  (forall learning_path timeline,
      estimated_timeline learning_path = inr timeline ->
      Forall Spec.has_token learning_path)
  /\ first_token "" = inl IndexError
  /\ first_token "   " = inl IndexError
  /\ fst (generate_roadmap
            (Sample.environment (Generated Sample.empty_duration))
            (Sample.request ["python"] "DevOps") Sample.devops_catalog)
     = inl (InternalError IndexError)
  /\ fst (generate_roadmap
            (Sample.environment (Generated Sample.blank_duration))
            (Sample.request ["python"] "DevOps") Sample.devops_catalog)
     = inl (InternalError IndexError)
  /\ render_timeline
       (Spec.total [Sample.step_lasting ""; Sample.step_lasting "  "])
     = "0 weeks".
Proof.
  split; [exact estimated_timeline_tokens | repeat split].
Qed.

(** ** The route after retrieval *)

Lemma generate_roadmap_retrieved (env : Environment)
    (request : RoadmapRequest.t) (db : Database)
    (jobs : list (JobPosting.t * Q)) :
  retrieve env request db = inr jobs ->
  generate_roadmap env request db
  = match synthesize env request db jobs with
    | inr (response, db') => (inr response, db')
    | inl e => (inl (handle e), db)
    end.
Proof.
  intros H. unfold generate_roadmap, roadmap_body. now rewrite H.
Qed.

Lemma synthesize_generated (env : Environment) (request : RoadmapRequest.t)
    (db : Database) (jobs : list (JobPosting.t * Q)) (prompt : Prompt.t)
    (text : string) :
  prompt_of env request jobs = inr prompt ->
  generate_content env prompt = inr text ->
  synthesize env request db jobs
  = (learning_path <-
       parse_learning_path env text (gaps_of env request jobs) ;;
     timeline <- estimated_timeline learning_path ;;
     ret (response_with env request db jobs learning_path timeline,
          save db
            (CareerRoadmap.mk (next_id db)
               (RoadmapRequest.current_skills request)
               (RoadmapRequest.target_role request)
               (RoadmapRequest.target_salary request)
               (gaps_of env request jobs)
               (recommended_of env request jobs)
               learning_path timeline
               (confidence_score (known_of env request)
                  (required_of env jobs))))).
Proof.
  intros Hprompt Hgen. unfold synthesize.
  unfold prompt_of, gaps_of, recommended_of, required_of, preferred_of,
    known_of in Hprompt.
  rewrite Hprompt. cbn [bind]. rewrite Hgen. reflexivity.
Qed.

Lemma synthesize_failed (env : Environment) (request : RoadmapRequest.t)
    (db : Database) (jobs : list (JobPosting.t * Q)) (prompt : Prompt.t)
    (e : Exception) :
  prompt_of env request jobs = inr prompt ->
  generate_content env prompt = inl e ->
  synthesize env request db jobs = inl e.
Proof.
  intros Hprompt Hgen. unfold synthesize.
  unfold prompt_of, gaps_of, recommended_of, required_of, preferred_of,
    known_of in Hprompt.
  rewrite Hprompt. cbn [bind]. rewrite Hgen. reflexivity.
Qed.

(** What the generator service raises is never an [HTTPException]. *)
Lemma generate_once_error (env : Environment) (prompt : Prompt.t) (n : nat)
    (e : Exception) :
  generate_once env prompt n = inl e -> handle e = InternalError e.
Proof.
  unfold generate_once.
  destruct (model_generate env prompt n) as [[| c text] | message];
    intros H; inversion H; reflexivity.
Qed.

Lemma retrying_error (env : Environment) (prompt : Prompt.t)
    (n remaining : nat) (e : Exception) :
  retrying env prompt n remaining = inl e -> handle e = InternalError e.
Proof.
  revert n. induction remaining as [| remaining IH]; intros n; cbn [retrying];
    destruct (generate_once env prompt n) as [e' | text] eqn:Honce;
    try discriminate.
  - intros H. inversion H; subst. exact (generate_once_error _ _ _ _ Honce).
  - apply IH.
Qed.

(** Three calls that fail, the third with [e], are a failure with [e]. *)
Lemma generate_content_gives_up (env : Environment) (prompt : Prompt.t)
    (e0 e1 e : Exception) :
  generate_once env prompt 0 = inl e0 ->
  generate_once env prompt 1 = inl e1 ->
  generate_once env prompt 2 = inl e ->
  generate_content env prompt = inl e.
Proof.
  intros H0 H1 H2. unfold generate_content. cbn [retrying].
  now rewrite H0, H1, H2.
Qed.

Lemma fallback_timeline (gaps : list string) :
  estimated_timeline [fallback_step gaps] = inr "0 weeks".
Proof. reflexivity. Qed.

(** A response that is not JSON: the single step of the handler, and a
    complete answer. *)
Lemma generate_roadmap_fallback (env : Environment)
    (request : RoadmapRequest.t) (db : Database)
    (jobs : list (JobPosting.t * Q)) (prompt : Prompt.t) (text : string) :
  retrieve env request db = inr jobs ->
  prompt_of env request jobs = inr prompt ->
  generate_content env prompt = inr text ->
  Json.loads (json_text text) = None ->
  fst (generate_roadmap env request db)
  = inr (response_with env request db jobs
           [fallback_step (gaps_of env request jobs)] "0 weeks").
Proof.
  intros Hjobs Hprompt Hgen Hjson.
  rewrite (generate_roadmap_retrieved env request db jobs Hjobs).
  rewrite (synthesize_generated env request db jobs prompt text Hprompt Hgen).
  unfold parse_learning_path. rewrite Hjson. cbn [bind ret].
  rewrite fallback_timeline. reflexivity.
Qed.

(** C1 (as amended).  Once retrieval has succeeded and the generation
    request is built, the outcome of the generator service decides: when it
    raises (its retries spent on errors of the model or on empty answers)
    the call fails with status 500 and the database is as it was; when it
    returns a text on which [json.loads] raises [JSONDecodeError] (the text
    handed to the decoder is within the interpreter's limits and is not
    JSON), the call returns a complete roadmap built on the fallback
    step. *)
Theorem generation_outcomes (env : Environment) (request : RoadmapRequest.t)
    (db : Database) (jobs : list (JobPosting.t * Q)) (prompt : Prompt.t) :
  retrieve env request db = inr jobs ->
  prompt_of env request jobs = inr prompt ->
  match generate_content env prompt with
  | inl e =>
      generate_roadmap env request db = (inl (InternalError e), db)
      /\ status_code (InternalError e) = 500
  | inr text =>
      Json.within_limits (recursion_room env) (json_text text) = true ->
      Json.loads (json_text text) = None ->
      fst (generate_roadmap env request db)
      = inr (response_with env request db jobs
               [fallback_step (gaps_of env request jobs)] "0 weeks")
  end.
Proof.
  intros Hjobs Hprompt.
  destruct (generate_content env prompt) as [e | text] eqn:Hgen.
  - split; [| reflexivity].
    rewrite (generate_roadmap_retrieved env request db jobs Hjobs).
    rewrite (synthesize_failed env request db jobs prompt e Hprompt Hgen).
    now rewrite (retrying_error env prompt 0 2 e Hgen).
  - intros _.
    now apply generate_roadmap_fallback with (prompt := prompt) (text := text).
Qed.

Lemma generation_outcomes_witness :
  fst (generate_roadmap (Sample.environment (Generated "No plan today."))
         (Sample.request ["python"] "DevOps") Sample.devops_catalog)
  = inr (response_with (Sample.environment (Generated "No plan today."))
           (Sample.request ["python"] "DevOps") Sample.devops_catalog
           [(Sample.devops, (1 # 5)%Q)]
           [fallback_step ["Kubernetes"; "Terraform"; "Go"]] "0 weeks").
Proof.
  exact (generation_outcomes (Sample.environment (Generated "No plan today."))
           (Sample.request ["python"] "DevOps") Sample.devops_catalog
           [(Sample.devops, (1 # 5)%Q)]
           (Prompt.mk "DevOps" "python" 120000%Q (Some 3%Q)
              "Kubernetes, Terraform, Go" EmptyString)
           eq_refl eq_refl eq_refl eq_refl).
Defined.

(** C1, as stated, fails: retrieval succeeds, the model refuses the three
    calls or answers them with an empty text, and the caller receives a
    status 500, not a roadmap. *)
Lemma generator_failure_reaches_the_caller :
  retrieve (Sample.environment (Failed "429 quota exceeded"))
    (Sample.request ["python"] "DevOps") Sample.devops_catalog
  = inr [(Sample.devops, (1 # 5)%Q)]
  /\ fst (generate_roadmap (Sample.environment (Failed "429 quota exceeded"))
            (Sample.request ["python"] "DevOps") Sample.devops_catalog)
     = inl (InternalError (ServiceError "429 quota exceeded"))
  /\ fst (generate_roadmap (Sample.environment (Generated EmptyString))
            (Sample.request ["python"] "DevOps") Sample.devops_catalog)
     = inl (InternalError (ValueError "Empty response from Gemini API")).
Proof. repeat split. Qed.

(** The same for a step object without its title: the schema rejects it
    and the caller receives a status 500. *)
Example missing_field_reaches_the_caller :
  fst (generate_roadmap (Sample.environment (Generated Sample.missing_title))
         (Sample.request ["python"] "DevOps") Sample.devops_catalog)
  = inl (InternalError ValidationError).
Proof. reflexivity. Qed.

(** And for a request without a target salary, whose prompt cannot be
    formatted. *)
Example missing_salary_reaches_the_caller :
  fst (generate_roadmap (Sample.environment (Generated "[]"))
         (RoadmapRequest.mk ["python"] "DevOps" None None)
         Sample.devops_catalog)
  = inl (InternalError TypeError).
Proof. reflexivity. Qed.

(** C4 (as amended).  When the generator returns a text on which
    [json.loads] raises [JSONDecodeError] (the text handed to the decoder is
    within the interpreter's limits and is not JSON), the learning path of
    the roadmap is one step, titled "Foundation Building", lasting
    "1-2 months", whose skills gained are the first three gap skills. *)
Theorem unparsed_output_gives_foundation_step (env : Environment)
    (request : RoadmapRequest.t) (db : Database)
    (jobs : list (JobPosting.t * Q)) (prompt : Prompt.t) (text : string) :
  retrieve env request db = inr jobs ->
  prompt_of env request jobs = inr prompt ->
  generate_content env prompt = inr text ->
  Json.within_limits (recursion_room env) (json_text text) = true ->
  Json.loads (json_text text) = None ->
  exists response s,
    fst (generate_roadmap env request db) = inr response
    /\ RoadmapResponse.skill_gaps response = gaps_of env request jobs
    /\ RoadmapResponse.learning_path response = [s]
    /\ LearningStep.title s = "Foundation Building"
    /\ LearningStep.estimated_duration s = "1-2 months"
    /\ LearningStep.skills_gained s
       = firstn 3 (RoadmapResponse.skill_gaps response).
Proof.
  intros Hjobs Hprompt Hgen _ Hjson.
  exists (response_with env request db jobs
            [fallback_step (gaps_of env request jobs)] "0 weeks").
  exists (fallback_step (gaps_of env request jobs)).
  split.
  - now apply generate_roadmap_fallback with (prompt := prompt) (text := text).
  - repeat split.
Qed.

Lemma unparsed_output_gives_foundation_step_witness :
  gaps_of (Sample.environment (Generated "Sorry, I cannot help."))
    (Sample.request ["python"] "DevOps") [(Sample.devops, (1 # 5)%Q)]
  = ["Kubernetes"; "Terraform"; "Go"]
  /\ exists response s,
      fst (generate_roadmap
             (Sample.environment (Generated "Sorry, I cannot help."))
             (Sample.request ["python"] "DevOps") Sample.devops_catalog)
      = inr response
      /\ RoadmapResponse.skill_gaps response
         = gaps_of (Sample.environment (Generated "Sorry, I cannot help."))
             (Sample.request ["python"] "DevOps") [(Sample.devops, (1 # 5)%Q)]
      /\ RoadmapResponse.learning_path response = [s]
      /\ LearningStep.title s = "Foundation Building"
      /\ LearningStep.estimated_duration s = "1-2 months"
      /\ LearningStep.skills_gained s
         = firstn 3 (RoadmapResponse.skill_gaps response).
Proof.
  split; [reflexivity |].
  exact (unparsed_output_gives_foundation_step
           (Sample.environment (Generated "Sorry, I cannot help."))
           (Sample.request ["python"] "DevOps") Sample.devops_catalog
           [(Sample.devops, (1 # 5)%Q)]
           (Prompt.mk "DevOps" "python" 120000%Q (Some 3%Q)
              "Kubernetes, Terraform, Go" EmptyString)
           "Sorry, I cannot help."
           eq_refl eq_refl eq_refl eq_refl eq_refl).
Defined.

(** C4, as stated, fails: it counts a step object without a required
    field, a generator that raises and an empty answer as output that fails
    to parse.  With the gap skills Kubernetes, Terraform and Go, each of the
    three gives the caller a status 500 and no roadmap, hence no
    "Foundation Building" step. *)
Lemma other_parse_failures_give_no_roadmap :
  gaps_of (Sample.environment (Generated Sample.missing_title))
    (Sample.request ["python"] "DevOps") [(Sample.devops, (1 # 5)%Q)]
  = ["Kubernetes"; "Terraform"; "Go"]
  /\ fst (generate_roadmap
            (Sample.environment (Generated Sample.missing_title))
            (Sample.request ["python"] "DevOps") Sample.devops_catalog)
     = inl (InternalError ValidationError)
  /\ fst (generate_roadmap
            (Sample.environment (Failed "503 model overloaded"))
            (Sample.request ["python"] "DevOps") Sample.devops_catalog)
     = inl (InternalError (ServiceError "503 model overloaded"))
  /\ fst (generate_roadmap (Sample.environment (Generated EmptyString))
            (Sample.request ["python"] "DevOps") Sample.devops_catalog)
     = inl (InternalError (ValueError "Empty response from Gemini API")).
Proof. repeat split. Qed.

(** ** Steps accepted by the schema *)






(** * Further properties of the routes *)

(** ** Requests that cannot be served *)

(** X1.  A request without a target salary fails with status 500 as soon as
    retrieval has succeeded, whatever the generator would have answered:
    the prompt formats the salary before the generator is called.  Nothing
    is stored. *)
Theorem missing_salary_is_an_internal_error (env : Environment)
    (request : RoadmapRequest.t) (db : Database)
    (jobs : list (JobPosting.t * Q)) :
  retrieve env request db = inr jobs ->
  RoadmapRequest.target_salary request = None ->
  generate_roadmap env request db = (inl (InternalError TypeError), db)
  /\ status_code (InternalError TypeError) = 500.
Proof.
  intros Hjobs Hsalary. split; [| reflexivity].
  rewrite (generate_roadmap_retrieved env request db jobs Hjobs).
  unfold synthesize, build_prompt. now rewrite Hsalary.
Qed.

Lemma missing_salary_is_an_internal_error_witness :
  generate_roadmap (Sample.environment (Generated Sample.two_steps))
    (RoadmapRequest.mk ["python"] "DevOps" None (Some 3%Q))
    Sample.devops_catalog
  = (inl (InternalError TypeError), Sample.devops_catalog)
  /\ status_code (InternalError TypeError) = 500.
Proof.
  exact (missing_salary_is_an_internal_error
           (Sample.environment (Generated Sample.two_steps))
           (RoadmapRequest.mk ["python"] "DevOps" None (Some 3%Q))
           Sample.devops_catalog [(Sample.devops, (1 # 5)%Q)]
           eq_refl eq_refl).
Defined.

(** X2.  A target role that is empty or all blank fails with status 500,
    carrying the encoder service's "Text cannot be empty", before any
    posting is looked at: the outcome does not depend on the catalog, and
    nothing is stored. *)
Theorem blank_role_is_an_internal_error (env : Environment)
    (request : RoadmapRequest.t) (db : Database) :
  PyStr.all_space (RoadmapRequest.target_role request) = true ->
  generate_roadmap env request db
  = (inl (InternalError (ValueError "Text cannot be empty")), db).
Proof.
  intros Hblank.
  unfold generate_roadmap, roadmap_body, retrieve, generate_embedding,
    PyStr.blank.
  now rewrite Hblank.
Qed.

Lemma blank_role_is_an_internal_error_witness :
  generate_roadmap (Sample.environment (Generated "[]"))
    (Sample.request ["python"] "   ") Sample.catalog
  = (inl (InternalError (ValueError "Text cannot be empty")), Sample.catalog).
Proof.
  exact (blank_role_is_an_internal_error
           (Sample.environment (Generated "[]"))
           (Sample.request ["python"] "   ") Sample.catalog eq_refl).
Defined.

(** ** The detail of a status 500 *)

Lemma prefix_head (c : ascii) (needle haystack : string) :
  String.prefix (String c needle) haystack = true ->
  Re.occurs c haystack = true.
Proof.
  destruct haystack as [| d haystack]; simpl; [discriminate |].
  destruct (ascii_dec c d) as [<- | _]; [| discriminate].
  intros _. now rewrite Ascii.eqb_refl.
Qed.

(** A text that contains a needle contains the needle's first character. *)
Lemma contains_head (c : ascii) (needle haystack : string) :
  PyStr.contains (String c needle) haystack = true ->
  Re.occurs c haystack = true.
Proof.
  induction haystack as [| d haystack IH].
  - simpl. discriminate.
  - cbn [PyStr.contains]. intros H. apply orb_prop in H.
    destruct H as [H | H].
    + now apply prefix_head in H.
    + simpl. rewrite (IH H). apply orb_true_r.
Qed.

Lemma lower_char_not_upper (c : ascii) :
  PyStr.is_upper (PyStr.lower_char c) = false.
Proof.
  destruct c as [[] [] [] [] [] [] [] []]; reflexivity.
Qed.

Lemma occurs_upper_in_lower (c : ascii) (s : string) :
  PyStr.is_upper c = true -> Re.occurs c (PyStr.lower s) = false.
Proof.
  intros Hc. induction s as [| d s IH]; simpl; [reflexivity |].
  rewrite IH, orb_false_r.
  destruct (Ascii.eqb_spec (PyStr.lower_char d) c) as [Heq | _];
    [| reflexivity].
  rewrite <- Heq, lower_char_not_upper in Hc. discriminate.
Qed.

Lemma take_length (n : nat) (s : string) :
  (String.length (take n s) <= n)%nat.
Proof.
  revert s. induction n as [| n IH]; intros s; simpl; [lia |].
  destruct s as [| c s]; simpl; [lia |].
  specialize (IH s). lia.
Qed.

Lemma append_length (a b : string) :
  String.length (a ++ b) = (String.length a + String.length b)%nat.
Proof.
  induction a as [| c a IH]; simpl; [reflexivity | now rewrite IH].
Qed.

(** X3.  The handler's hint about the API key can never be given: it looks
    for "API key", capitals included, in the lower-cased message.  Whatever
    the message, the detail is the database text, the timeout text or the
    generic one. *)
Theorem api_key_hint_is_never_given (error_message : string) :
  PyStr.contains "API key" (PyStr.lower error_message) = false
  /\ error_detail error_message
     <> "AI service configuration error. Please check API key settings."
  /\ error_detail error_message
     = if PyStr.contains "database" (PyStr.lower error_message)
          || PyStr.contains "connection" (PyStr.lower error_message)
       then "Database connection error. Please try again later."
       else if PyStr.contains "timeout" (PyStr.lower error_message)
       then
         "Request timed out. Please try again with fewer skills or a simpler role."
       else
         "Unable to generate roadmap. Please try again or contact support. Error: "
         ++ take 100 error_message.
Proof.
  assert (Hkey : PyStr.contains "API key" (PyStr.lower error_message) = false).
  { destruct (PyStr.contains "API key" (PyStr.lower error_message)) eqn:H;
      [| reflexivity].
    apply contains_head in H.
    now rewrite (occurs_upper_in_lower "A" error_message eq_refl) in H. }
  split; [exact Hkey |].
  unfold error_detail. rewrite Hkey. split; [| reflexivity].
  destruct (PyStr.contains "database" (PyStr.lower error_message)
            || PyStr.contains "connection" (PyStr.lower error_message));
    [discriminate |].
  destruct (PyStr.contains "timeout" (PyStr.lower error_message));
    discriminate.
Qed.

(** X4.  However long the text of the exception, the detail sent to the
    caller has at most 173 characters: the generic detail quotes the first
    100 characters of the message and no more. *)
Theorem error_detail_is_bounded (error_message : string) :
  (String.length (error_detail error_message) <= 173)%nat.
Proof.
  unfold error_detail.
  destruct (PyStr.contains "API key" (PyStr.lower error_message));
    [simpl; lia |].
  destruct (PyStr.contains "database" (PyStr.lower error_message)
            || PyStr.contains "connection" (PyStr.lower error_message));
    [simpl; lia |].
  destruct (PyStr.contains "timeout" (PyStr.lower error_message));
    [simpl; lia |].
  rewrite append_length. pose proof (take_length 100 error_message) as H.
  simpl String.length at 1. lia.
Qed.

(** ** What a successful call stores, and reading it back *)

Lemma generate_roadmap_success (env : Environment)
    (request : RoadmapRequest.t) (db : Database)
    (response : RoadmapResponse.t) :
  fst (generate_roadmap env request db) = inr response ->
  exists jobs learning_path timeline,
    retrieve env request db = inr jobs
    /\ estimated_timeline learning_path = inr timeline
    /\ response = response_with env request db jobs learning_path timeline
    /\ snd (generate_roadmap env request db)
       = save db (stored_row request response).
Proof.
  unfold generate_roadmap, roadmap_body.
  destruct (retrieve env request db) as [e | jobs] eqn:Hjobs;
    cbn [bind]; [discriminate |].
  unfold synthesize.
  destruct (build_prompt request _ _) as [e | prompt]; cbn [bind];
    [discriminate |].
  destruct (generate_content env prompt) as [e | text]; cbn [bind];
    [discriminate |].
  destruct (parse_learning_path env text _) as [e | learning_path];
    cbn [bind]; [discriminate |].
  destruct (estimated_timeline learning_path) as [e | timeline] eqn:Htime;
    cbn [bind ret fst snd]; [discriminate |].
  intros H. inversion H; subst response.
  exists jobs, learning_path, timeline. repeat split; assumption.
Qed.

Lemma validate_strs_exact (env : Environment) (l : list string) :
  (forall s, validate_str env (Json.JStr s) = Some s) ->
  validate_strs env (map Json.JStr l) = Some l.
Proof.
  intros Hstr. induction l as [| s l IH]; simpl; [reflexivity |].
  now rewrite Hstr, IH.
Qed.

(** A step written out as a dict goes through the schema unchanged. *)
Lemma make_step_dict (env : Environment) (s : LearningStep.t) :
  (forall n, validate_int env (Json.JInt n) = Some n) ->
  (forall t, validate_str env (Json.JStr t) = Some t) ->
  make_step env (Json.JObj (step_dict s)) = inr s.
Proof.
  intros Hint Hstr. destruct s as [n t d e r g].
  unfold make_step, validate_step, step_dict.
  cbn [Json.get String.eqb Ascii.eqb Bool.eqb required_field validate_list
         LearningStep.step LearningStep.title LearningStep.description
         LearningStep.estimated_duration LearningStep.resources
         LearningStep.skills_gained].
  now rewrite Hint, !Hstr, !(validate_strs_exact env _ Hstr).
Qed.

Lemma mapM_make_step_dict (env : Environment)
    (learning_path : list LearningStep.t) :
  (forall n, validate_int env (Json.JInt n) = Some n) ->
  (forall t, validate_str env (Json.JStr t) = Some t) ->
  mapM (make_step env)
    (map (fun s => Json.JObj (step_dict s)) learning_path)
  = inr learning_path.
Proof.
  intros Hint Hstr. induction learning_path as [| s rest IH];
    [reflexivity |].
  cbn [map mapM]. rewrite (make_step_dict env s Hint Hstr), IH. reflexivity.
Qed.

Lemma find_last_fresh (A : Type) (p : A -> bool) (l : list A) (a : A) :
  (forall x, In x l -> p x = false) ->
  p a = true ->
  find p (l ++ [a]) = Some a.
Proof.
  intros Hl Ha. induction l as [| x l IH]; simpl.
  - now rewrite Ha.
  - rewrite (Hl x (or_introl eq_refl)). apply IH.
    intros y Hy. apply Hl. now right.
Qed.

Lemma success_like (env : Environment) (request : RoadmapRequest.t)
    (db : Database) (response : RoadmapResponse.t) :
  fst (generate_roadmap env request db) = inr response ->
  career_roadmaps (snd (generate_roadmap env request db))
  = (career_roadmaps db ++ [stored_row request response])%list
  /\ RoadmapResponse.id response = next_id db
  /\ RoadmapResponse.target_role response
     = RoadmapRequest.target_role request
  /\ RoadmapResponse.current_skills response
     = RoadmapRequest.current_skills request.
Proof.
  intros H. apply generate_roadmap_success in H.
  destruct H as [jobs [learning_path [timeline [_ [_ [-> ->]]]]]].
  repeat split.
Qed.

(** X5.  A successful call adds exactly one row to the roadmaps, after the
    rows that were there, carrying the request's skills, role and salary and
    the response's gap, recommendations, learning path, timeline and score
    under the response's id, which is the next key; the postings are left
    as they were. *)
Theorem success_stores_one_roadmap (env : Environment)
    (request : RoadmapRequest.t) (db : Database)
    (response : RoadmapResponse.t) :
  fst (generate_roadmap env request db) = inr response ->
  job_postings (snd (generate_roadmap env request db)) = job_postings db
  /\ career_roadmaps (snd (generate_roadmap env request db))
     = (career_roadmaps db ++ [stored_row request response])%list
  /\ RoadmapResponse.id response = next_id db
  /\ RoadmapResponse.target_role response
     = RoadmapRequest.target_role request
  /\ RoadmapResponse.current_skills response
     = RoadmapRequest.current_skills request.
Proof.
  intros H. apply generate_roadmap_success in H.
  destruct H as [jobs [learning_path [timeline [_ [_ [-> ->]]]]]].
  repeat split.
Qed.

Lemma success_stores_one_roadmap_witness :
  career_roadmaps
    (snd (generate_roadmap (Sample.environment (Generated "No plan today."))
            (Sample.request ["python"] "DevOps") Sample.devops_catalog))
  = [stored_row (Sample.request ["python"] "DevOps")
       (response_with (Sample.environment (Generated "No plan today."))
          (Sample.request ["python"] "DevOps") Sample.devops_catalog
          [(Sample.devops, (1 # 5)%Q)]
          [fallback_step ["Kubernetes"; "Terraform"; "Go"]] "0 weeks")].
Proof.
  exact (proj1 (proj2
           (success_stores_one_roadmap
              (Sample.environment (Generated "No plan today."))
              (Sample.request ["python"] "DevOps") Sample.devops_catalog
              (response_with
                 (Sample.environment (Generated "No plan today."))
                 (Sample.request ["python"] "DevOps") Sample.devops_catalog
                 [(Sample.devops, (1 # 5)%Q)]
                 [fallback_step ["Kubernetes"; "Terraform"; "Go"]]
                 "0 weeks")
              eq_refl))).
Defined.

(** X6.  Reading back what was just generated: where no stored roadmap
    already has the next key and the schema accepts integers and strings as
    they are, [get_roadmap] on the id of a successful response returns that
    very response. *)
Theorem get_roadmap_returns_the_generated_roadmap (env : Environment)
    (request : RoadmapRequest.t) (db : Database)
    (response : RoadmapResponse.t) :
  (forall n, validate_int env (Json.JInt n) = Some n) ->
  (forall t, validate_str env (Json.JStr t) = Some t) ->
  fresh_key db ->
  fst (generate_roadmap env request db) = inr response ->
  get_roadmap env (RoadmapResponse.id response)
    (snd (generate_roadmap env request db))
  = inr response.
Proof.
  intros Hint Hstr Hfresh H.
  destruct (success_like env request db response H)
    as [Hrows [Hid [Hrole Hskills]]].
  unfold get_roadmap, find_roadmap. rewrite Hrows.
  rewrite (find_last_fresh _ _ (career_roadmaps db)
             (stored_row request response)).
  - cbn [stored_row CareerRoadmap.learning_path CareerRoadmap.id
           CareerRoadmap.target_role CareerRoadmap.current_skills
           CareerRoadmap.skill_gaps CareerRoadmap.recommended_skills
           CareerRoadmap.estimated_timeline CareerRoadmap.confidence_score].
    rewrite (mapM_make_step_dict env _ Hint Hstr). cbn [bind ret].
    rewrite <- Hrole, <- Hskills. now destruct response.
  - intros r Hr. apply Z.eqb_neq. rewrite Hid. now apply Hfresh.
  - apply Z.eqb_refl.
Qed.

Lemma get_roadmap_returns_the_generated_roadmap_witness :
  get_roadmap (Sample.environment (Generated "No plan today.")) 1
    (snd (generate_roadmap (Sample.environment (Generated "No plan today."))
            (Sample.request ["python"] "DevOps") Sample.devops_catalog))
  = inr (response_with (Sample.environment (Generated "No plan today."))
           (Sample.request ["python"] "DevOps") Sample.devops_catalog
           [(Sample.devops, (1 # 5)%Q)]
           [fallback_step ["Kubernetes"; "Terraform"; "Go"]] "0 weeks").
Proof.
  apply (get_roadmap_returns_the_generated_roadmap
           (Sample.environment (Generated "No plan today."))
           (Sample.request ["python"] "DevOps") Sample.devops_catalog
           (response_with (Sample.environment (Generated "No plan today."))
              (Sample.request ["python"] "DevOps") Sample.devops_catalog
              [(Sample.devops, (1 # 5)%Q)]
              [fallback_step ["Kubernetes"; "Terraform"; "Go"]] "0 weeks")).
  - intros n. reflexivity.
  - intros t. reflexivity.
  - intros r Hr. destruct Hr.
  - reflexivity.
Defined.

(** What the schema raises on a step is a [TypeError] or a
    [ValidationError]. *)
Lemma make_step_error (env : Environment) (j : Json.json) (e : Exception) :
  make_step env j = inl e -> e = TypeError \/ e = ValidationError.
Proof.
  unfold make_step. intros H.
  destruct j; try (inversion H; now left).
  destruct (validate_step env members); inversion H. now right.
Qed.

Lemma mapM_make_step_error (env : Environment) (items : list Json.json)
    (e : Exception) :
  mapM (make_step env) items = inl e -> e = TypeError \/ e = ValidationError.
Proof.
  induction items as [| j items IH]; cbn [mapM]; [discriminate |].
  destruct (make_step env j) as [e' | s] eqn:Hj; cbn [bind].
  - intros H. inversion H; subst. exact (make_step_error env j e Hj).
  - destruct (mapM (make_step env) items) as [e' | rest]; cbn [bind ret];
      [| discriminate].
    intros H. inversion H; subst. now apply IH.
Qed.

(** X7.  [get_roadmap] answers 404 "Roadmap not found" exactly when no
    stored roadmap has the id asked for; a stored roadmap never produces
    that answer, whatever its learning path holds. *)
Theorem get_roadmap_not_found (env : Environment) (roadmap_id : Z)
    (db : Database) :
  get_roadmap env roadmap_id db = inl (HTTPException 404 "Roadmap not found")
  <-> (forall r, In r (career_roadmaps db) -> CareerRoadmap.id r <> roadmap_id).
Proof.
  unfold get_roadmap, find_roadmap. split.
  - destruct (find _ (career_roadmaps db)) as [roadmap |] eqn:Hfind.
    + destruct (mapM (make_step env) _) as [e |] eqn:Hsteps; cbn [bind ret];
        [| discriminate].
      intros H. inversion H; subst e.
      apply mapM_make_step_error in Hsteps.
      destruct Hsteps; discriminate.
    + intros _ r Hr. apply Z.eqb_neq.
      exact (find_none _ _ Hfind r Hr).
  - intros H.
    destruct (find _ (career_roadmaps db)) as [roadmap |] eqn:Hfind;
      [| reflexivity].
    apply find_some in Hfind. destruct Hfind as [Hin Heq].
    apply Z.eqb_eq in Heq. now apply H in Hin.
Qed.

(** ** The rows retrieval returns *)

Lemma insert_row_perm (r : JobPosting.t * Q) (rows : list (JobPosting.t * Q)) :
  Permutation (insert_row r rows) (r :: rows).
Proof.
  induction rows as [| r' rows IH]; simpl; [apply Permutation_refl |].
  destruct (Qle_bool (snd r) (snd r')); [apply Permutation_refl |].
  apply Permutation_trans with (r' :: r :: rows).
  - now apply perm_skip.
  - apply perm_swap.
Qed.

Lemma order_by_distance_perm (rows : list (JobPosting.t * Q)) :
  Permutation (order_by_distance rows) rows.
Proof.
  induction rows as [| r rows IH]; simpl; [constructor |].
  apply Permutation_trans with (r :: order_by_distance rows).
  - apply insert_row_perm.
  - now apply perm_skip.
Qed.

Lemma insert_row_sorted (r : JobPosting.t * Q)
    (rows : list (JobPosting.t * Q)) :
  Sorted (fun a b => (snd a <= snd b)%Q) rows ->
  Sorted (fun a b => (snd a <= snd b)%Q) (insert_row r rows).
Proof.
  induction 1 as [| r' rows Hrows IH Hhd]; simpl.
  - repeat constructor.
  - destruct (Qle_bool (snd r) (snd r')) eqn:Hle.
    + constructor; [now constructor |].
      constructor. now apply Qle_bool_iff.
    + assert (Hlt : (snd r' <= snd r)%Q).
      { apply Qlt_le_weak, Qnot_le_lt. intros Hc.
        apply Qle_bool_iff in Hc. congruence. }
      constructor; [exact IH |].
      destruct rows as [| r'' rows]; simpl.
      * now constructor.
      * destruct (Qle_bool (snd r) (snd r'')); constructor;
          [assumption | now inversion Hhd].
Qed.

Lemma order_by_distance_sorted (rows : list (JobPosting.t * Q)) :
  Sorted (fun a b => (snd a <= snd b)%Q) (order_by_distance rows).
Proof.
  induction rows as [| r rows IH]; simpl; [constructor |].
  now apply insert_row_sorted.
Qed.

Lemma Sorted_firstn (A : Type) (R : A -> A -> Prop) (n : nat) (l : list A) :
  Sorted R l -> Sorted R (firstn n l).
Proof.
  revert l. induction n as [| n IH]; intros l Hl; simpl; [constructor |].
  destruct Hl as [| a l Hl Hhd]; [constructor |].
  constructor; [now apply IH |].
  destruct n; simpl; [constructor |].
  destruct Hhd; constructor. assumption.
Qed.

Lemma In_firstn (A : Type) (n : nat) (l : list A) (x : A) :
  In x (firstn n l) -> In x l.
Proof.
  revert l. induction n as [| n IH]; intros l; simpl; [tauto |].
  destruct l as [| a l]; simpl; [tauto |].
  intros [H | H]; [now left | right; now apply IH].
Qed.

(** What one ranking query returns: rows of the table it ranks, nearest
    first, no more than the limit, each with its distance. *)
Lemma ranked_rows (env : Environment) (query : Vector)
    (table : list JobPosting.t) (limit : nat) :
  Sorted (fun a b => (snd a <= snd b)%Q) (ranked env query table limit)
  /\ (List.length (ranked env query table limit) <= limit)%nat
  /\ List.length (ranked env query table limit)
     = Nat.min limit (List.length table)
  /\ (forall row,
         In row (ranked env query table limit) ->
         In (fst row) table
         /\ snd row
            = cosine_distance env (JobPosting.skills_embedding (fst row))
                query).
Proof.
  unfold ranked. split; [| split; [| split]].
  - apply Sorted_firstn, order_by_distance_sorted.
  - rewrite length_firstn. lia.
  - rewrite length_firstn.
    rewrite (Permutation_length (order_by_distance_perm _)).
    now rewrite length_map.
  - intros row Hrow. apply In_firstn in Hrow.
    apply (Permutation_in row (order_by_distance_perm _)) in Hrow.
    apply in_map_iff in Hrow. destruct Hrow as [j [<- Hj]]. now split.
Qed.

(** X8.  What retrieval hands to the rest of the route is never empty and
    never more than ten rows; each row is a posting of the catalog paired
    with its distance to the encoded target role; and the rows come nearest
    first. *)
Theorem retrieved_rows_are_ranked (env : Environment)
    (request : RoadmapRequest.t) (db : Database)
    (rows : list (JobPosting.t * Q)) :
  retrieve env request db = inr rows ->
  rows <> []
  /\ (List.length rows <= 10)%nat
  /\ Sorted (fun a b => (snd a <= snd b)%Q) rows
  /\ (forall row,
         In row rows ->
         In (fst row) (job_postings db)
         /\ snd row
            = cosine_distance env (JobPosting.skills_embedding (fst row))
                (encode env (RoadmapRequest.target_role request))).
Proof.
  unfold retrieve, generate_embedding.
  destruct (PyStr.blank (RoadmapRequest.target_role request));
    cbn [bind raise ret]; [discriminate |].
  destruct (title_tier_total env db (RoadmapRequest.target_role request)
              (encode env (RoadmapRequest.target_role request)))
    as [first Hfirst].
  rewrite (two_tier_policy env db _ _ first Hfirst).
  assert (Hone :
    forall table limit,
      (limit <= 10)%nat ->
      (forall j, In j table -> In j (job_postings db)) ->
      ranked env (encode env (RoadmapRequest.target_role request)) table limit
      = rows ->
      rows <> [] ->
      rows <> []
      /\ (List.length rows <= 10)%nat
      /\ Sorted (fun a b => (snd a <= snd b)%Q) rows
      /\ (forall row,
             In row rows ->
             In (fst row) (job_postings db)
             /\ snd row
                = cosine_distance env
                    (JobPosting.skills_embedding (fst row))
                    (encode env (RoadmapRequest.target_role request)))).
  { intros table limit Hlimit Htable <- Hne.
    destruct (ranked_rows env
                (encode env (RoadmapRequest.target_role request))
                table limit) as [Hs [Hl [_ Hin]]].
    split; [assumption |]. split; [lia |]. split; [assumption |].
    intros row Hrow. destruct (Hin row Hrow) as [H1 H2]. split; auto. }
  unfold title_tier in Hfirst.
  destruct (Sql.parse_pattern _) as [pattern |]; [| discriminate].
  unfold ret in Hfirst. injection Hfirst as Hrows.
  destruct first as [| r first].
  - destruct (similarity_tier env db _) as [| r rest] eqn:Hsecond;
      [discriminate |].
    intros H. injection H as <-.
    apply (Hone (job_postings db) 5%nat);
      [lia | auto | exact Hsecond | discriminate].
  - intros H. injection H as <-.
    apply (Hone (filter (fun j => Sql.like pattern (JobPosting.title j))
                   (job_postings db)) 10%nat);
      [lia | | exact Hrows | discriminate].
    intros j Hj. now apply filter_In in Hj.
Qed.

Lemma retrieved_rows_are_ranked_witness :
  [(Sample.ai, (1 # 4)%Q); (Sample.backend, (1 # 2)%Q)] <> []
  /\ (List.length [(Sample.ai, (1 # 4)%Q); (Sample.backend, (1 # 2)%Q)]
      <= 10)%nat
  /\ Sorted (fun a b => (snd a <= snd b)%Q)
       [(Sample.ai, (1 # 4)%Q); (Sample.backend, (1 # 2)%Q)]
  /\ (forall row,
         In row [(Sample.ai, (1 # 4)%Q); (Sample.backend, (1 # 2)%Q)] ->
         In (fst row) (job_postings Sample.catalog)
         /\ snd row
            = cosine_distance (Sample.environment (Generated "[]"))
                (JobPosting.skills_embedding (fst row))
                (encode (Sample.environment (Generated "[]")) "Engineer")).
Proof.
  exact (retrieved_rows_are_ranked (Sample.environment (Generated "[]"))
           (Sample.request ["python"] "Engineer") Sample.catalog
           [(Sample.ai, (1 # 4)%Q); (Sample.backend, (1 # 2)%Q)] eq_refl).
Defined.

(** ** How the route can fail *)

Lemma week_counts_error (learning_path : list LearningStep.t)
    (e : Exception) :
  week_counts learning_path = inl e ->
  e = IndexError \/ exists msg, e = ValueError msg.
Proof.
  induction learning_path as [| s rest IH]; cbn [week_counts];
    [discriminate |].
  unfold first_token.
  destruct (PyStr.split (LearningStep.estimated_duration s)) as [| t ts];
    cbn [bind raise ret].
  - intros H. left. now inversion H.
  - destruct (PyStr.isdigit t); [| exact IH].
    destruct (PyStr.to_int t) as [e' | weeks] eqn:Ht; cbn [bind].
    + intros H. inversion H; subst. right. exact (to_int_error t e Ht).
    + destruct (week_counts rest) as [e' | counts]; cbn [bind ret];
        [| discriminate].
      intros H. inversion H; subst. now apply IH.
Qed.

Lemma estimated_timeline_error (learning_path : list LearningStep.t)
    (e : Exception) :
  estimated_timeline learning_path = inl e ->
  e = IndexError \/ exists msg, e = ValueError msg.
Proof.
  unfold estimated_timeline, total_duration.
  destruct (week_counts learning_path) as [e' | counts] eqn:H;
    cbn [bind ret]; [| discriminate].
  intros H'. inversion H'; subst. now apply week_counts_error in H.
Qed.

Lemma parse_learning_path_error (env : Environment) (text : string)
    (gaps : list string) (e : Exception) :
  parse_learning_path env text gaps = inl e ->
  e = TypeError \/ e = ValidationError.
Proof.
  unfold parse_learning_path.
  destruct (Json.loads (json_text text)) as [data |]; [| discriminate].
  destruct data; cbn [iterate bind raise ret];
    try (intros H; inversion H; now left);
    apply mapM_make_step_error.
Qed.

(** After retrieval, whatever is raised is turned into a status 500. *)
Lemma synthesize_error (env : Environment) (request : RoadmapRequest.t)
    (db : Database) (jobs : list (JobPosting.t * Q)) (e : Exception) :
  synthesize env request db jobs = inl e -> handle e = InternalError e.
Proof.
  unfold synthesize, build_prompt.
  destruct (RoadmapRequest.target_salary request) as [salary |];
    cbn [bind raise ret]; [| intros H; now inversion H].
  match goal with
  | |- context [generate_content env ?p] =>
      destruct (generate_content env p) as [e' | text] eqn:Hgen
  end; cbn [bind].
  - intros H. inversion H; subst. exact (retrying_error env _ 0 2 e Hgen).
  - match goal with
    | |- context [parse_learning_path env text ?g] =>
        destruct (parse_learning_path env text g) as [e' | path] eqn:Hparse
    end; cbn [bind].
    + intros H. inversion H; subst.
      apply parse_learning_path_error in Hparse.
      destruct Hparse; subst; reflexivity.
    + destruct (estimated_timeline path) as [e' | timeline] eqn:Htime;
        cbn [bind ret]; [| discriminate].
      intros H. inversion H; subst.
      apply estimated_timeline_error in Htime.
      destruct Htime as [-> | [msg ->]]; reflexivity.
Qed.

Lemma firstn_nil_inv (A : Type) (n : nat) (l : list A) :
  firstn (S n) l = [] -> l = [].
Proof.
  destruct l; [reflexivity | discriminate].
Qed.

(** Retrieval fails in two ways only: on a blank role, and with the 404 of
    an empty catalog. *)
Lemma retrieve_error (env : Environment) (request : RoadmapRequest.t)
    (db : Database) (e : Exception) :
  retrieve env request db = inl e ->
  (PyStr.all_space (RoadmapRequest.target_role request) = true
   /\ e = ValueError "Text cannot be empty")
  \/ (PyStr.all_space (RoadmapRequest.target_role request) = false
      /\ job_postings db = []
      /\ e = HTTPException 404 "No job postings found in database").
Proof.
  unfold retrieve, generate_embedding, PyStr.blank.
  destruct (PyStr.all_space (RoadmapRequest.target_role request));
    cbn [bind raise ret].
  - intros H. inversion H. now left.
  - destruct (title_tier_total env db (RoadmapRequest.target_role request)
                (encode env (RoadmapRequest.target_role request)))
      as [first Hfirst].
    rewrite (two_tier_policy env db _ _ first Hfirst).
    destruct first; [| discriminate].
    destruct (similarity_tier env db _) eqn:Hsecond; [| discriminate].
    intros H. inversion H. right. repeat split.
    unfold similarity_tier, ranked in Hsecond.
    apply firstn_nil_inv in Hsecond.
    pose proof (order_by_distance_perm
                  (map (fun j =>
                          (j, cosine_distance env
                                (JobPosting.skills_embedding j)
                                (encode env
                                   (RoadmapRequest.target_role request))))
                     (job_postings db))) as Hperm.
    rewrite Hsecond in Hperm. apply Permutation_nil in Hperm.
    now apply map_eq_nil in Hperm.
Qed.

Lemma retrieve_empty_catalog (env : Environment)
    (request : RoadmapRequest.t) (db : Database) :
  PyStr.all_space (RoadmapRequest.target_role request) = false ->
  job_postings db = [] ->
  retrieve env request db
  = inl (HTTPException 404 "No job postings found in database").
Proof.
  intros Hrole Hdb. unfold retrieve, generate_embedding, PyStr.blank.
  rewrite Hrole. cbn [bind ret].
  unfold find_similar_jobs, title_tier, similarity_tier.
  destruct (Sql.parse_pattern _) as [pattern |] eqn:Hpattern.
  - rewrite Hdb. reflexivity.
  - exfalso.
    destruct (role_pattern_accepted (RoadmapRequest.target_role request))
      as [_ H].
    exact (H "%"%char Hpattern).
Qed.

(** X9.  The route answers 404 exactly when the target role is not blank
    and the catalog holds no posting at all: as soon as there is one
    posting, the second query returns something, however far it is from the
    role. *)
Theorem not_found_means_empty_catalog (env : Environment)
    (request : RoadmapRequest.t) (db : Database) :
  fst (generate_roadmap env request db)
  = inl (Reraised 404 "No job postings found in database")
  <-> PyStr.all_space (RoadmapRequest.target_role request) = false
      /\ job_postings db = [].
Proof.
  unfold generate_roadmap, roadmap_body. split.
  - destruct (retrieve env request db) as [e | jobs] eqn:Hretrieve;
      cbn [bind].
    + cbn [fst]. intros H.
      apply retrieve_error in Hretrieve.
      destruct Hretrieve as [[_ ->] | [Hrole [Hdb _]]];
        [discriminate | now split].
    + destruct (synthesize env request db jobs) as [e | [response db']]
        eqn:Hs; cbn [fst]; [| discriminate].
      rewrite (synthesize_error env request db jobs e Hs). discriminate.
  - intros [Hrole Hdb].
    now rewrite (retrieve_empty_catalog env request db Hrole Hdb).
Qed.

(** X10.  A call that fails fails with the 404 of the empty catalog or with
    a status 500, nothing else, and leaves the database as it was. *)
Theorem failures_are_404_or_500 (env : Environment)
    (request : RoadmapRequest.t) (db : Database) (err : HTTPError) :
  fst (generate_roadmap env request db) = inl err ->
  snd (generate_roadmap env request db) = db
  /\ (err = Reraised 404 "No job postings found in database"
      \/ exists e, err = InternalError e /\ status_code err = 500).
Proof.
  unfold generate_roadmap, roadmap_body.
  destruct (retrieve env request db) as [e | jobs] eqn:Hretrieve; cbn [bind].
  - cbn [fst snd]. intros H. split; [reflexivity |].
    apply retrieve_error in Hretrieve.
    destruct Hretrieve as [[_ ->] | [_ [_ ->]]]; inversion H.
    + right. eexists. split; reflexivity.
    + now left.
  - destruct (synthesize env request db jobs) as [e | [response db']] eqn:Hs;
      cbn [fst snd]; [| discriminate].
    intros H. split; [reflexivity |].
    rewrite (synthesize_error env request db jobs e Hs) in H.
    inversion H. right. eexists. split; reflexivity.
Qed.

Lemma failures_are_404_or_500_witness :
  snd (generate_roadmap (Sample.environment (Generated Sample.missing_title))
         (Sample.request ["python"] "DevOps") Sample.devops_catalog)
  = Sample.devops_catalog
  /\ (InternalError ValidationError
      = Reraised 404 "No job postings found in database"
      \/ exists e,
          InternalError ValidationError = InternalError e
          /\ status_code (InternalError ValidationError) = 500).
Proof.
  exact (failures_are_404_or_500
           (Sample.environment (Generated Sample.missing_title))
           (Sample.request ["python"] "DevOps") Sample.devops_catalog
           (InternalError ValidationError) eq_refl).
Defined.

(** ** The score and the timeline of a response *)

(** X11.  Every roadmap the route returns carries a confidence score
    between 0 and 1, whatever the postings and the known skills. *)
Theorem response_confidence_is_a_fraction (env : Environment)
    (request : RoadmapRequest.t) (db : Database)
    (response : RoadmapResponse.t) :
  (forall l, Permutation (set_iter env l) l) ->
  fst (generate_roadmap env request db) = inr response ->
  (0 <= RoadmapResponse.confidence_score response <= 1)%Q.
Proof.
  intros Hperm H. apply generate_roadmap_success in H.
  destruct H as [jobs [learning_path [timeline [_ [_ [-> _]]]]]].
  cbn [response_with RoadmapResponse.confidence_score].
  apply confidence_score_bounds. unfold known_of, current_skills_set.
  now apply set_of_NoDup.
Qed.

Lemma response_confidence_is_a_fraction_witness :
  (0 <= RoadmapResponse.confidence_score
          (response_with (Sample.environment (Generated "No plan today."))
             (Sample.request ["python"] "DevOps") Sample.devops_catalog
             [(Sample.devops, (1 # 5)%Q)]
             [fallback_step ["Kubernetes"; "Terraform"; "Go"]] "0 weeks")
   <= 1)%Q.
Proof.
  exact (response_confidence_is_a_fraction
           (Sample.environment (Generated "No plan today."))
           (Sample.request ["python"] "DevOps") Sample.devops_catalog
           (response_with (Sample.environment (Generated "No plan today."))
              (Sample.request ["python"] "DevOps") Sample.devops_catalog
              [(Sample.devops, (1 # 5)%Q)]
              [fallback_step ["Kubernetes"; "Terraform"; "Go"]] "0 weeks")
           (fun l => Permutation_refl l) eq_refl).
Defined.

Lemma is_digit_value (c : ascii) :
  PyStr.is_digit c = true -> 0 <= PyStr.digit_value c.
Proof.
  unfold PyStr.is_digit, PyStr.digit_value. intros H.
  apply andb_prop in H. destruct H as [H _].
  apply Nat.leb_le in H. lia.
Qed.

Lemma int_acc_nonneg (s : string) (acc : Z) :
  PyStr.all_digits s = true -> 0 <= acc -> 0 <= PyStr.int_acc acc s.
Proof.
  revert acc. induction s as [| c s IH]; intros acc;
    cbn [PyStr.int_acc PyStr.all_digits]; [auto |].
  intros H Hacc. apply andb_prop in H. destruct H as [Hc Hs].
  apply IH; [assumption |]. pose proof (is_digit_value c Hc). lia.
Qed.

Lemma isdigit_int_nonneg (token : string) :
  PyStr.isdigit token = true -> 0 <= PyStr.int token.
Proof.
  unfold PyStr.isdigit, PyStr.int. destruct token; [discriminate |].
  intros H. apply int_acc_nonneg; [assumption | lia].
Qed.

Lemma week_counts_nonneg (learning_path : list LearningStep.t)
    (counts : list Z) :
  week_counts learning_path = inr counts -> 0 <= sum_list counts.
Proof.
  revert counts. induction learning_path as [| s rest IH]; intros counts;
    cbn [week_counts].
  - intros H. inversion H. reflexivity.
  - destruct (first_token (LearningStep.estimated_duration s)) as [e | t];
      cbn [bind]; [discriminate |].
    destruct (PyStr.isdigit t) eqn:Ht; [| apply IH].
    destruct (PyStr.to_int t) as [e | weeks] eqn:Hweeks; cbn [bind];
      [discriminate |].
    apply to_int_value in Hweeks. subst weeks.
    destruct (week_counts rest) as [e | counts']; cbn [bind ret];
      [discriminate |].
    intros H. inversion H. rewrite sum_list_cons.
    pose proof (isdigit_int_nonneg t Ht). pose proof (IH counts' eq_refl).
    lia.
Qed.

(** X12.  A timeline, when there is one, reads "n weeks" with n from 0 to
    51 or "n months" with n at least 13: the switch at 52 weeks divides by
    4, so no timeline is ever given as 1 to 12 months. *)
Theorem timeline_is_weeks_below_52_or_months_from_13
    (learning_path : list LearningStep.t) (timeline : string) :
  estimated_timeline learning_path = inr timeline ->
  exists n,
    (0 <= n < 52 /\ timeline = PyStr.str n ++ " weeks")
    \/ (13 <= n /\ timeline = PyStr.str n ++ " months").
Proof.
  unfold estimated_timeline, total_duration.
  destruct (week_counts learning_path) as [e | counts] eqn:Hcounts;
    cbn [bind ret]; [discriminate |].
  intros H. inversion H. apply week_counts_nonneg in Hcounts.
  unfold render_timeline.
  destruct (sum_list counts <? 52) eqn:Hlt.
  - exists (sum_list counts). left. apply Z.ltb_lt in Hlt. split; [lia | auto].
  - exists (sum_list counts / 4). right. apply Z.ltb_ge in Hlt.
    split; [| reflexivity].
    apply Z.div_le_lower_bound; lia.
Qed.

Lemma timeline_is_weeks_below_52_or_months_from_13_witness :
  exists n,
    (0 <= n < 52 /\ "15 months" = PyStr.str n ++ " weeks")
    \/ (13 <= n /\ "15 months" = PyStr.str n ++ " months").
Proof.
  exact (timeline_is_weeks_below_52_or_months_from_13
           (map Sample.step_lasting ["30 weeks"; "30 weeks"]) "15 months"
           eq_refl).
Defined.

(** ** The generator service *)

Lemma generate_once_ok (env : Environment) (prompt : Prompt.t) (n : nat)
    (text : string) :
  generate_once env prompt n = inr text ->
  model_generate env prompt n = Generated text /\ text <> EmptyString.
Proof.
  unfold generate_once.
  destruct (model_generate env prompt n) as [[| c t] | message];
    try discriminate.
  intros H. inversion H. split; [reflexivity | discriminate].
Qed.

(** X13.  [generate_content] calls the model at most three times and
    returns the text of the first call that answers with a text that is not
    empty; it never returns an empty text; and when it raises, all three
    calls have failed and the exception is that of the third. *)
Theorem generate_content_is_the_first_answer_of_three (env : Environment)
    (prompt : Prompt.t) :
  (forall text,
      generate_content env prompt = inr text ->
      text <> EmptyString
      /\ exists n,
          (n < 3)%nat
          /\ model_generate env prompt n = Generated text
          /\ forall k, (k < n)%nat ->
                       exists e, generate_once env prompt k = inl e)
  /\ (forall e,
         generate_content env prompt = inl e ->
         generate_once env prompt 2 = inl e
         /\ forall k, (k < 3)%nat ->
                      exists e', generate_once env prompt k = inl e').
Proof.
  unfold generate_content. cbn [retrying].
  destruct (generate_once env prompt 0) as [e0 | t0] eqn:H0.
  - destruct (generate_once env prompt 1) as [e1 | t1] eqn:H1.
    + destruct (generate_once env prompt 2) as [e2 | t2] eqn:H2.
      * split; [discriminate |].
        intros e H. inversion H; subst. split; [reflexivity |].
        intros k Hk.
        destruct k as [| [| [| k]]]; [eauto | eauto | eauto | lia].
      * split; [| discriminate].
        intros text H. inversion H; subst.
        destruct (generate_once_ok env prompt 2 text H2) as [Hm Hne].
        split; [assumption |]. exists 2%nat. repeat split; [lia | assumption |].
        intros k Hk. destruct k as [| [| k]]; [eauto | eauto | lia].
    + split; [| discriminate].
      intros text H. inversion H; subst.
      destruct (generate_once_ok env prompt 1 text H1) as [Hm Hne].
      split; [assumption |]. exists 1%nat. repeat split; [lia | assumption |].
      intros k Hk. destruct k as [| k]; [eauto | lia].
  - split; [| discriminate].
    intros text H. inversion H; subst.
    destruct (generate_once_ok env prompt 0 text H0) as [Hm Hne].
    split; [assumption |]. exists 0%nat. repeat split; [lia | assumption |].
    intros k Hk. lia.
Qed.

(** ** Answers that are JSON but not a list of steps *)

Lemma generate_roadmap_parse_error (env : Environment)
    (request : RoadmapRequest.t) (db : Database)
    (jobs : list (JobPosting.t * Q)) (prompt : Prompt.t) (text : string)
    (e : Exception) :
  retrieve env request db = inr jobs ->
  prompt_of env request jobs = inr prompt ->
  generate_content env prompt = inr text ->
  parse_learning_path env text (gaps_of env request jobs) = inl e ->
  generate_roadmap env request db = (inl (InternalError e), db).
Proof.
  intros Hjobs Hprompt Hgen Hparse.
  rewrite (generate_roadmap_retrieved env request db jobs Hjobs).
  rewrite (synthesize_generated env request db jobs prompt text Hprompt Hgen).
  rewrite Hparse. cbn [bind].
  apply parse_learning_path_error in Hparse.
  destruct Hparse; subst; reflexivity.
Qed.

(** X14.  An answer that decodes to an empty array, an empty object or an
    empty string gives a roadmap without a single step, with the timeline
    "0 weeks": the fallback step is used for text that is not JSON only. *)
Theorem empty_answer_gives_a_roadmap_without_steps (env : Environment)
    (request : RoadmapRequest.t) (db : Database)
    (jobs : list (JobPosting.t * Q)) (prompt : Prompt.t) (text : string)
    (data : Json.json) :
  retrieve env request db = inr jobs ->
  prompt_of env request jobs = inr prompt ->
  generate_content env prompt = inr text ->
  Json.loads (json_text text) = Some data ->
  data = Json.JArr [] \/ data = Json.JObj [] \/ data = Json.JStr EmptyString ->
  fst (generate_roadmap env request db)
  = inr (response_with env request db jobs [] "0 weeks").
Proof.
  intros Hjobs Hprompt Hgen Hjson Hdata.
  rewrite (generate_roadmap_retrieved env request db jobs Hjobs).
  rewrite (synthesize_generated env request db jobs prompt text Hprompt Hgen).
  unfold parse_learning_path. rewrite Hjson.
  destruct Hdata as [-> | [-> | ->]]; reflexivity.
Qed.

Lemma empty_answer_gives_a_roadmap_without_steps_witness :
  fst (generate_roadmap (Sample.environment (Generated "Here: [ ]"))
         (Sample.request ["python"] "DevOps") Sample.devops_catalog)
  = inr (response_with (Sample.environment (Generated "Here: [ ]"))
           (Sample.request ["python"] "DevOps") Sample.devops_catalog
           [(Sample.devops, (1 # 5)%Q)] [] "0 weeks").
Proof.
  exact (empty_answer_gives_a_roadmap_without_steps
           (Sample.environment (Generated "Here: [ ]"))
           (Sample.request ["python"] "DevOps") Sample.devops_catalog
           [(Sample.devops, (1 # 5)%Q)]
           (Prompt.mk "DevOps" "python" 120000%Q (Some 3%Q)
              "Kubernetes, Terraform, Go" EmptyString)
           "Here: [ ]" (Json.JArr [])
           eq_refl eq_refl eq_refl eq_refl (or_introl eq_refl)).
Defined.

(** X15.  An answer that is valid JSON but whose first element to iterate
    is no object fails with status 500 ([TypeError]) and no fallback: a
    number, a boolean, [null], an object or a string that is not empty, or
    an array whose first item is not an object. *)
Theorem json_that_is_no_list_of_objects_fails (env : Environment)
    (request : RoadmapRequest.t) (db : Database)
    (jobs : list (JobPosting.t * Q)) (prompt : Prompt.t) (text : string)
    (data : Json.json) :
  retrieve env request db = inr jobs ->
  prompt_of env request jobs = inr prompt ->
  generate_content env prompt = inr text ->
  Json.loads (json_text text) = Some data ->
  match data with
  | Json.JArr (Json.JObj _ :: _) | Json.JArr [] | Json.JObj []
  | Json.JStr EmptyString => False
  | _ => True
  end ->
  generate_roadmap env request db = (inl (InternalError TypeError), db).
Proof.
  intros Hjobs Hprompt Hgen Hjson Hdata.
  apply (generate_roadmap_parse_error env request db jobs prompt text
           TypeError Hjobs Hprompt Hgen).
  unfold parse_learning_path. rewrite Hjson.
  destruct data as [| b | n | x | s | items | members];
    try reflexivity.
  - destruct s; [contradiction | reflexivity].
  - destruct items as [| item items]; [contradiction |].
    destruct item; try contradiction; reflexivity.
  - destruct members as [| [k v] members]; [contradiction | reflexivity].
Qed.

Lemma json_that_is_no_list_of_objects_fails_witness :
  generate_roadmap (Sample.environment (Generated "42"))
    (Sample.request ["python"] "DevOps") Sample.devops_catalog
  = (inl (InternalError TypeError), Sample.devops_catalog).
Proof.
  exact (json_that_is_no_list_of_objects_fails
           (Sample.environment (Generated "42"))
           (Sample.request ["python"] "DevOps") Sample.devops_catalog
           [(Sample.devops, (1 # 5)%Q)]
           (Prompt.mk "DevOps" "python" 120000%Q (Some 3%Q)
              "Kubernetes, Terraform, Go" EmptyString)
           "42" (Json.JInt 42)
           eq_refl eq_refl eq_refl eq_refl I).
Defined.

Lemma validate_step_missing (env : Environment)
    (kwargs : list (string * Json.json)) :
  Json.get "step" kwargs = None
  \/ Json.get "title" kwargs = None
  \/ Json.get "description" kwargs = None
  \/ Json.get "estimated_duration" kwargs = None ->
  validate_step env kwargs = None.
Proof.
  unfold validate_step, required_field.
  intros [H | [H | [H | H]]]; rewrite H;
    repeat match goal with
           | |- match ?x with _ => _ end = None => destruct x
           end; reflexivity.
Qed.

Lemma mapM_fails_on_a_bad_item (env : Environment) (items : list Json.json)
    (j : Json.json) (e0 : Exception) :
  In j items ->
  make_step env j = inl e0 ->
  exists e, mapM (make_step env) items = inl e.
Proof.
  intros Hin Hj. induction items as [| i items IH]; [contradiction |].
  cbn [mapM]. destruct Hin as [-> | Hin].
  - rewrite Hj. eexists. reflexivity.
  - destruct (make_step env i) as [e | s]; cbn [bind];
      [eexists; reflexivity |].
    destruct (IH Hin) as [e He]. rewrite He. eexists. reflexivity.
Qed.

(** X16.  Once some object of the answered array lacks one of the four
    required fields (step, title, description, estimated_duration), the
    call fails with status 500 and stores nothing, whatever the other
    objects hold: there is no partial learning path and no fallback. *)
Theorem a_step_without_a_required_field_fails (env : Environment)
    (request : RoadmapRequest.t) (db : Database)
    (jobs : list (JobPosting.t * Q)) (prompt : Prompt.t) (text : string)
    (items : list Json.json) (kwargs : list (string * Json.json)) :
  retrieve env request db = inr jobs ->
  prompt_of env request jobs = inr prompt ->
  generate_content env prompt = inr text ->
  Json.loads (json_text text) = Some (Json.JArr items) ->
  In (Json.JObj kwargs) items ->
  Json.get "step" kwargs = None
  \/ Json.get "title" kwargs = None
  \/ Json.get "description" kwargs = None
  \/ Json.get "estimated_duration" kwargs = None ->
  exists e,
    generate_roadmap env request db = (inl (InternalError e), db)
    /\ (e = TypeError \/ e = ValidationError).
Proof.
  intros Hjobs Hprompt Hgen Hjson Hin Hmissing.
  assert (Hstep : make_step env (Json.JObj kwargs) = inl ValidationError).
  { unfold make_step. now rewrite (validate_step_missing env kwargs Hmissing). }
  destruct (mapM_fails_on_a_bad_item env items _ _ Hin Hstep) as [e He].
  exists e. split.
  - apply (generate_roadmap_parse_error env request db jobs prompt text e
             Hjobs Hprompt Hgen).
    unfold parse_learning_path. rewrite Hjson. cbn [iterate bind ret].
    exact He.
  - exact (mapM_make_step_error env items e He).
Qed.

Lemma a_step_without_a_required_field_fails_witness :
  exists e,
    generate_roadmap (Sample.environment (Generated Sample.missing_title))
      (Sample.request ["python"] "DevOps") Sample.devops_catalog
    = (inl (InternalError e), Sample.devops_catalog)
    /\ (e = TypeError \/ e = ValidationError).
Proof.
  apply (a_step_without_a_required_field_fails
           (Sample.environment (Generated Sample.missing_title))
           (Sample.request ["python"] "DevOps") Sample.devops_catalog
           [(Sample.devops, (1 # 5)%Q)]
           (Prompt.mk "DevOps" "python" 120000%Q (Some 3%Q)
              "Kubernetes, Terraform, Go" EmptyString)
           Sample.missing_title
           [Json.JObj [("step", Json.JInt 1);
                       ("description", Json.JStr "d");
                       ("estimated_duration", Json.JStr "2 weeks")]]
           [("step", Json.JInt 1);
            ("description", Json.JStr "d");
            ("estimated_duration", Json.JStr "2 weeks")]).
  - reflexivity.
  - reflexivity.
  - reflexivity.
  - vm_compute. reflexivity.
  - now left.
  - right. left. reflexivity.
Defined.

(** ** The skills of a description *)

Lemma lstrip_starts_clean (s : string) :
  match PyStr.lstrip s with
  | EmptyString => True
  | String c _ => PyStr.isspace c = false
  end.
Proof.
  induction s as [| c s IH]; simpl; [exact I |].
  destruct (PyStr.isspace c) eqn:Hc; [exact IH | exact Hc].
Qed.

Lemma lstrip_clean (s : string) :
  match s with
  | EmptyString => True
  | String c _ => PyStr.isspace c = false
  end ->
  PyStr.lstrip s = s.
Proof.
  destruct s as [| c s]; simpl; [reflexivity |].
  intros H. now rewrite H.
Qed.

Lemma rstrip_starts_clean (s : string) :
  match s with
  | EmptyString => True
  | String c _ => PyStr.isspace c = false
  end ->
  match PyStr.rstrip s with
  | EmptyString => True
  | String c _ => PyStr.isspace c = false
  end.
Proof.
  destruct s as [| c s]; simpl; [auto |].
  intros Hc. destruct (PyStr.rstrip s); [now rewrite Hc | exact Hc].
Qed.

Lemma rstrip_idem (s : string) :
  PyStr.rstrip (PyStr.rstrip s) = PyStr.rstrip s.
Proof.
  induction s as [| c s IH]; [reflexivity |].
  cbn [PyStr.rstrip]. destruct (PyStr.rstrip s) as [| d t] eqn:Hr.
  - destruct (PyStr.isspace c) eqn:Hc; [reflexivity |].
    cbn [PyStr.rstrip]. now rewrite Hc.
  - cbn [PyStr.rstrip]. cbn [PyStr.rstrip] in IH.
    destruct (PyStr.rstrip t) as [| d' t'] eqn:Ht.
    + destruct (PyStr.isspace d); [discriminate IH |].
      inversion IH. reflexivity.
    + inversion IH. reflexivity.
Qed.

(** Trimming twice is trimming once. *)
Lemma strip_idem (s : string) : PyStr.strip (PyStr.strip s) = PyStr.strip s.
Proof.
  unfold PyStr.strip.
  rewrite (lstrip_clean (PyStr.rstrip (PyStr.lstrip s))).
  - apply rstrip_idem.
  - apply rstrip_starts_clean, lstrip_starts_clean.
Qed.

Lemma split_at_first_delimiter_trimmed (ds : list ascii) (text s : string) :
  In s (split_at_first_delimiter ds text) -> PyStr.strip s = s.
Proof.
  induction ds as [| d ds IH]; simpl; [tauto |].
  destruct (Re.occurs d text); [| exact IH].
  intros H. apply in_map_iff in H. destruct H as [t [<- _]].
  apply strip_idem.
Qed.

Lemma candidate_skills_trimmed (text s : string) :
  In s match split_at_first_delimiter delimiters text with
       | [] => [PyStr.strip text]
       | _ :: _ => split_at_first_delimiter delimiters text
       end ->
  PyStr.strip s = s.
Proof.
  destruct (split_at_first_delimiter delimiters text) as [| p ps] eqn:H.
  - intros [<- | []]. apply strip_idem.
  - rewrite <- H. apply split_at_first_delimiter_trimmed.
Qed.

(** X17.  Whatever the description, [extract_skills_from_desc] returns at
    most ten skills, and each of them is not empty, shorter than 50
    characters and free of blanks at both ends; a missing or empty
    description gives none. *)
Theorem extracted_skills_are_clean (skills_desc : option string) :
  (List.length (extract_skills_from_desc skills_desc) <= 10)%nat
  /\ (forall s,
         In s (extract_skills_from_desc skills_desc) ->
         s <> EmptyString
         /\ (String.length s < 50)%nat
         /\ PyStr.strip s = s)
  /\ extract_skills_from_desc None = []
  /\ extract_skills_from_desc (Some EmptyString) = [].
Proof.
  split; [| split; [| split; reflexivity]].
  - destruct skills_desc as [[| c text] |]; cbn [extract_skills_from_desc];
      try (simpl; lia).
    rewrite length_firstn. lia.
  - intros s. destruct skills_desc as [[| c text] |];
      cbn [extract_skills_from_desc]; try (intros []).
    intros H. apply In_firstn in H. apply filter_In in H.
    destruct H as [Hin Hok].
    unfold plausible_skill in Hok. apply andb_prop in Hok.
    destruct Hok as [Hne Hlen].
    split; [| split].
    + intros ->. discriminate Hne.
    + now apply Nat.ltb_lt.
    + exact (candidate_skills_trimmed (String c text) s Hin).
Qed.

Lemma split_on_nonempty (sep : ascii) (s : string) : split_on sep s <> [].
Proof.
  destruct s as [| c s]; simpl; [discriminate |].
  destruct (Ascii.eqb c sep); [discriminate |].
  destruct (split_on sep s); discriminate.
Qed.

Lemma split_on_free_of_sep (sep : ascii) (s : string) :
  Forall (fun piece => Re.occurs sep piece = false) (split_on sep s).
Proof.
  induction s as [| c s IH]; simpl; [repeat constructor |].
  destruct (Ascii.eqb c sep) eqn:Hc; [now constructor |].
  destruct (split_on sep s) as [| piece pieces].
  - repeat constructor. simpl. now rewrite Hc.
  - inversion IH as [| ? ? Hpiece Hpieces]; subst.
    constructor; [| assumption]. simpl. now rewrite Hc, Hpiece.
Qed.

Lemma occurs_lstrip (c : ascii) (s : string) :
  Re.occurs c s = false -> Re.occurs c (PyStr.lstrip s) = false.
Proof.
  induction s as [| d s IH]; simpl; [auto |].
  intros H. apply orb_false_elim in H. destruct H as [Hd Hs].
  destruct (PyStr.isspace d); [now apply IH |].
  simpl. now rewrite Hd, Hs.
Qed.

Lemma occurs_rstrip (c : ascii) (s : string) :
  Re.occurs c s = false -> Re.occurs c (PyStr.rstrip s) = false.
Proof.
  induction s as [| d s IH]; simpl; [auto |].
  intros H. apply orb_false_elim in H. destruct H as [Hd Hs].
  specialize (IH Hs). destruct (PyStr.rstrip s) as [| e t].
  - destruct (PyStr.isspace d); [reflexivity |]. simpl. now rewrite Hd.
  - cbn [Re.occurs]. cbn [Re.occurs] in IH. now rewrite Hd, IH.
Qed.

Lemma occurs_strip (c : ascii) (s : string) :
  Re.occurs c s = false -> Re.occurs c (PyStr.strip s) = false.
Proof.
  intros H. unfold PyStr.strip. now apply occurs_rstrip, occurs_lstrip.
Qed.

Lemma split_at_first_present (before after : list ascii) (d : ascii)
    (text : string) :
  (forall b, In b before -> Re.occurs b text = false) ->
  Re.occurs d text = true ->
  split_at_first_delimiter (before ++ d :: after) text
  = map PyStr.strip (split_on d text).
Proof.
  intros Hbefore Hd. induction before as [| b before IH]; simpl.
  - now rewrite Hd.
  - rewrite (Hbefore b (or_introl eq_refl)). apply IH.
    intros x Hx. apply Hbefore. now right.
Qed.

(** X18.  The description is cut at one delimiter only: the first of comma,
    semicolon, bar and line feed that it contains.  The skills are then the
    trimmed pieces between the occurrences of that delimiter (the plausible
    ones, ten at most), so none of them contains it, while the delimiters
    later in the list stay inside the skills. *)
Theorem skills_are_cut_at_the_first_delimiter_present (text : string)
    (before after : list ascii) (d : ascii) :
  delimiters = (before ++ d :: after)%list ->
  (forall b, In b before -> Re.occurs b text = false) ->
  Re.occurs d text = true ->
  extract_skills_from_desc (Some text)
  = firstn 10 (filter plausible_skill (map PyStr.strip (split_on d text)))
  /\ forall s,
      In s (extract_skills_from_desc (Some text)) -> Re.occurs d s = false.
Proof.
  intros Hds Hbefore Hd.
  assert (Hcut : extract_skills_from_desc (Some text)
                 = firstn 10
                     (filter plausible_skill
                        (map PyStr.strip (split_on d text)))).
  { destruct text as [| c text]; [discriminate Hd |].
    cbn [extract_skills_from_desc]. rewrite Hds.
    rewrite (split_at_first_present before after d _ Hbefore Hd).
    destruct (map PyStr.strip (split_on d (String c text))) eqn:Hmap;
      [| reflexivity].
    apply map_eq_nil in Hmap. now apply split_on_nonempty in Hmap. }
  split; [exact Hcut |].
  intros s Hs. rewrite Hcut in Hs.
  apply In_firstn in Hs. apply filter_In in Hs. destruct Hs as [Hs _].
  apply in_map_iff in Hs. destruct Hs as [piece [<- Hpiece]].
  apply occurs_strip.
  pose proof (split_on_free_of_sep d text) as Hfree.
  rewrite Forall_forall in Hfree. now apply Hfree.
Qed.

Lemma skills_are_cut_at_the_first_delimiter_present_witness :
  extract_skills_from_desc (Some "ci/cd; docker , k8s,")
  = firstn 10
      (filter plausible_skill
         (map PyStr.strip (split_on ","%char "ci/cd; docker , k8s,")))
  /\ forall s,
      In s (extract_skills_from_desc (Some "ci/cd; docker , k8s,")) ->
      Re.occurs ","%char s = false.
Proof.
  apply (skills_are_cut_at_the_first_delimiter_present
           "ci/cd; docker , k8s," [] [";"%char; "|"%char; "010"%char]
           ","%char).
  - reflexivity.
  - intros b Hb. destruct Hb.
  - reflexivity.
Defined.

(** ** Matching jobs *)

Lemma insert_nearest_perm (A : Type) (r : A * Q) (rows : list (A * Q)) :
  Permutation (insert_nearest r rows) (r :: rows).
Proof.
  induction rows as [| r' rows IH]; simpl; [apply Permutation_refl |].
  destruct (Qle_bool (snd r) (snd r')); [apply Permutation_refl |].
  apply Permutation_trans with (r' :: r :: rows).
  - now apply perm_skip.
  - apply perm_swap.
Qed.

Lemma nearest_first_perm (A : Type) (rows : list (A * Q)) :
  Permutation (nearest_first rows) rows.
Proof.
  induction rows as [| r rows IH]; simpl; [constructor |].
  apply Permutation_trans with (r :: nearest_first rows).
  - apply insert_nearest_perm.
  - now apply perm_skip.
Qed.

Lemma insert_nearest_sorted (A : Type) (r : A * Q) (rows : list (A * Q)) :
  Sorted (fun a b => (snd a <= snd b)%Q) rows ->
  Sorted (fun a b => (snd a <= snd b)%Q) (insert_nearest r rows).
Proof.
  induction 1 as [| r' rows Hrows IH Hhd]; simpl.
  - repeat constructor.
  - destruct (Qle_bool (snd r) (snd r')) eqn:Hle.
    + constructor; [now constructor |].
      constructor. now apply Qle_bool_iff.
    + assert (Hlt : (snd r' <= snd r)%Q).
      { apply Qlt_le_weak, Qnot_le_lt. intros Hc.
        apply Qle_bool_iff in Hc. congruence. }
      constructor; [exact IH |].
      destruct rows as [| r'' rows]; simpl.
      * now constructor.
      * destruct (Qle_bool (snd r) (snd r'')); constructor;
          [assumption | now inversion Hhd].
Qed.

Lemma nearest_first_sorted (A : Type) (rows : list (A * Q)) :
  Sorted (fun a b => (snd a <= snd b)%Q) (nearest_first rows).
Proof.
  induction rows as [| r rows IH]; simpl; [constructor |].
  now apply insert_nearest_sorted.
Qed.

(** The ordering of the roadmap route's queries is this one. *)
Lemma order_by_distance_nearest_first (rows : list (JobPosting.t * Q)) :
  order_by_distance rows = nearest_first rows.
Proof.
  unfold order_by_distance, nearest_first.
  induction rows as [| r rows IH]; simpl; [reflexivity |].
  rewrite IH. generalize (fold_right insert_nearest [] rows).
  intros l. induction l as [| r' l IHl]; simpl; [reflexivity |].
  now rewrite IHl.
Qed.

Lemma salary_filter_floor (floor : Q) (row : JobRow.t) :
  salary_filter (Some floor) row = true ->
  ~ (floor == 0)%Q ->
  exists salary,
    JobRow.salary_min row = Some salary /\ (floor <= salary)%Q.
Proof.
  unfold salary_filter. intros H Hnz.
  destruct (Qeq_bool floor 0) eqn:Hz.
  - apply Qeq_bool_iff in Hz. contradiction.
  - destruct (JobRow.salary_min row) as [salary |]; [| discriminate].
    exists salary. split; [reflexivity | now apply Qle_bool_iff].
Qed.

Lemma equality_filter_value (value : string) (column : option string) :
  equality_filter (Some value) column = true ->
  value <> EmptyString ->
  column = Some value.
Proof.
  unfold equality_filter. destruct value as [| c value]; [congruence |].
  destruct column as [actual |]; [| discriminate].
  intros H _. apply String.eqb_eq in H. now subst.
Qed.

(** X19.  The rows [match_jobs] answers with are rows of the table, at
    most [limit] of them, nearest first, and each passes every filter that
    was asked for: its minimum salary is known and not below a floor other
    than zero, and its experience level and remote type are the ones named
    when a name that is not empty is given. *)
Theorem matched_rows_pass_the_filters (env : Environment)
    (request : JobMatchRequest.t) (table : list JobRow.t) (query : Vector) :
  (List.length (matching_rows env request table query)
   <= JobMatchRequest.limit request)%nat
  /\ Sorted (fun a b => (snd a <= snd b)%Q)
       (matching_rows env request table query)
  /\ forall row,
      In row (matching_rows env request table query) ->
      In (fst row) table
      /\ snd row
         = cosine_distance env
             (JobPosting.skills_embedding (JobRow.posting (fst row))) query
      /\ (forall floor,
             JobMatchRequest.min_salary request = Some floor ->
             ~ (floor == 0)%Q ->
             exists salary,
               JobRow.salary_min (fst row) = Some salary
               /\ (floor <= salary)%Q)
      /\ (forall level,
             JobMatchRequest.experience_level request = Some level ->
             level <> EmptyString ->
             JobRow.experience_level (fst row) = Some level)
      /\ (forall kind,
             JobMatchRequest.remote_type request = Some kind ->
             kind <> EmptyString ->
             JobRow.remote_type (fst row) = Some kind).
Proof.
  unfold matching_rows. split; [| split].
  - rewrite length_firstn. lia.
  - apply Sorted_firstn, nearest_first_sorted.
  - intros row Hrow. apply In_firstn in Hrow.
    apply (Permutation_in row (nearest_first_perm _ _)) in Hrow.
    apply in_map_iff in Hrow. destruct Hrow as [r [<- Hr]].
    apply filter_In in Hr. destruct Hr as [Hin Hpass].
    unfold passes_filters in Hpass.
    apply andb_prop in Hpass. destruct Hpass as [Hpass Hremote].
    apply andb_prop in Hpass. destruct Hpass as [Hsalary Hlevel].
    cbn [fst snd]. split; [assumption |]. split; [reflexivity |].
    split; [| split].
    + intros floor Hfloor Hnz. rewrite Hfloor in Hsalary.
      now apply salary_filter_floor.
    + intros level Hl Hne. rewrite Hl in Hlevel.
      now apply equality_filter_value.
    + intros kind Hk Hne. rewrite Hk in Hremote.
      now apply equality_filter_value.
Qed.

Lemma missing_skills_In (env : Environment) (required user : list string)
    (m : string) :
  (forall l, Permutation (set_iter env l) l) ->
  In m (missing_skills env required user) <-> In m required /\ ~ In m user.
Proof.
  intros Hperm. unfold missing_skills. split; intros H.
  - apply (Permutation_in m (Hperm _)) in H.
    now rewrite filter_In, negb_true_iff, mem_false in H.
  - apply (Permutation_in m (Permutation_sym (Hperm _))).
    now rewrite filter_In, negb_true_iff, mem_false.
Qed.

(** X20.  In every result of [match_jobs] the missing skills are exactly
    the lower-cased required skills of the posting that are not among the
    lower-cased skills of the request, each listed once: both sides are
    lower-cased before the difference, so a skill that differs by case only
    is never reported missing. *)
Theorem missing_skills_are_the_lowercase_difference (env : Environment)
    (round3 : Q -> Q) (request : JobMatchRequest.t) (table : list JobRow.t)
    (results : list JobMatchResult.t) :
  (forall l, Permutation (set_iter env l) l) ->
  match_jobs env round3 request table = inr results ->
  forall result,
    In result results ->
    NoDup (JobMatchResult.missing_skills result)
    /\ (forall m,
           In m (JobMatchResult.missing_skills result)
           <-> In m (map PyStr.lower (JobMatchResult.required_skills result))
               /\ ~ In m (map PyStr.lower (JobMatchRequest.skills request)))
    /\ (forall skill known,
           In skill (JobMatchResult.required_skills result) ->
           In known (JobMatchRequest.skills request) ->
           PyStr.lower skill = PyStr.lower known ->
           ~ In (PyStr.lower skill) (JobMatchResult.missing_skills result)).
Proof.
  intros Hperm Hmatch result Hresult. unfold match_jobs in Hmatch.
  destruct (generate_embedding env _) as [e | query]; [discriminate |].
  injection Hmatch as <-.
  apply in_map_iff in Hresult. destruct Hresult as [row [<- _]].
  cbn [match_result JobMatchResult.missing_skills
         JobMatchResult.required_skills].
  set (required := match JobPosting.required_skills
                           (JobRow.posting (fst row)) with
                   | Some l => l
                   | None => []
                   end).
  assert (Hiff : forall m,
             In m (missing_skills env (set_of env (map PyStr.lower required))
                     (current_skills_set env
                        (JobMatchRequest.skills request)))
             <-> In m (map PyStr.lower required)
                 /\ ~ In m (map PyStr.lower
                              (JobMatchRequest.skills request))).
  { intros m. rewrite (missing_skills_In env _ _ m Hperm).
    unfold current_skills_set. now rewrite !(set_of_In env Hperm). }
  split; [| split].
  - unfold missing_skills.
    apply (Permutation_NoDup (Permutation_sym (Hperm _))).
    apply NoDup_filter. now apply set_of_NoDup.
  - exact Hiff.
  - intros skill known _ Hknown Heq Hin. apply Hiff in Hin.
    destruct Hin as [_ Hnot]. apply Hnot. rewrite Heq. now apply in_map.
Qed.

Lemma missing_skills_are_the_lowercase_difference_witness :
  NoDup (JobMatchResult.missing_skills MatchSample.first_result)
  /\ (forall m,
         In m (JobMatchResult.missing_skills MatchSample.first_result)
         <-> In m (map PyStr.lower
                     (JobMatchResult.required_skills
                        MatchSample.first_result))
             /\ ~ In m (map PyStr.lower
                          (JobMatchRequest.skills MatchSample.request)))
  /\ (forall skill known,
         In skill (JobMatchResult.required_skills MatchSample.first_result) ->
         In known (JobMatchRequest.skills MatchSample.request) ->
         PyStr.lower skill = PyStr.lower known ->
         ~ In (PyStr.lower skill)
             (JobMatchResult.missing_skills MatchSample.first_result)).
Proof.
  apply (missing_skills_are_the_lowercase_difference
           MatchSample.environment MatchSample.exact MatchSample.request
           MatchSample.table MatchSample.results).
  - intros l. apply Permutation_refl.
  - vm_compute. reflexivity.
  - left. reflexivity.
Defined.

Lemma all_space_app (a b : string) :
  PyStr.all_space (a ++ b) = PyStr.all_space a && PyStr.all_space b.
Proof.
  induction a as [| c a IH]; simpl; [reflexivity |].
  now rewrite IH, andb_assoc.
Qed.

Lemma join_blank (skills : list string) :
  PyStr.all_space (PyStr.join ", " skills) = true
  <-> skills = []
      \/ exists s, skills = [s] /\ PyStr.all_space s = true.
Proof.
  unfold PyStr.join. destruct skills as [| s [| s' skills]].
  - simpl. split; [now left | reflexivity].
  - simpl. split.
    + intros H. right. now exists s.
    + intros [H | [t [H Ht]]]; [discriminate |]. now inversion H; subst.
  - change (String.concat ", " (s :: s' :: skills))
      with (s ++ ", " ++ String.concat ", " (s' :: skills)).
    rewrite all_space_app. cbn [append PyStr.all_space].
    change (PyStr.isspace ",") with false.
    rewrite andb_false_l, andb_false_r. split; [discriminate |].
    intros [H | [t [H _]]]; discriminate.
Qed.

(** X21.  [match_jobs] fails, with status 500 and the encoder service's
    "Text cannot be empty", exactly when no skill is given or the only
    skill given is blank; two skills or more are always matched, blank or
    not, because the comma that joins them is text. *)
Theorem match_jobs_fails_on_a_single_blank_skill (env : Environment)
    (round3 : Q -> Q) (request : JobMatchRequest.t) (table : list JobRow.t) :
  (forall err,
      match_jobs env round3 request table = inl err ->
      err = InternalError (ValueError "Text cannot be empty"))
  /\ ((exists err, match_jobs env round3 request table = inl err)
      <-> JobMatchRequest.skills request = []
          \/ exists s,
              JobMatchRequest.skills request = [s]
              /\ PyStr.all_space s = true).
Proof.
  unfold match_jobs, generate_embedding, PyStr.blank.
  rewrite <- join_blank.
  destruct (PyStr.all_space (PyStr.join ", " (JobMatchRequest.skills request)));
    cbn [raise ret].
  - split.
    + intros err H. now inversion H.
    + split; [reflexivity | intros _; eexists; reflexivity].
  - split.
    + intros err H. discriminate H.
    + split; [intros [err H]; discriminate H | discriminate].
Qed.

(** ** What the decoder makes of a span *)

Lemma last_kind_cons (k : bool) (f : Json.frame) (stack : list Json.frame) :
  stack <> [] ->
  last (map frame_is_object (f :: stack)) (negb k)
  = last (map frame_is_object stack) (negb k).
Proof.
  destruct stack as [| g stack]; [congruence | reflexivity].
Qed.

Lemma last_kind_top (k : bool) (f g : Json.frame) (stack : list Json.frame) :
  frame_is_object f = frame_is_object g ->
  last (map frame_is_object (f :: stack)) (negb k)
  = last (map frame_is_object (g :: stack)) (negb k).
Proof.
  intros H. destruct stack as [| h stack]; simpl; [exact H | reflexivity].
Qed.

Lemma deliver_outermost (k : bool) (v : Json.json)
    (stack stack' : list Json.frame) (m' : Json.mode) :
  match stack with
  | [] => container v = Some k
  | _ :: _ => last (map frame_is_object stack) (negb k) = k
  end ->
  Json.deliver v stack = Some (stack', m') ->
  outermost k stack' m'.
Proof.
  intros Hinv Hd. destruct stack as [| f stack]; simpl in Hd.
  - injection Hd as <- <-. simpl. now exists v.
  - destruct f as [items | members [key |]]; [| | discriminate];
      injection Hd as <- <-; (split; [| discriminate]);
      (etransitivity; [| exact Hinv]); now apply last_kind_top.
Qed.

Lemma pop_outermost (k : bool) (v : Json.json) (f : Json.frame)
    (stack : list Json.frame) :
  last (map frame_is_object (f :: stack)) (negb k) = k ->
  container v = Some (frame_is_object f) ->
  match stack with
  | [] => container v = Some k
  | _ :: _ => last (map frame_is_object stack) (negb k) = k
  end.
Proof.
  destruct stack as [| g stack]; intros H Hv; [| exact H].
  simpl in H. now rewrite Hv, H.
Qed.

Lemma parse_step_outermost (k : bool) (stack stack' : list Json.frame)
    (m m' : Json.mode) (t : Json.token) :
  outermost k stack m ->
  Json.parse_step stack m t = Some (stack', m') ->
  outermost k stack' m'.
Proof.
  intros Hinv Hstep. destruct stack as [| f stack].
  - destruct Hinv as [v [-> _]]. discriminate Hstep.
  - destruct Hinv as [Hinv _].
    assert (Hpop : forall v,
               container v = Some (frame_is_object f) ->
               Json.deliver v stack = Some (stack', m') ->
               outermost k stack' m').
    { intros v Hv. apply deliver_outermost.
      now apply (pop_outermost k v f stack). }
    destruct m as [[] | [] | | | v]; destruct t as [| | | | | | v'];
      cbn [Json.parse_step] in Hstep; try discriminate Hstep;
      try (destruct v'; try discriminate Hstep);
      destruct f as [[| ? ?] | [| ? ?] [? |]];
      try discriminate Hstep;
      first
        [ solve [ injection Hstep as <- <-; split; [| discriminate];
                  first [ exact Hinv
                        | etransitivity; [| exact Hinv];
                          now apply last_kind_top ] ]
        | solve [ eapply Hpop; [| exact Hstep]; reflexivity ]
        | solve [ eapply deliver_outermost; [| exact Hstep]; exact Hinv ] ].
Qed.

Lemma parse_outermost (k : bool) (ts : list Json.token)
    (stack : list Json.frame) (m : Json.mode) (v : Json.json) :
  outermost k stack m ->
  Json.parse stack m ts = Some v ->
  container v = Some k.
Proof.
  revert stack m. induction ts as [| t ts IH]; intros stack m Hinv Hp.
  - simpl in Hp. destruct m; try discriminate. injection Hp as ->.
    destruct stack as [| f stack].
    + destruct Hinv as [w [Hw Hk]]. now injection Hw as ->.
    + destruct Hinv as [_ Hm]. now destruct (Hm v).
  - simpl in Hp.
    destruct (Json.parse_step stack m t) as [[stack' m'] |] eqn:Hstep;
      [| discriminate].
    exact (IH stack' m' (parse_step_outermost k _ _ _ _ _ Hinv Hstep) Hp).
Qed.

Lemma lex_cons (st : Json.lex_state) (c : ascii) (s : string) :
  Json.lex st (String c s)
  = match Json.lex_step st c with
    | Some (ts, st') => option_map (app ts) (Json.lex st' s)
    | None => None
    end.
Proof. reflexivity. Qed.

(** A text that opens with a bracket decodes to an array or not at all,
    and one that opens with a brace to an object or not at all. *)
Lemma loads_bracket (s : string) (v : Json.json) :
  Json.loads (String "[" s) = Some v -> exists items, v = Json.JArr items.
Proof.
  unfold Json.loads. rewrite lex_cons.
  change (Json.lex_step Json.LStart "[")
    with (Some ([Json.TLBracket], Json.LStart)).
  cbv beta iota.
  destruct (Json.lex Json.LStart s) as [ts |];
    cbn [option_map app Json.parse Json.parse_step]; [| discriminate].
  intros Hp. apply (parse_outermost false) in Hp.
  - destruct v; try discriminate. now eexists.
  - split; [reflexivity | discriminate].
Qed.

Lemma loads_brace (s : string) (v : Json.json) :
  Json.loads (String "{" s) = Some v -> exists members, v = Json.JObj members.
Proof.
  unfold Json.loads. rewrite lex_cons.
  change (Json.lex_step Json.LStart "{")
    with (Some ([Json.TLBrace], Json.LStart)).
  cbv beta iota.
  destruct (Json.lex Json.LStart s) as [ts |];
    cbn [option_map app Json.parse Json.parse_step]; [| discriminate].
  intros Hp. apply (parse_outermost true) in Hp.
  - destruct v; try discriminate. now eexists.
  - split; [reflexivity | discriminate].
Qed.

Lemma span_search_starts (open close : ascii) (s span : string) :
  Span.search open close s = Some span ->
  exists rest, span = String open rest.
Proof.
  induction s as [| c s IH]; cbn [Span.search Span.match_here];
    [discriminate |].
  destruct (Ascii.eqb c open) eqn:Hc.
  - apply Ascii.eqb_eq in Hc. subst c.
    destruct (Span.upto_last close s) as [m |]; cbn [option_map].
    + intros H. injection H as <-. now eexists.
    + exact IH.
  - exact IH.
Qed.

(** The pattern of the roadmap route is the instance of the brackets. *)
Lemma search_is_span_search (s : string) :
  Re.search s = Span.search "[" "]" s.
Proof.
  assert (Hupto : forall t, Re.upto_last_close t = Span.upto_last "]" t).
  { induction t as [| c t IH]; [reflexivity |].
    cbn [Re.upto_last_close Span.upto_last]. now rewrite IH. }
  induction s as [| c s IH]; [reflexivity |].
  cbn [Re.search Span.search Span.match_here].
  rewrite match_here_cons, IH, Hupto.
  destruct (Ascii.eqb c "[") eqn:Hc; [| reflexivity].
  apply Ascii.eqb_eq in Hc. now subst c.
Qed.

(** X22.  When the bracket pattern matches the answer and the match
    decodes, what it decodes to is a list: the loop over the decoded value
    never runs over the keys of a dict or the characters of a string in
    that case. *)
Theorem a_decoded_match_is_a_list (response span : string)
    (learning_path_data : Json.json) :
  Re.search response = Some span ->
  Json.loads (json_text response) = Some learning_path_data ->
  exists items, learning_path_data = Json.JArr items.
Proof.
  intros Hsearch. unfold json_text. rewrite Hsearch.
  rewrite search_is_span_search in Hsearch.
  apply span_search_starts in Hsearch. destruct Hsearch as [rest ->].
  apply loads_bracket.
Qed.

Lemma a_decoded_match_is_a_list_witness :
  exists items, Json.JArr [Json.JInt 1; Json.JInt 2] = Json.JArr items.
Proof.
  apply (a_decoded_match_is_a_list "Plan: [1, 2] done" "[1, 2]"
           (Json.JArr [Json.JInt 1; Json.JInt 2])).
  - vm_compute. reflexivity.
  - vm_compute. reflexivity.
Defined.

(** X23.  [analyze_skill_gap] on an answer in which some opening brace has
    a closing brace after it, the span from the first opening brace to the
    last closing one being within the interpreter's limits, returns a dict:
    the object that span decodes to, or, when the span does not decode, the
    analysis with no priority skill and no learning sequence. *)
Theorem a_braced_answer_gives_a_dict (env : Environment)
    (response span : string) :
  Span.search "{" "}" response = Some span ->
  Json.within_limits (recursion_room env) span = true ->
  exists members,
    analyze_skill_gap (inr response) = inr (Json.JObj members)
    /\ (Json.loads span = Some (Json.JObj members)
        \/ Json.loads span = None
           /\ Json.JObj members = empty_analysis).
Proof.
  intros Hsearch _. unfold analyze_skill_gap, decode_analysis.
  cbn [bind ret]. rewrite Hsearch.
  apply span_search_starts in Hsearch. destruct Hsearch as [rest ->].
  destruct (Json.loads (String "{" rest)) as [analysis |] eqn:Hloads.
  - destruct (loads_brace rest analysis Hloads) as [members ->].
    exists members. split; [reflexivity | now left].
  - eexists. split; [reflexivity |]. right. split; reflexivity.
Qed.

Lemma a_braced_answer_gives_a_dict_witness :
  exists members,
    analyze_skill_gap (inr "Here: {oops} and {}") = inr (Json.JObj members)
    /\ (Json.loads "{oops} and {}" = Some (Json.JObj members)
        \/ Json.loads "{oops} and {}" = None
           /\ Json.JObj members = empty_analysis).
Proof.
  apply (a_braced_answer_gives_a_dict MatchSample.environment
           "Here: {oops} and {}" "{oops} and {}").
  - vm_compute. reflexivity.
  - vm_compute. reflexivity.
Defined.

(** ** Skills *)

Lemma insert_by_perm (A : Type) (le : A -> A -> bool) (r : A)
    (rows : list A) :
  Permutation (insert_by le r rows) (r :: rows).
Proof.
  induction rows as [| r' rows IH]; simpl; [apply Permutation_refl |].
  destruct (le r r'); [apply Permutation_refl |].
  apply Permutation_trans with (r' :: r :: rows).
  - now apply perm_skip.
  - apply perm_swap.
Qed.

Lemma sort_by_perm (A : Type) (le : A -> A -> bool) (rows : list A) :
  Permutation (sort_by le rows) rows.
Proof.
  induction rows as [| r rows IH]; simpl; [constructor |].
  apply Permutation_trans with (r :: sort_by le rows).
  - apply insert_by_perm.
  - now apply perm_skip.
Qed.

Lemma insert_by_sorted (A : Type) (le : A -> A -> bool) (r : A)
    (rows : list A) :
  (forall a b, le a b = false -> le b a = true) ->
  Sorted (fun a b => le a b = true) rows ->
  Sorted (fun a b => le a b = true) (insert_by le r rows).
Proof.
  intros Htotal. induction 1 as [| r' rows Hrows IH Hhd]; simpl.
  - repeat constructor.
  - destruct (le r r') eqn:Hle.
    + constructor; [now constructor |]. now constructor.
    + constructor; [exact IH |].
      destruct rows as [| r'' rows]; simpl.
      * constructor. now apply Htotal.
      * destruct (le r r''); constructor;
          [now apply Htotal | now inversion Hhd].
Qed.

Lemma sort_by_sorted (A : Type) (le : A -> A -> bool) (rows : list A) :
  (forall a b, le a b = false -> le b a = true) ->
  Sorted (fun a b => le a b = true) (sort_by le rows).
Proof.
  intros Htotal. induction rows as [| r rows IH]; simpl; [constructor |].
  now apply insert_by_sorted.
Qed.

(** In a list in order, what a limit keeps comes before what it leaves. *)
Lemma limit_keeps_the_first (A : Type) (R : A -> A -> Prop) (l : list A)
    (n : nat) (a b : A) :
  StronglySorted R l ->
  In a (firstn n l) -> In b (skipn n l) -> R a b.
Proof.
  intros Hs. revert n. induction Hs as [| x l Hs IH Hall]; intros n Ha Hb.
  - rewrite firstn_nil in Ha. contradiction.
  - destruct n as [| n]; [contradiction |]. simpl in Ha, Hb.
    destruct Ha as [<- | Ha].
    + rewrite Forall_forall in Hall. apply Hall.
      rewrite <- (firstn_skipn n l). apply in_or_app. now right.
    + now apply (IH n).
Qed.

Lemma mapM_Forall2 (A B : Type) (f : A -> Exception + B) (l : list A)
    (l' : list B) :
  mapM f l = inr l' -> Forall2 (fun a b => f a = inr b) l l'.
Proof.
  revert l'. induction l as [| a l IH]; intros l'; cbn [mapM].
  - intros H. injection H as <-. constructor.
  - destruct (f a) as [e | b] eqn:Ha; cbn [bind]; [discriminate |].
    destruct (mapM f l) as [e | bs]; cbn [bind ret]; [discriminate |].
    intros H. injection H as <-. constructor; [exact Ha | now apply IH].
Qed.

Lemma mapM_succeeds (A B : Type) (f : A -> Exception + B) (l : list A) :
  (forall a, In a l -> exists b, f a = inr b) ->
  exists l', mapM f l = inr l'.
Proof.
  induction l as [| a l IH]; intros H; cbn [mapM].
  - now eexists.
  - destruct (H a (or_introl eq_refl)) as [b ->]. cbn [bind].
    destruct IH as [bs ->]; [intros x Hx; apply H; now right |].
    now eexists.
Qed.

Lemma mapM_fails (A B : Type) (f : A -> Exception + B) (l : list A)
    (a : A) (e : Exception) :
  (forall x e', f x = inl e' -> e' = e) ->
  In a l -> f a = inl e -> mapM f l = inl e.
Proof.
  intros Honly Hin Ha. induction l as [| x l IH]; [contradiction |].
  cbn [mapM]. destruct (f x) as [e' | b] eqn:Hx; cbn [bind].
  - now rewrite (Honly x e' Hx).
  - destruct Hin as [-> | Hin]; [congruence |].
    now rewrite (IH Hin).
Qed.

Lemma Forall2_In_r (A B : Type) (P : A -> B -> Prop) (l : list A)
    (l' : list B) (b : B) :
  Forall2 P l l' -> In b l' -> exists a, In a l /\ P a b.
Proof.
  induction 1 as [| x y l l' Hxy H IH]; [contradiction |].
  intros [<- | Hin].
  - exists x. split; [now left | assumption].
  - destruct (IH Hin) as [a [Ha Hp]]. exists a. split; [now right | assumption].
Qed.

Lemma Sorted_Forall2 (A B : Type) (R : A -> A -> Prop) (R' : B -> B -> Prop)
    (P : A -> B -> Prop) (l : list A) (l' : list B) :
  (forall a b x y, R a b -> P a x -> P b y -> R' x y) ->
  Sorted R l -> Forall2 P l l' -> Sorted R' l'.
Proof.
  intros Hmono Hs H. induction H as [| x y l l' Hxy H IH]; [constructor |].
  inversion Hs as [| ? ? Hs' Hhd]; subst.
  constructor; [now apply IH |].
  destruct H as [| x' y' l l' Hxy' H]; constructor.
  inversion Hhd; subst. now apply (Hmono x x').
Qed.

Lemma nearer_total (a b : Skill.t * option Q) :
  nearer a b = false -> nearer b a = true.
Proof.
  unfold nearer. destruct (snd a) as [x |], (snd b) as [y |];
    try discriminate; try reflexivity.
  intros H. apply Qle_bool_iff. apply Qlt_le_weak, Qnot_le_lt.
  intros Hc. apply Qle_bool_iff in Hc. congruence.
Qed.

Lemma more_demanded_total (a b : Skill.t) :
  more_demanded a b = false -> more_demanded b a = true.
Proof.
  unfold more_demanded.
  destruct (Skill.demand_score a) as [x |], (Skill.demand_score b) as [y |];
    try discriminate; try reflexivity.
  intros H. apply Qle_bool_iff. apply Qlt_le_weak, Qnot_le_lt.
  intros Hc. apply Qle_bool_iff in Hc. congruence.
Qed.

Lemma more_demanded_trans (a b c : Skill.t) :
  more_demanded a b = true -> more_demanded b c = true ->
  more_demanded a c = true.
Proof.
  unfold more_demanded.
  destruct (Skill.demand_score a) as [x |], (Skill.demand_score b) as [y |],
    (Skill.demand_score c) as [z |]; try discriminate; try reflexivity.
  rewrite !Qle_bool_iff. intros H1 H2. now apply Qle_trans with y.
Qed.

(** X24.  [create_skill] keeps the names of the table distinct: a call
    that succeeds appends one row, with the name asked for, a name no
    other row has and that is not blank, and with the embedding of that
    name. *)
Theorem create_skill_keeps_names_distinct (env : Environment)
    (skill : SkillCreate.t) (new_id : Z) (table table' : list Skill.t)
    (row : Skill.t) :
  NoDup (map Skill.name table) ->
  create_skill env skill new_id table = inr (row, table') ->
  table' = (table ++ [row])%list
  /\ Skill.name row = SkillCreate.name skill
  /\ Skill.embedding row = Some (encode env (SkillCreate.name skill))
  /\ PyStr.blank (SkillCreate.name skill) = false
  /\ ~ In (SkillCreate.name skill) (map Skill.name table)
  /\ NoDup (map Skill.name table').
Proof.
  intros Hnodup. unfold create_skill, find_skill_named, generate_embedding.
  destruct (find _ table) as [existing |] eqn:Hfind; [discriminate |].
  destruct (PyStr.blank (SkillCreate.name skill)); cbn [bind raise ret];
    [discriminate |].
  intros H. injection H as <- <-. cbn [Skill.name Skill.embedding].
  assert (Hnew : ~ In (SkillCreate.name skill) (map Skill.name table)).
  { intros Hin. apply in_map_iff in Hin. destruct Hin as [s [Hs Hin]].
    pose proof (find_none _ _ Hfind s Hin) as Hne. cbn beta in Hne.
    rewrite Hs, String.eqb_refl in Hne. discriminate. }
  repeat (split; [reflexivity |]). split; [exact Hnew |].
  rewrite map_app. cbn [map Skill.name].
  apply (Permutation_NoDup
           (l := SkillCreate.name skill :: map Skill.name table)).
  - apply Permutation_cons_append.
  - now constructor.
Qed.

Lemma create_skill_keeps_names_distinct_witness :
  (SkillSample.table
     ++ [Skill.mk 4 "Rust" (Some "Programming") None None None
           (Some [0%Q])])%list
  = (SkillSample.table
       ++ [Skill.mk 4 "Rust" (Some "Programming") None None None
             (Some [0%Q])])%list
  /\ Skill.name
       (Skill.mk 4 "Rust" (Some "Programming") None None None (Some [0%Q]))
     = SkillCreate.name SkillSample.rust
  /\ Skill.embedding
       (Skill.mk 4 "Rust" (Some "Programming") None None None (Some [0%Q]))
     = Some (encode MatchSample.environment
               (SkillCreate.name SkillSample.rust))
  /\ PyStr.blank (SkillCreate.name SkillSample.rust) = false
  /\ ~ In (SkillCreate.name SkillSample.rust)
         (map Skill.name SkillSample.table)
  /\ NoDup
       (map Skill.name
          (SkillSample.table
             ++ [Skill.mk 4 "Rust" (Some "Programming") None None None
                   (Some [0%Q])])%list).
Proof.
  apply (create_skill_keeps_names_distinct MatchSample.environment
           SkillSample.rust 4 SkillSample.table).
  - repeat constructor; simpl; intuition discriminate.
  - reflexivity.
Defined.

Lemma find_in_app (A : Type) (f : A -> bool) (l l' : list A) :
  find f (l ++ l')
  = match find f l with
    | Some a => Some a
    | None => find f l'
    end.
Proof.
  induction l as [| a l IH]; simpl; [reflexivity |].
  now destruct (f a).
Qed.

(** X25.  Create, then read or create again: where the key given to the
    new row is the key of no other row, [get_skill] of that key returns the
    row just created, and every later [create_skill] with the same name,
    whatever its category and description, is refused with status 400. *)
Theorem created_skill_is_found_and_not_created_twice (env : Environment)
    (skill : SkillCreate.t) (new_id : Z) (table table' : list Skill.t)
    (row : Skill.t) :
  (forall s, In s table -> Skill.id s <> new_id) ->
  create_skill env skill new_id table = inr (row, table') ->
  get_skill new_id table' = inr row
  /\ forall again other_id,
      SkillCreate.name again = SkillCreate.name skill ->
      create_skill env again other_id table'
      = inl (HTTPException 400 "Skill already exists").
Proof.
  intros Hfresh. unfold create_skill at 1.
  unfold find_skill_named, generate_embedding.
  destruct (find _ table) as [existing |] eqn:Hfind; [discriminate |].
  destruct (PyStr.blank (SkillCreate.name skill)); cbn [bind raise ret];
    [discriminate |].
  intros H. injection H as <- <-. split.
  - unfold get_skill. rewrite find_in_app.
    destruct (find (fun s => Skill.id s =? new_id) table) as [s |] eqn:Hs.
    + apply find_some in Hs. destruct Hs as [Hin Heq].
      apply Z.eqb_eq in Heq. now destruct (Hfresh s Hin).
    + cbn [find Skill.id]. now rewrite Z.eqb_refl.
  - intros again other_id Hname. unfold create_skill, find_skill_named.
    rewrite Hname, find_in_app, Hfind. cbn [find Skill.name].
    now rewrite String.eqb_refl.
Qed.

Lemma created_skill_is_found_and_not_created_twice_witness :
  get_skill 4
    (SkillSample.table
       ++ [Skill.mk 4 "Rust" (Some "Programming") None None None
             (Some [0%Q])])%list
  = inr (Skill.mk 4 "Rust" (Some "Programming") None None None (Some [0%Q]))
  /\ forall again other_id,
      SkillCreate.name again = SkillCreate.name SkillSample.rust ->
      create_skill MatchSample.environment again other_id
        (SkillSample.table
           ++ [Skill.mk 4 "Rust" (Some "Programming") None None None
                 (Some [0%Q])])%list
      = inl (HTTPException 400 "Skill already exists").
Proof.
  apply (created_skill_is_found_and_not_created_twice
           MatchSample.environment SkillSample.rust 4 SkillSample.table).
  - simpl. intros s [<- | [<- | [<- | []]]]; discriminate.
  - reflexivity.
Defined.

Lemma skill_rows_in (env : Environment) (request : SkillSearchRequest.t)
    (table : list Skill.t) (query : Vector) (row : Skill.t * option Q) :
  In row (skill_rows env request table query) ->
  In (fst row) table /\ snd row = skill_distance env query (fst row).
Proof.
  unfold skill_rows. intros H. apply In_firstn in H.
  apply (Permutation_in row (sort_by_perm _ _ _)) in H.
  apply in_map_iff in H. destruct H as [s [<- Hs]]. now split.
Qed.

(** X26.  What [search_skills] answers: at most [limit] results, by
    similarity from the highest down; each names a skill of the table that
    has an embedding, with one minus its distance to the query as
    similarity, a category that is never empty, and a job count of zero. *)
Theorem search_results_are_ranked (env : Environment)
    (request : SkillSearchRequest.t) (table : list Skill.t)
    (results : list SkillSearchResult.t) :
  search_skills env request table = inr results ->
  (List.length results <= SkillSearchRequest.limit request)%nat
  /\ Sorted
       (fun a b =>
          (SkillSearchResult.similarity_score b
           <= SkillSearchResult.similarity_score a)%Q)
       results
  /\ forall r,
      In r results ->
      SkillSearchResult.category r <> EmptyString
      /\ SkillSearchResult.job_count r = 0
      /\ exists skill embedding,
          In skill table
          /\ Skill.embedding skill = Some embedding
          /\ SkillSearchResult.skill_name r = Skill.name skill
          /\ SkillSearchResult.demand_score r = Skill.demand_score skill
          /\ SkillSearchResult.similarity_score r
             = (1 - cosine_distance env embedding
                      (encode env (SkillSearchRequest.query request)))%Q.
Proof.
  unfold search_skills, generate_embedding.
  destruct (PyStr.blank (SkillSearchRequest.query request));
    cbn [bind raise ret]; [discriminate |].
  intros H. apply mapM_Forall2 in H.
  set (query := encode env (SkillSearchRequest.query request)) in *.
  split; [| split].
  - rewrite <- (Forall2_length H). unfold skill_rows.
    rewrite length_firstn. lia.
  - apply (Sorted_Forall2 _ _
             (fun a b => nearer a b = true)
             (fun a b =>
                (SkillSearchResult.similarity_score b
                 <= SkillSearchResult.similarity_score a)%Q)
             (fun a b => search_result a = inr b)
             (skill_rows env request table query) results); [| | exact H].
    + intros a b x y Hab Ha Hb. unfold search_result in Ha, Hb.
      unfold nearer in Hab.
      destruct (snd a) as [da |]; [| discriminate].
      destruct (snd b) as [db |]; [| discriminate].
      injection Ha as <-. injection Hb as <-.
      cbn [SkillSearchResult.similarity_score].
      apply Qle_bool_iff in Hab.
      apply Qplus_le_r. now apply Qopp_le_compat.
    + unfold skill_rows. apply Sorted_firstn.
      apply sort_by_sorted. exact nearer_total.
  - intros r Hr. destruct (Forall2_In_r _ _ _ _ _ _ H Hr) as [row [Hrow Hp]].
    apply skill_rows_in in Hrow. destruct Hrow as [Hin Hd].
    unfold search_result in Hp. rewrite Hd in Hp.
    unfold skill_distance in Hp.
    destruct (Skill.embedding (fst row)) as [embedding |] eqn:He;
      [| discriminate].
    cbn [option_map] in Hp. injection Hp as <-.
    cbn [SkillSearchResult.category SkillSearchResult.job_count
           SkillSearchResult.skill_name SkillSearchResult.demand_score
           SkillSearchResult.similarity_score].
    split; [| split; [reflexivity |]].
    + destruct (Skill.category (fst row)) as [[| c rest] |]; discriminate.
    + exists (fst row), embedding. repeat split; assumption.
Qed.

Lemma search_results_are_ranked_witness :
  (List.length SkillSample.found
   <= SkillSearchRequest.limit SkillSample.request)%nat
  /\ Sorted
       (fun a b =>
          (SkillSearchResult.similarity_score b
           <= SkillSearchResult.similarity_score a)%Q)
       SkillSample.found
  /\ forall r,
      In r SkillSample.found ->
      SkillSearchResult.category r <> EmptyString
      /\ SkillSearchResult.job_count r = 0
      /\ exists skill embedding,
          In skill SkillSample.table
          /\ Skill.embedding skill = Some embedding
          /\ SkillSearchResult.skill_name r = Skill.name skill
          /\ SkillSearchResult.demand_score r = Skill.demand_score skill
          /\ SkillSearchResult.similarity_score r
             = (1 - cosine_distance MatchSample.environment embedding
                      (encode MatchSample.environment
                         (SkillSearchRequest.query SkillSample.request)))%Q.
Proof.
  apply (search_results_are_ranked MatchSample.environment
           SkillSample.request SkillSample.table SkillSample.found).
  vm_compute. reflexivity.
Defined.

(** X27.  For a query that is not blank: when every skill of the table has
    an embedding, [search_skills] answers with [limit] results, or with as
    many as the table has skills when those are fewer; when some skill has
    none and the table has no more than [limit] skills, it raises
    [TypeError], for what [1 - None] is. *)
Theorem search_needs_every_embedding (env : Environment)
    (request : SkillSearchRequest.t) (table : list Skill.t) :
  PyStr.blank (SkillSearchRequest.query request) = false ->
  ((forall skill, In skill table -> Skill.embedding skill <> None) ->
   exists results,
     search_skills env request table = inr results
     /\ List.length results
        = Nat.min (SkillSearchRequest.limit request) (List.length table))
  /\ ((exists skill, In skill table /\ Skill.embedding skill = None) ->
      (List.length table <= SkillSearchRequest.limit request)%nat ->
      search_skills env request table = inl TypeError).
Proof.
  intros Hquery. unfold search_skills, generate_embedding.
  rewrite Hquery. cbn [bind ret].
  set (query := encode env (SkillSearchRequest.query request)).
  assert (Hlen : List.length
                   (sort_by nearer
                      (map (fun s => (s, skill_distance env query s)) table))
                 = List.length table).
  { rewrite (Permutation_length (sort_by_perm _ _ _)). apply length_map. }
  split.
  - intros Hall.
    destruct (mapM_succeeds _ _ search_result
                (skill_rows env request table query)) as [results Hres].
    { intros row Hrow. apply skill_rows_in in Hrow.
      destruct Hrow as [Hin Hd]. unfold search_result. rewrite Hd.
      unfold skill_distance.
      destruct (Skill.embedding (fst row)) eqn:He;
        [| now destruct (Hall _ Hin)].
      now eexists. }
    exists results. split; [exact Hres |].
    apply mapM_Forall2 in Hres. rewrite <- (Forall2_length Hres).
    unfold skill_rows. now rewrite length_firstn, Hlen.
  - intros [skill [Hin Hnone]] Hlimit.
    apply (mapM_fails _ _ search_result _ (skill, None)).
    + intros x e'. unfold search_result.
      destruct (snd x); [discriminate |]. intros H. now injection H as <-.
    + unfold skill_rows. rewrite firstn_all2; [| now rewrite Hlen].
      apply (Permutation_in _ (Permutation_sym (sort_by_perm _ _ _))).
      apply in_map_iff. exists skill. split; [| exact Hin].
      unfold skill_distance. now rewrite Hnone.
    + reflexivity.
Qed.

Lemma search_needs_every_embedding_witness :
  ((forall skill,
       In skill SkillSample.table -> Skill.embedding skill <> None) ->
   exists results,
     search_skills MatchSample.environment SkillSample.request
       SkillSample.table
     = inr results
     /\ List.length results
        = Nat.min (SkillSearchRequest.limit SkillSample.request)
            (List.length SkillSample.table))
  /\ ((exists skill,
          In skill SkillSample.table /\ Skill.embedding skill = None) ->
      (List.length SkillSample.table
       <= SkillSearchRequest.limit SkillSample.request)%nat ->
      search_skills MatchSample.environment SkillSample.request
        SkillSample.table
      = inl TypeError).
Proof.
  apply (search_needs_every_embedding MatchSample.environment
           SkillSample.request SkillSample.table).
  reflexivity.
Defined.

(** X28.  [get_trending_skills] answers with the best scored skills: at
    most [limit] of them, each a skill of the table with a demand score,
    from the highest score down, and no skill with a score that is left out
    has a higher score than one that is listed. *)
Theorem trending_skills_are_the_most_demanded (limit : nat)
    (table : list Skill.t) :
  (List.length (get_trending_skills limit table) <= limit)%nat
  /\ (forall skill,
         In skill (get_trending_skills limit table) ->
         In skill table /\ Skill.demand_score skill <> None)
  /\ Sorted (fun a b => more_demanded a b = true)
       (get_trending_skills limit table)
  /\ exists rest,
      Permutation (get_trending_skills limit table ++ rest)
        (filter scored table)
      /\ forall listed left x y,
          In listed (get_trending_skills limit table) ->
          In left rest ->
          Skill.demand_score listed = Some x ->
          Skill.demand_score left = Some y ->
          (y <= x)%Q.
Proof.
  unfold get_trending_skills.
  set (ordered := sort_by more_demanded (filter scored table)).
  assert (Hperm : Permutation ordered (filter scored table))
    by apply sort_by_perm.
  assert (Hsorted : Sorted (fun a b => more_demanded a b = true) ordered)
    by (apply sort_by_sorted; exact more_demanded_total).
  split; [rewrite length_firstn; lia |]. split; [| split].
  - intros skill Hin. apply In_firstn in Hin.
    apply (Permutation_in _ Hperm) in Hin. apply filter_In in Hin.
    destruct Hin as [Hin Hscored]. split; [exact Hin |].
    unfold scored in Hscored.
    now destruct (Skill.demand_score skill).
  - now apply Sorted_firstn.
  - exists (skipn limit ordered). split.
    + now rewrite firstn_skipn.
    + intros listed left x y Hlisted Hleft Hx Hy.
      assert (Hle : more_demanded listed left = true).
      { apply (limit_keeps_the_first _
                 (fun a b => more_demanded a b = true) ordered limit);
          [| assumption | assumption].
        apply Sorted_StronglySorted; [| exact Hsorted].
        intros a b c. apply more_demanded_trans. }
      unfold more_demanded in Hle. rewrite Hx, Hy in Hle.
      now apply Qle_bool_iff.
Qed.

(** X29.  The rows [match_jobs] keeps are the nearest ones: they and the
    rows the limit leaves out are together the rows of the table that pass
    the filters, and no row left out is nearer to the skills of the request
    than a row that is kept. *)
Theorem no_row_left_out_is_nearer (env : Environment)
    (request : JobMatchRequest.t) (table : list JobRow.t) (query : Vector) :
  exists rest,
    Permutation (matching_rows env request table query ++ rest)
      (map (fun row =>
              (row,
               cosine_distance env
                 (JobPosting.skills_embedding (JobRow.posting row)) query))
         (filter (passes_filters request) table))
    /\ forall kept left,
        In kept (matching_rows env request table query) ->
        In left rest ->
        (snd kept <= snd left)%Q.
Proof.
  unfold matching_rows.
  set (rows := map _ (filter (passes_filters request) table)).
  exists (skipn (JobMatchRequest.limit request) (nearest_first rows)).
  split.
  - rewrite firstn_skipn. apply nearest_first_perm.
  - intros kept left Hkept Hleft.
    apply (limit_keeps_the_first _ (fun a b => (snd a <= snd b)%Q)
             (nearest_first rows) (JobMatchRequest.limit request));
      [| assumption | assumption].
    apply Sorted_StronglySorted; [| apply nearest_first_sorted].
    intros a b c Hab Hbc. now apply Qle_trans with (snd b).
Qed.

(** ** Loaded postings *)

Lemma loaded_experience_level_values (cell : option string) :
  loaded_experience_level cell = "Entry"
  \/ loaded_experience_level cell = "Mid"
  \/ loaded_experience_level cell = "Senior"
  \/ loaded_experience_level cell = "Executive".
Proof.
  unfold loaded_experience_level. destruct cell as [cell |]; [| tauto].
  cbv zeta.
  destruct (PyStr.contains "entry" _ || PyStr.contains "junior" _);
    [tauto |].
  destruct (PyStr.contains "senior" _ || PyStr.contains "lead" _
            || PyStr.contains "principal" _); [tauto |].
  destruct (PyStr.contains "director" _ || PyStr.contains "executive" _);
    tauto.
Qed.

Lemma loaded_remote_type_values (cell : option string) :
  loaded_remote_type cell = "Remote" \/ loaded_remote_type cell = "On-site".
Proof.
  unfold loaded_remote_type. destruct cell as [cell |]; [| tauto].
  destruct (String.eqb cell "1" || String.eqb (PyStr.lower cell) "true");
    tauto.
Qed.

Lemma equality_filter_other (value actual : string) :
  value <> EmptyString -> actual <> value ->
  equality_filter (Some value) (Some actual) = false.
Proof.
  intros Hne Hother. unfold equality_filter.
  destruct value as [| c value]; [congruence |].
  now apply String.eqb_neq.
Qed.

Lemma matching_rows_none (env : Environment) (request : JobMatchRequest.t)
    (table : list JobRow.t) (query : Vector) :
  (forall row, In row table -> passes_filters request row = false) ->
  matching_rows env request table query = [].
Proof.
  intros Hnone. unfold matching_rows.
  assert (Hfilter : filter (passes_filters request) table = []).
  { induction table as [| row table IH]; [reflexivity |]. simpl.
    rewrite (Hnone row (or_introl eq_refl)). apply IH.
    intros r Hr. apply Hnone. now right. }
  rewrite Hfilter. simpl. apply firstn_nil.
Qed.

(** X30.  The loader files every posting under one of the levels Entry,
    Mid, Senior and Executive and one of the remote types Remote and
    On-site, so on a table it loaded the query of [match_jobs] finds no
    row for any other level that is asked for, nor for any other remote
    type. *)
Theorem loaded_postings_match_only_loader_values (env : Environment)
    (request : JobMatchRequest.t) (table : list JobRow.t) (query : Vector) :
  (forall row,
      In row table ->
      exists level remote,
        JobRow.experience_level row = Some (loaded_experience_level level)
        /\ JobRow.remote_type row = Some (loaded_remote_type remote)) ->
  (forall level,
      JobMatchRequest.experience_level request = Some level ->
      ~ In level [EmptyString; "Entry"; "Mid"; "Senior"; "Executive"] ->
      matching_rows env request table query = [])
  /\ (forall kind,
         JobMatchRequest.remote_type request = Some kind ->
         ~ In kind [EmptyString; "Remote"; "On-site"] ->
         matching_rows env request table query = []).
Proof.
  intros Hloaded. split.
  - intros level Hlevel Hother. apply matching_rows_none.
    intros row Hrow. destruct (Hloaded row Hrow) as [cell [_ [Hcell _]]].
    unfold passes_filters. rewrite Hlevel, Hcell.
    rewrite equality_filter_other.
    + now rewrite andb_false_r.
    + intros ->. apply Hother. now left.
    + intros Heq. apply Hother. simpl.
      destruct (loaded_experience_level_values cell) as [H | [H | [H | H]]];
        rewrite H in Heq; subst level; tauto.
  - intros kind Hkind Hother. apply matching_rows_none.
    intros row Hrow. destruct (Hloaded row Hrow) as [_ [cell [_ Hcell]]].
    unfold passes_filters. rewrite Hkind, Hcell.
    rewrite equality_filter_other.
    + now rewrite andb_false_r.
    + intros ->. apply Hother. now left.
    + intros Heq. apply Hother. simpl.
      destruct (loaded_remote_type_values cell) as [H | H];
        rewrite H in Heq; subst kind; tauto.
Qed.

Lemma loaded_postings_match_only_loader_values_witness :
  (forall level,
      JobMatchRequest.experience_level LoadedSample.junior_request
      = Some level ->
      ~ In level [EmptyString; "Entry"; "Mid"; "Senior"; "Executive"] ->
      matching_rows MatchSample.environment LoadedSample.junior_request
        LoadedSample.table [0%Q]
      = [])
  /\ (forall kind,
         JobMatchRequest.remote_type LoadedSample.junior_request
         = Some kind ->
         ~ In kind [EmptyString; "Remote"; "On-site"] ->
         matching_rows MatchSample.environment LoadedSample.junior_request
           LoadedSample.table [0%Q]
         = []).
Proof.
  apply (loaded_postings_match_only_loader_values
           MatchSample.environment LoadedSample.junior_request
           LoadedSample.table [0%Q]).
  intros row [<- | [<- | []]].
  - exists (Some "Associate"), (Some "1.0"). split; reflexivity.
  - exists (Some "Mid-Senior level"), None. split; reflexivity.
Defined.
